(** * CloudBooter: free-tier quota validators and resource planners

    A shallow embedding of the two validators and of the OCI planners of
    the CloudBooter command line tools, with the properties the
    specification states about them.

    - [GCP.validate_proposed_config] embeds
      [cloud/GCP/src/cloudbooter/free_tier.py];
    - module [OCI] embeds the planner, validator and Terraform variables
      renderer of [cloud/OCI/src/cloudbooter/cli.py].

    Python values are modelled as follows: [int] is [Z] (unbounded),
    [str] is [string] (characters with code points below 256), [list] is
    [list],
    [str | None] is [option string], a [dict[str, str]] is an association
    list in insertion order, and a raised exception is the [Raise] case of
    [result]. *)

From Stdlib Require Import ZArith List String Ascii Bool Lia.
From Stdlib Require Import Decimal DecimalString DecimalPos DecimalZ.
Import ListNotations.

#[local] Open Scope string_scope.
#[local] Open Scope Z_scope.

(* ================================================================== *)
(** * Python prelude *)
(* ================================================================== *)

Module Py.

(** Exceptions the modelled code can raise. *)
Inductive exn : Type :=
| IndexError
| ValueError
| OverflowError
| Abort
| ClickException (message : string).

Inductive result (A : Type) : Type :=
| Ok (a : A)
| Raise (e : exn).
Arguments Ok {A} a.
Arguments Raise {A} e.

Definition bind {A B : Type} (m : result A) (k : A -> result B) : result B :=
  match m with
  | Ok a => k a
  | Raise e => Raise e
  end.

Definition is_ok {A : Type} (m : result A) : bool :=
  match m with Ok _ => true | Raise _ => false end.

(** [for x in xs: ys.append(f(x))] with a fallible [f]. *)
Fixpoint mapM {A B : Type} (f : A -> result B) (xs : list A) : result (list B) :=
  match xs with
  | [] => Ok []
  | x :: xs' =>
      bind (f x) (fun y => bind (mapM f xs') (fun ys => Ok (y :: ys)))
  end.

(** ** Truthiness *)

Definition truthy_str (s : string) : bool :=
  match s with EmptyString => false | String _ _ => true end.

(** [bool(x)] for [x : str | None]. *)
Definition truthy (o : option string) : bool :=
  match o with None => false | Some s => truthy_str s end.

(** [x or ''] for [x : str | None]. *)
Definition or_empty (o : option string) : string :=
  match o with
  | None => EmptyString
  | Some s => s
  end.

(** ** [str(int)] *)

Definition str_Z (z : Z) : string :=
  match z with
  | Z0 => "0"
  | Zpos p => NilEmpty.string_of_uint (Pos.to_uint p)
  | Zneg p => String "-" (NilEmpty.string_of_uint (Pos.to_uint p))
  end.

(** ** Characters *)

Definition is_digit (c : ascii) : bool :=
  let n := nat_of_ascii c in (Nat.leb 48 n && Nat.leb n 57)%bool.

(** The characters below 256 that [str.strip] treats as white space. *)
Definition is_space (c : ascii) : bool :=
  let n := nat_of_ascii c in
  ((Nat.leb 9 n && Nat.leb n 13) || (Nat.leb 28 n && Nat.leb n 32)
   || Nat.eqb n 133 || Nat.eqb n 160)%bool.

(** The characters below 256 that [int] skips around a literal: the white
    space of [str.strip] without the separators 28 to 31, which [int]
    refuses. *)
Definition is_int_space (c : ascii) : bool :=
  let n := nat_of_ascii c in
  ((Nat.leb 9 n && Nat.leb n 13) || Nat.eqb n 32 || Nat.eqb n 133 || Nat.eqb n 160)%bool.

(** The characters of [str(z)]: a digit or the minus sign. *)
Definition sign_or_digit (c : ascii) : bool := (is_digit c || Ascii.eqb c "-")%bool.

Fixpoint forall_chars (p : ascii -> bool) (s : string) : bool :=
  match s with
  | EmptyString => true
  | String c r => (p c && forall_chars p r)%bool
  end.

(** ** [s.strip()]

    The characters [space] accepts are removed from both ends. *)

Fixpoint lstrip (space : ascii -> bool) (s : string) : string :=
  match s with
  | EmptyString => EmptyString
  | String c r => if space c then lstrip space r else s
  end.

Fixpoint rstrip (space : ascii -> bool) (s : string) : string :=
  match s with
  | EmptyString => EmptyString
  | String c r =>
      match rstrip space r with
      | EmptyString => if space c then EmptyString else String c EmptyString
      | t => String c t
      end
  end.

Definition strip (s : string) : string := rstrip is_space (lstrip is_space s).

(** ** [int(s)] for a string [s]

    Optional surrounding white space, an optional sign, then decimal
    digits in which single underscores may separate digits. *)

Fixpoint drop_underscores (after_digit : bool) (s : string) : option string :=
  match s with
  | EmptyString => Some EmptyString
  | String c r =>
      if Ascii.eqb c "_" then
        if after_digit then
          match r with
          | String c' _ => if is_digit c' then drop_underscores false r else None
          | EmptyString => None
          end
        else None
      else option_map (String c) (drop_underscores (is_digit c) r)
  end.

Definition int_of_digits (s : string) : result Z :=
  match drop_underscores false s with
  | Some (String c r) =>
      match NilEmpty.uint_of_string (String c r) with
      | Some u => Ok (Z.of_uint u)
      | None => Raise ValueError
      end
  | _ => Raise ValueError
  end.

Definition int (s : string) : result Z :=
  match rstrip is_int_space (lstrip is_int_space s) with
  | String c r =>
      if Ascii.eqb c "-" then bind (int_of_digits r) (fun z => Ok (- z))
      else if Ascii.eqb c "+" then int_of_digits r
      else int_of_digits (String c r)
  | EmptyString => Raise ValueError
  end.

(** ** [s.split(sep)] for a one-character separator, [sep.join(xs)] *)

Fixpoint split (sep : ascii) (s : string) : list string :=
  match s with
  | EmptyString => [EmptyString]
  | String c r =>
      if Ascii.eqb c sep then EmptyString :: split sep r
      else
        match split sep r with
        | h :: t => String c h :: t
        | [] => [String c EmptyString]
        end
  end.

Definition join (sep : string) (xs : list string) : string :=
  String.concat sep xs.

(** [xs[i]] for a non-negative index. *)
Definition index {A : Type} (xs : list A) (i : nat) : result A :=
  match nth_error xs i with
  | Some x => Ok x
  | None => Raise IndexError
  end.

(** [sum(xs)] *)
Definition sum (xs : list Z) : Z := fold_left Z.add xs 0.

(** [x in xs] for a tuple of strings. *)
Definition str_in (x : string) (xs : list string) : bool :=
  existsb (String.eqb x) xs.

(** [s.startswith(p)] *)
Definition startswith (s p : string) : bool := String.prefix p s.

(** [int(b)] for a boolean, used to count the conditions that hold. *)
Definition b2n (b : bool) : nat := if b then 1%nat else 0%nat.

End Py.

Import Py.

Notation "x <- m ;; k" := (Py.bind m (fun x => k))
  (at level 61, m at next level, right associativity).

(* ================================================================== *)
(** * GCP: [free_tier.py] *)
(* ================================================================== *)

Module GCP.

(** The fields of [GCPFreeTierLimits] the validator reads. *)
Record GCPFreeTierLimits : Type := {
  free_machine_type : string;
  free_compute_regions : list string;
  free_standard_pd_gb : Z;
  free_storage_regions : list string
}.

Definition LIMITS : GCPFreeTierLimits := {|
  free_machine_type := "e2-micro";
  free_compute_regions := ["us-west1"; "us-central1"; "us-east1"];
  free_standard_pd_gb := 30;
  free_storage_regions := ["us-east1"; "us-west1"; "us-central1"]
|}.

Definition machine_type_error (limits : GCPFreeTierLimits) (machine_type : string) : string :=
  "ERROR: Machine type '" ++ machine_type ++ "' is not Always Free. "
  ++ "Only '" ++ free_machine_type limits ++ "' is free. "
  ++ "Set GCP_ALLOW_PAID_RESOURCES=true to override.".

Definition region_error (limits : GCPFreeTierLimits) (region : string) : string :=
  "ERROR: Region '" ++ region ++ "' is not Always Free for Compute Engine. "
  ++ "Free regions: " ++ join ", " (free_compute_regions limits) ++ ".".

Definition boot_disk_error (limits : GCPFreeTierLimits) (boot_disk_size_gb : Z) : string :=
  "ERROR: Boot disk " ++ str_Z boot_disk_size_gb ++ " GB exceeds Always Free cap "
  ++ "of " ++ str_Z (free_standard_pd_gb limits) ++ " GB standard PD.".

Definition storage_region_error (limits : GCPFreeTierLimits) (storage_region : string) : string :=
  "ERROR: Cloud Storage region '" ++ storage_region ++ "' is not Always Free. "
  ++ "Free regions: " ++ join ", " (free_storage_regions limits) ++ ".".

(** [errors.append(msg)] under [if cond:]. *)
Definition append_if (cond : bool) (msg : string) (errors : list string) : list string :=
  if cond then errors ++ [msg] else errors.

Definition validate_proposed_config
    (machine_type region : string) (boot_disk_size_gb : Z)
    (storage_region : option string) (allow_paid_resources : bool) : list string :=
  let errors := [] in
  let limits := LIMITS in
  if negb allow_paid_resources then
    let errors :=
      append_if (negb (String.eqb machine_type (free_machine_type limits)))
        (machine_type_error limits machine_type) errors in
    let errors :=
      append_if (negb (str_in region (free_compute_regions limits)))
        (region_error limits region) errors in
    let errors :=
      append_if (boot_disk_size_gb >? free_standard_pd_gb limits)
        (boot_disk_error limits boot_disk_size_gb) errors in
    let errors :=
      match storage_region with
      | Some sr =>
          append_if (truthy_str sr && negb (str_in sr (free_storage_regions limits)))
            (storage_region_error limits sr) errors
      | None => errors
      end in
    errors
  else errors.

(** The four checks of the validator, as the conditions under which the
    code appends an entry. *)
Definition bad_machine_type (machine_type : string) : bool :=
  negb (String.eqb machine_type (free_machine_type LIMITS)).

Definition bad_region (region : string) : bool :=
  negb (str_in region (free_compute_regions LIMITS)).

Definition bad_boot_disk (boot_disk_size_gb : Z) : bool :=
  boot_disk_size_gb >? free_standard_pd_gb LIMITS.

(** A storage region is supplied when the argument is neither [None] nor
    the empty string (Python truthiness). *)
Definition bad_storage_region (storage_region : option string) : bool :=
  match storage_region with
  | Some sr => (truthy_str sr && negb (str_in sr (free_storage_regions LIMITS)))%bool
  | None => false
  end.

(** Number of entries of [errors] that report the check whose messages
    start with [tag]. *)
Definition count_tag (tag : string) (errors : list string) : nat :=
  List.length (filter (fun e => startswith e tag) errors).

(** ** The callers in [cli.py]

    [deploy] stops with status 1 when an entry starts with [ERROR:];
    [validate] prints every entry and exits with status 1 when one starts
    with [ERROR], with status 0 otherwise. *)

Definition hard_errors (errors : list string) : list string :=
  filter (fun e => startswith e "ERROR:") errors.

Definition deploy_stops (errors : list string) : bool :=
  match hard_errors errors with
  | [] => false
  | _ :: _ => true
  end.

Definition validate_exit_status (errors : list string) : Z :=
  match errors with
  | [] => 0
  | _ :: _ => if existsb (fun e => startswith e "ERROR") errors then 1 else 0
  end.

End GCP.

(* ================================================================== *)
(** * OCI: [cli.py] *)
(* ================================================================== *)

Module OCI.

Definition FREE_TIER_MAX_AMD_INSTANCES : Z := 2.
Definition FREE_TIER_AMD_SHAPE : string := "VM.Standard.E2.1.Micro".
Definition FREE_TIER_MAX_ARM_OCPUS : Z := 4.
Definition FREE_TIER_MAX_ARM_MEMORY_GB : Z := 24.
Definition FREE_TIER_ARM_SHAPE : string := "VM.Standard.A1.Flex".
Definition FREE_TIER_MAX_STORAGE_GB : Z := 200.
Definition FREE_TIER_MIN_BOOT_VOLUME_GB : Z := 47.
Definition FREE_TIER_MAX_ARM_INSTANCES : Z := 4.
Definition FREE_TIER_MAX_VCNS : Z := 2.

(** ** Data model *)

(** A [dict[str, str]]: keys in insertion order, each key once. *)
Definition dict : Type := list (string * string).

Definition values (d : dict) : list string := map snd d.

Definition len {A : Type} (xs : list A) : Z := Z.of_nat (List.length xs).

(** [d[k] = v] *)
Fixpoint setitem (d : dict) (k v : string) : dict :=
  match d with
  | [] => [(k, v)]
  | (k', v') :: d' =>
      if String.eqb k' k then (k', v) :: d' else (k', v') :: setitem d' k v
  end.

Record ExistingResources : Type := {
  vcns : dict;
  subnets : dict;
  internet_gateways : dict;
  route_tables : dict;
  security_lists : dict;
  amd_instances : dict;
  arm_instances : dict;
  boot_volumes : dict;
  block_volumes : dict
}.

Definition empty_resources : ExistingResources := {|
  vcns := []; subnets := []; internet_gateways := []; route_tables := [];
  security_lists := []; amd_instances := []; arm_instances := [];
  boot_volumes := []; block_volumes := []
|}.

(** [terraform_dir] is a path, kept as its text. *)
Record RuntimeConfig : Type := {
  config_file : string;
  profile : string;
  auth_mode : string;
  non_interactive : bool;
  auto_use_existing : bool;
  auto_deploy : bool;
  terraform_dir : string;
  rt_tenancy_ocid : option string;
  rt_region : option string;
  strict_provider_parity : bool
}.

(** The SDK configuration and signer objects of [OciContext] are opaque to
    the planner, the validator and the renderer and are left out. *)
Record OciContext : Type := {
  tenancy_ocid : string;
  user_ocid : option string;
  region : string;
  availability_domain : string;
  ubuntu_x86_image_ocid : option string;
  ubuntu_arm_image_ocid : option string
}.

Record PlannedConfig : Type := {
  amd_micro_instance_count : Z;
  amd_micro_boot_volume_size_gb : Z;
  amd_micro_hostnames : list string;
  amd_block_volume_size_gb : Z;
  arm_flex_instance_count : Z;
  arm_flex_ocpus_per_instance : list Z;
  arm_flex_memory_per_instance : list Z;
  arm_flex_boot_volume_size_gb : list Z;
  arm_flex_hostnames : list string;
  arm_block_volume_sizes : list Z
}.

(** The state of a [CloudBooterWorkflow] the planner and validator read. *)
Record CloudBooterWorkflow : Type := {
  runtime : RuntimeConfig;
  resources : ExistingResources;
  oci_context : option OciContext
}.

(** ** Inventory records

    The descriptive records [_inventory_compute_instances] and
    [_inventory_storage_resources] store. *)

Definition instance_base (display_name lifecycle_state shape public_ip private_ip : string)
  : string :=
  display_name ++ "|" ++ lifecycle_state ++ "|" ++ shape ++ "|" ++ public_ip
  ++ "|" ++ private_ip.

Definition arm_record (base : string) (ocpus memory : Z) : string :=
  base ++ "|" ++ str_Z ocpus ++ "|" ++ str_Z memory.

Definition volume_record (display_name : string) (size_in_gbs : Z) : string :=
  display_name ++ "|" ++ str_Z size_in_gbs.

(** What the SDK returns for one instance, with the addresses of its
    first attached VNIC and its shape configuration already fetched. *)
Record Instance : Type := {
  inst_id : string;
  inst_display_name : string;
  inst_lifecycle_state : string;
  inst_shape : string;
  inst_public_ip : string;
  inst_private_ip : string;
  inst_ocpus : Z;
  inst_memory_in_gbs : Z
}.

(** The body of the loop of [_inventory_compute_instances]. *)
Definition record_instance (res : ExistingResources) (instance : Instance)
  : ExistingResources :=
  if String.eqb (inst_lifecycle_state instance) "TERMINATED" then res
  else
    let base :=
      instance_base (inst_display_name instance) (inst_lifecycle_state instance)
        (inst_shape instance) (inst_public_ip instance) (inst_private_ip instance) in
    if String.eqb (inst_shape instance) FREE_TIER_AMD_SHAPE then
      {| vcns := vcns res; subnets := subnets res;
         internet_gateways := internet_gateways res;
         route_tables := route_tables res; security_lists := security_lists res;
         amd_instances := setitem (amd_instances res) (inst_id instance) base;
         arm_instances := arm_instances res;
         boot_volumes := boot_volumes res; block_volumes := block_volumes res |}
    else if String.eqb (inst_shape instance) FREE_TIER_ARM_SHAPE then
      {| vcns := vcns res; subnets := subnets res;
         internet_gateways := internet_gateways res;
         route_tables := route_tables res; security_lists := security_lists res;
         amd_instances := amd_instances res;
         arm_instances :=
           setitem (arm_instances res) (inst_id instance)
             (arm_record base (inst_ocpus instance) (inst_memory_in_gbs instance));
         boot_volumes := boot_volumes res; block_volumes := block_volumes res |}
    else res.

Definition _inventory_compute_instances
    (instances : list Instance) (res : ExistingResources) : ExistingResources :=
  fold_left record_instance instances res.

(** ** Reading a field of a record: [int(v.split('|')[i])] *)

Definition field_str (v : string) (i : nat) : result string :=
  index (split "|" v) i.

Definition field_int (v : string) (i : nat) : result Z :=
  x <- field_str v i ;; int x.

(** ** [_available_resources] *)

Definition _available_resources (self : CloudBooterWorkflow)
  : result (Z * Z * Z * Z) :=
  let used_amd := len (amd_instances (resources self)) in
  ocpus <- mapM (fun v => field_int v 5) (values (arm_instances (resources self))) ;;
  let used_arm_ocpus := sum ocpus in
  memory <- mapM (fun v => field_int v 6) (values (arm_instances (resources self))) ;;
  let used_arm_memory := sum memory in
  boots <- mapM (fun v => field_int v 1) (values (boot_volumes (resources self))) ;;
  blocks <- mapM (fun v => field_int v 1) (values (block_volumes (resources self))) ;;
  let used_storage := 0 + sum boots + sum blocks in
  Ok (FREE_TIER_MAX_AMD_INSTANCES - used_amd,
      FREE_TIER_MAX_ARM_OCPUS - used_arm_ocpus,
      FREE_TIER_MAX_ARM_MEMORY_GB - used_arm_memory,
      FREE_TIER_MAX_STORAGE_GB - used_storage).

(** ** [_plan_from_existing] *)

(** [[x] * n] *)
Definition replicate {A : Type} (x : A) (n : nat) : list A := repeat x n.

Definition first_field (entry : string) : string :=
  match split "|" entry with
  | h :: _ => h
  | [] => EmptyString
  end.

Definition _plan_from_existing (self : CloudBooterWorkflow) (resources : ExistingResources)
  : result PlannedConfig :=
  let amd_entries := values (amd_instances resources) in
  let arm_entries := values (arm_instances resources) in
  let amd_hostnames := map first_field amd_entries in
  let arm_hostnames := map first_field arm_entries in
  arm_ocpus <- mapM (fun entry => field_int entry 5) arm_entries ;;
  arm_memory <- mapM (fun entry => field_int entry 6) arm_entries ;;
  let arm_boot := replicate FREE_TIER_MIN_BOOT_VOLUME_GB (List.length arm_entries) in
  match amd_entries, arm_entries with
  | [], [] =>
      let has_arm_image :=
        match oci_context self with
        | Some ctx => truthy (ubuntu_arm_image_ocid ctx)
        | None => false
        end in
      Ok {| amd_micro_instance_count := 0;
            amd_micro_boot_volume_size_gb := 50;
            amd_micro_hostnames := [];
            amd_block_volume_size_gb := 0;
            arm_flex_instance_count := if has_arm_image then 1 else 0;
            arm_flex_ocpus_per_instance := if has_arm_image then [4] else [];
            arm_flex_memory_per_instance := if has_arm_image then [24] else [];
            arm_flex_boot_volume_size_gb := if has_arm_image then [200] else [];
            arm_flex_hostnames := if has_arm_image then ["arm-instance-1"] else [];
            arm_block_volume_sizes := if has_arm_image then [0] else [] |}
  | _, _ =>
      Ok {| amd_micro_instance_count := len amd_entries;
            amd_micro_boot_volume_size_gb := 50;
            amd_micro_hostnames := amd_hostnames;
            amd_block_volume_size_gb := 0;
            arm_flex_instance_count := len arm_entries;
            arm_flex_ocpus_per_instance := arm_ocpus;
            arm_flex_memory_per_instance := arm_memory;
            arm_flex_boot_volume_size_gb := arm_boot;
            arm_flex_hostnames := arm_hostnames;
            arm_block_volume_sizes := replicate 0 (List.length arm_entries) |}
  end.

(** ** Interactive prompts

    [click.prompt] reads lines from the terminal.  The lines the user will
    type are the state of the monad [M]; running out of lines is the end
    of input, on which [click] raises [Abort].  The prompt text only goes
    to the terminal and is kept for reference. *)

Definition M (A : Type) : Type := list string -> result (A * list string).

Definition ret {A : Type} (a : A) : M A := fun inp => Ok (a, inp).

Definition bindM {A B : Type} (m : M A) (k : A -> M B) : M B :=
  fun inp =>
    match m inp with
    | Ok (a, inp') => k a inp'
    | Raise e => Raise e
    end.

Definition lift {A : Type} (r : result A) : M A :=
  fun inp =>
    match r with
    | Ok a => Ok (a, inp)
    | Raise e => Raise e
    end.

Notation "x <~ m ;; k" := (bindM m (fun x => k))
  (at level 61, m at next level, right associativity).

(** [click.prompt(text, default=default)]: an empty line takes the default. *)
Definition prompt_str (text : string) (default : string) : M string :=
  fun inp =>
    match inp with
    | [] => Raise Abort
    | line :: rest => Ok (if truthy_str line then line else default, rest)
    end.

(** [click.prompt(text, type=click.IntRange(lo, hi), default=default)]: an
    empty line takes the default; a line that is not an integer of the
    range is refused and the prompt is shown again. *)
Fixpoint prompt_int_range (text : string) (lo hi : Z) (default : Z)
    (inp : list string) : result (Z * list string) :=
  match inp with
  | [] => Raise Abort
  | line :: rest =>
      match (if truthy_str line then int line else Ok default) with
      | Ok value =>
          if (lo <=? value) && (value <=? hi) then Ok (value, rest)
          else prompt_int_range text lo hi default rest
      | Raise _ => prompt_int_range text lo hi default rest
      end
  end.

(** [range(a, b)] *)
Definition range (a b : Z) : list Z :=
  map (fun k => a + Z.of_nat k) (seq 0 (Z.to_nat (b - a))).

(** [[f(i) for i in xs]] with an interactive [f]. *)
Fixpoint forM {A B : Type} (xs : list A) (f : A -> M B) : M (list B) :=
  match xs with
  | [] => ret []
  | x :: xs' => y <~ f x ;; ys <~ forM xs' f ;; ret (y :: ys)
  end.

(** [for i in xs: body] over the loop's variables [s]. *)
Fixpoint for_each {A S : Type} (xs : list A) (body : A -> S -> M S) (s : S) : M S :=
  match xs with
  | [] => ret s
  | x :: xs' => s' <~ body x s ;; for_each xs' body s'
  end.

(** ** [_plan_custom] *)

(** The variables the ARM loop of [_plan_custom] updates. *)
Record ArmVars : Type := {
  arm_ocpus : list Z;
  arm_memory : list Z;
  arm_boot : list Z;
  arm_hosts : list string;
  arm_blocks : list Z;
  rem_ocpus : Z;
  rem_memory : Z
}.

Definition arm_vars_init (rem_ocpus rem_memory : Z) : ArmVars := {|
  arm_ocpus := []; arm_memory := []; arm_boot := []; arm_hosts := [];
  arm_blocks := []; rem_ocpus := rem_ocpus; rem_memory := rem_memory
|}.

Definition arm_loop_body (i : Z) (v : ArmVars) : M ArmVars :=
  host <~ prompt_str ("ARM hostname " ++ str_Z i) ("arm-instance-" ++ str_Z i) ;;
  ocpu <~ prompt_int_range ("ARM " ++ str_Z i ++ " OCPUs")
            1 (Z.max 1 (rem_ocpus v)) (Z.max 1 (rem_ocpus v)) ;;
  let max_mem := Z.min (rem_memory v) (ocpu * 6) in
  mem <~ prompt_int_range ("ARM " ++ str_Z i ++ " memory GB")
           1 (Z.max 1 max_mem) (Z.max 1 max_mem) ;;
  boot <~ prompt_int_range ("ARM " ++ str_Z i ++ " boot volume GB") 50 200 50 ;;
  ret {| arm_hosts := arm_hosts v ++ [host];
         arm_ocpus := arm_ocpus v ++ [ocpu];
         arm_memory := arm_memory v ++ [mem];
         arm_boot := arm_boot v ++ [boot];
         arm_blocks := arm_blocks v ++ [0];
         rem_ocpus := rem_ocpus v - ocpu;
         rem_memory := rem_memory v - mem |}.

Definition _plan_custom (self : CloudBooterWorkflow) (ctx : OciContext)
  : M PlannedConfig :=
  avail <~ lift (_available_resources self) ;;
  let '(available_amd, available_arm_ocpus, available_arm_memory, _) := avail in
  amd_count <~ prompt_int_range "AMD instance count" 0 (Z.max 0 available_amd) 0 ;;
  amd_boot <~ (if amd_count =? 0 then ret 50
               else prompt_int_range "AMD boot volume size (GB)" 50 100 50) ;;
  amd_hosts <~ forM (range 1 (amd_count + 1))
                 (fun i => prompt_str ("AMD hostname " ++ str_Z i)
                             ("amd-instance-" ++ str_Z i)) ;;
  arm <~ (if truthy (ubuntu_arm_image_ocid ctx) && (available_arm_ocpus >? 0) then
            arm_count <~ prompt_int_range "ARM instance count"
                           0 FREE_TIER_MAX_ARM_INSTANCES 1 ;;
            v <~ for_each (range 1 (arm_count + 1)) arm_loop_body
                   (arm_vars_init available_arm_ocpus available_arm_memory) ;;
            ret (arm_count, v)
          else ret (0, arm_vars_init 0 0)) ;;
  let '(arm_count, v) := arm in
  ret {| amd_micro_instance_count := amd_count;
         amd_micro_boot_volume_size_gb := amd_boot;
         amd_micro_hostnames := amd_hosts;
         amd_block_volume_size_gb := 0;
         arm_flex_instance_count := arm_count;
         arm_flex_ocpus_per_instance := arm_ocpus v;
         arm_flex_memory_per_instance := arm_memory v;
         arm_flex_boot_volume_size_gb := arm_boot v;
         arm_flex_hostnames := arm_hosts v;
         arm_block_volume_sizes := arm_blocks v |}.

(** ** [_plan_maximum] *)

Definition _plan_maximum (self : CloudBooterWorkflow) : result PlannedConfig :=
  avail <- _available_resources self ;;
  let '(available_amd, available_arm_ocpus, available_arm_memory, available_storage) :=
    avail in
  let amd_count := Z.max 0 available_amd in
  let amd_boot := 50 in
  let amd_hosts := map (fun i => "amd-instance-" ++ str_Z i) (range 1 (amd_count + 1)) in
  let has_arm :=
    match oci_context self with
    | Some ctx => truthy (ubuntu_arm_image_ocid ctx) && (available_arm_ocpus >? 0)
    | None => false
    end in
  if has_arm then
    let remaining_storage :=
      Z.max FREE_TIER_MIN_BOOT_VOLUME_GB (available_storage - amd_count * amd_boot) in
    Ok {| amd_micro_instance_count := amd_count;
          amd_micro_boot_volume_size_gb := amd_boot;
          amd_micro_hostnames := amd_hosts;
          amd_block_volume_size_gb := 0;
          arm_flex_instance_count := 1;
          arm_flex_ocpus_per_instance := [available_arm_ocpus];
          arm_flex_memory_per_instance := [available_arm_memory];
          arm_flex_boot_volume_size_gb := [remaining_storage];
          arm_flex_hostnames := ["arm-instance-1"];
          arm_block_volume_sizes := [0] |}
  else
    Ok {| amd_micro_instance_count := amd_count;
          amd_micro_boot_volume_size_gb := amd_boot;
          amd_micro_hostnames := amd_hosts;
          amd_block_volume_size_gb := 0;
          arm_flex_instance_count := 0;
          arm_flex_ocpus_per_instance := [];
          arm_flex_memory_per_instance := [];
          arm_flex_boot_volume_size_gb := [];
          arm_flex_hostnames := [];
          arm_block_volume_sizes := [] |}.

(** ** [_validate_proposed_config] *)

Definition append_if (cond : bool) (msg : string) (errors : list string) : list string :=
  if cond then errors ++ [msg] else errors.

Definition proposed_storage (planned : PlannedConfig) : Z :=
  amd_micro_instance_count planned * amd_micro_boot_volume_size_gb planned
  + sum (arm_flex_boot_volume_size_gb planned)
  + amd_micro_instance_count planned * amd_block_volume_size_gb planned
  + sum (arm_block_volume_sizes planned).

Definition amd_count_error (count available_amd : Z) : string :=
  "Cannot create " ++ str_Z count ++ " AMD instances, only " ++ str_Z available_amd
  ++ " available.".

Definition arm_ocpus_error (proposed_arm_ocpus available_arm_ocpus : Z) : string :=
  "Cannot allocate " ++ str_Z proposed_arm_ocpus ++ " ARM OCPUs, only "
  ++ str_Z available_arm_ocpus ++ " available.".

Definition arm_memory_error (proposed_arm_memory available_arm_memory : Z) : string :=
  "Cannot allocate " ++ str_Z proposed_arm_memory ++ "GB ARM memory, only "
  ++ str_Z available_arm_memory ++ "GB available.".

Definition storage_error (proposed_storage available_storage : Z) : string :=
  "Cannot use " ++ str_Z proposed_storage ++ "GB storage, only "
  ++ str_Z available_storage ++ "GB available.".

Definition vcn_error : string :=
  "Existing VCN count already exceeds free-tier VCN limit.".

(** The list [errors] when control reaches [if errors:]. *)
Definition validation_errors (self : CloudBooterWorkflow) (planned : PlannedConfig)
  : result (list string) :=
  avail <- _available_resources self ;;
  let '(available_amd, available_arm_ocpus, available_arm_memory, available_storage) :=
    avail in
  let proposed_arm_ocpus := sum (arm_flex_ocpus_per_instance planned) in
  let proposed_arm_memory := sum (arm_flex_memory_per_instance planned) in
  let proposed_storage := proposed_storage planned in
  let errors := [] in
  let errors :=
    append_if (amd_micro_instance_count planned >? available_amd)
      (amd_count_error (amd_micro_instance_count planned) available_amd) errors in
  let errors :=
    append_if (proposed_arm_ocpus >? available_arm_ocpus)
      (arm_ocpus_error proposed_arm_ocpus available_arm_ocpus) errors in
  let errors :=
    append_if (proposed_arm_memory >? available_arm_memory)
      (arm_memory_error proposed_arm_memory available_arm_memory) errors in
  let errors :=
    append_if (proposed_storage >? available_storage)
      (storage_error proposed_storage available_storage) errors in
  let errors :=
    append_if (len (vcns (resources self)) >? FREE_TIER_MAX_VCNS) vcn_error errors in
  Ok errors.

Definition nl : string := String (ascii_of_nat 10) EmptyString.

Definition validation_failure (errors : list string) : string :=
  "Free Tier validation failed:" ++ nl ++ "- " ++ join (nl ++ "- ") errors.

Definition _validate_proposed_config (self : CloudBooterWorkflow) (planned : PlannedConfig)
  : result unit :=
  errors <- validation_errors self planned ;;
  match errors with
  | [] => Ok tt
  | _ :: _ => Raise (ClickException (validation_failure errors))
  end.

(** ** [_render_variables_tf] *)

Definition dq : string := String (ascii_of_nat 34) EmptyString.

(** The nested helper [q]: a list of double-quoted strings. *)
Definition q (items : list string) : string :=
  "[" ++ join ", " (map (fun x => dq ++ x ++ dq) items) ++ "]".

(** The nested helper [nums]: a list of integer literals. *)
Definition nums (items : list Z) : string :=
  "[" ++ join ", " (map str_Z items) ++ "]".

(** A text given line by line, each line ended by a line feed. *)
Definition unlines (ls : list string) : string :=
  String.concat EmptyString (map (fun l => l ++ nl) ls).

(** The lines of the template.  [generated] is the text [time.ctime()]
    returns when the renderer runs. *)
Definition variables_tf_lines (generated : string) (ctx : OciContext)
    (planned : PlannedConfig) : list string :=
  [ "# Oracle Cloud Infrastructure Terraform Variables";
    "# Generated: " ++ generated;
    "# Configuration: " ++ str_Z (amd_micro_instance_count planned) ++ "x AMD + " ++ str_Z (arm_flex_instance_count planned) ++ "x ARM instances";
    EmptyString;
    "locals {";
    "  # Core identifiers";
    "  tenancy_ocid    = " ++ dq ++ tenancy_ocid ctx ++ dq;
    "  compartment_id  = " ++ dq ++ tenancy_ocid ctx ++ dq;
    "  user_ocid       = " ++ dq ++ or_empty (user_ocid ctx) ++ dq;
    "  region          = " ++ dq ++ region ctx ++ dq;
    "  ";
    "  # Ubuntu Images (region-specific)";
    "  ubuntu_x86_image_ocid = " ++ dq ++ or_empty (ubuntu_x86_image_ocid ctx) ++ dq;
    "  ubuntu_arm_image_ocid = " ++ dq ++ or_empty (ubuntu_arm_image_ocid ctx) ++ dq;
    "  ";
    "  # SSH Configuration";
    "  ssh_pubkey_path      = pathexpand(" ++ dq ++ "./ssh_keys/id_rsa.pub" ++ dq ++ ")";
    "  ssh_pubkey_data      = file(pathexpand(" ++ dq ++ "./ssh_keys/id_rsa.pub" ++ dq ++ "))";
    "  ssh_private_key_path = pathexpand(" ++ dq ++ "./ssh_keys/id_rsa" ++ dq ++ ")";
    "  ";
    "  # AMD x86 Micro Instances Configuration";
    "  amd_micro_instance_count      = " ++ str_Z (amd_micro_instance_count planned);
    "  amd_micro_boot_volume_size_gb = " ++ str_Z (amd_micro_boot_volume_size_gb planned);
    "  amd_micro_hostnames           = " ++ q (amd_micro_hostnames planned);
    "  amd_block_volume_size_gb      = " ++ str_Z (amd_block_volume_size_gb planned);
    "  ";
    "  # ARM A1 Flex Instances Configuration";
    "  arm_flex_instance_count       = " ++ str_Z (arm_flex_instance_count planned);
    "  arm_flex_ocpus_per_instance   = " ++ nums (arm_flex_ocpus_per_instance planned);
    "  arm_flex_memory_per_instance  = " ++ nums (arm_flex_memory_per_instance planned);
    "  arm_flex_boot_volume_size_gb  = " ++ nums (arm_flex_boot_volume_size_gb planned);
    "  arm_flex_hostnames            = " ++ q (arm_flex_hostnames planned);
    "  arm_block_volume_sizes        = " ++ nums (arm_block_volume_sizes planned);
    "  ";
    "  # Storage calculations";
    "  total_amd_storage = local.amd_micro_instance_count * local.amd_micro_boot_volume_size_gb";
    "  total_arm_storage = local.arm_flex_instance_count > 0 ? sum(local.arm_flex_boot_volume_size_gb) : 0";
    "  total_block_storage = (local.amd_micro_instance_count * local.amd_block_volume_size_gb) + (local.arm_flex_instance_count > 0 ? sum(local.arm_block_volume_sizes) : 0)";
    "  total_storage = local.total_amd_storage + local.total_arm_storage + local.total_block_storage";
    "}";
    EmptyString;
    "# Free Tier Limits";
    "variable " ++ dq ++ "free_tier_max_storage_gb" ++ dq ++ " {";
    "  description = " ++ dq ++ "Maximum storage for Oracle Free Tier" ++ dq;
    "  type        = number";
    "  default     = " ++ str_Z FREE_TIER_MAX_STORAGE_GB;
    "}";
    EmptyString;
    "variable " ++ dq ++ "free_tier_max_arm_ocpus" ++ dq ++ " {";
    "  description = " ++ dq ++ "Maximum ARM OCPUs for Oracle Free Tier" ++ dq;
    "  type        = number";
    "  default     = " ++ str_Z FREE_TIER_MAX_ARM_OCPUS;
    "}";
    EmptyString;
    "variable " ++ dq ++ "free_tier_max_arm_memory_gb" ++ dq ++ " {";
    "  description = " ++ dq ++ "Maximum ARM memory for Oracle Free Tier" ++ dq;
    "  type        = number";
    "  default     = " ++ str_Z FREE_TIER_MAX_ARM_MEMORY_GB;
    "}";
    EmptyString;
    "# Validation checks";
    "check " ++ dq ++ "storage_limit" ++ dq ++ " {";
    "  assert {";
    "    condition     = local.total_storage <= var.free_tier_max_storage_gb";
    "    error_message = " ++ dq ++ "Total storage (${local.total_storage}GB) exceeds Free Tier limit (${var.free_tier_max_storage_gb}GB)" ++ dq;
    "  }";
    "}";
    EmptyString;
    "check " ++ dq ++ "arm_ocpu_limit" ++ dq ++ " {";
    "  assert {";
    "    condition     = local.arm_flex_instance_count == 0 || sum(local.arm_flex_ocpus_per_instance) <= var.free_tier_max_arm_ocpus";
    "    error_message = " ++ dq ++ "Total ARM OCPUs exceed Free Tier limit (${var.free_tier_max_arm_ocpus})" ++ dq;
    "  }";
    "}";
    EmptyString;
    "check " ++ dq ++ "arm_memory_limit" ++ dq ++ " {";
    "  assert {";
    "    condition     = local.arm_flex_instance_count == 0 || sum(local.arm_flex_memory_per_instance) <= var.free_tier_max_arm_memory_gb";
    "    error_message = " ++ dq ++ "Total ARM memory exceeds Free Tier limit (${var.free_tier_max_arm_memory_gb}GB)" ++ dq;
    "  }";
    "}" ].

Definition _render_variables_tf (generated : string) (ctx : OciContext)
    (planned : PlannedConfig) : string :=
  unlines (variables_tf_lines generated ctx planned).

(** ** Notions used to state the properties *)

(** What the inventory says is in use: the OCPUs and the memory of each
    existing ARM instance and the size of each existing boot and block
    volume, read from the records the way [_available_resources] reads
    them. *)
Definition read_usage (res : ExistingResources)
  : result (list Z * list Z * list Z * list Z) :=
  ocpus <- mapM (fun v => field_int v 5) (values (arm_instances res)) ;;
  memory <- mapM (fun v => field_int v 6) (values (arm_instances res)) ;;
  boots <- mapM (fun v => field_int v 1) (values (boot_volumes res)) ;;
  blocks <- mapM (fun v => field_int v 1) (values (block_volumes res)) ;;
  Ok (ocpus, memory, boots, blocks).

(** The list-length invariant of [PlannedConfig]. *)
Definition lists_match_count (planned : PlannedConfig) : Prop :=
  len (arm_flex_ocpus_per_instance planned) = arm_flex_instance_count planned
  /\ len (arm_flex_memory_per_instance planned) = arm_flex_instance_count planned
  /\ len (arm_flex_boot_volume_size_gb planned) = arm_flex_instance_count planned
  /\ len (arm_flex_hostnames planned) = arm_flex_instance_count planned
  /\ len (arm_block_volume_sizes planned) = arm_flex_instance_count planned.

(** [planned] with another flexible instance count. *)
Definition with_arm_count (planned : PlannedConfig) (count : Z) : PlannedConfig := {|
  amd_micro_instance_count := amd_micro_instance_count planned;
  amd_micro_boot_volume_size_gb := amd_micro_boot_volume_size_gb planned;
  amd_micro_hostnames := amd_micro_hostnames planned;
  amd_block_volume_size_gb := amd_block_volume_size_gb planned;
  arm_flex_instance_count := count;
  arm_flex_ocpus_per_instance := arm_flex_ocpus_per_instance planned;
  arm_flex_memory_per_instance := arm_flex_memory_per_instance planned;
  arm_flex_boot_volume_size_gb := arm_flex_boot_volume_size_gb planned;
  arm_flex_hostnames := arm_flex_hostnames planned;
  arm_block_volume_sizes := arm_block_volume_sizes planned
|}.

(** Whether an ARM base image is known to the workflow. *)
Definition has_arm_image (self : CloudBooterWorkflow) : bool :=
  match oci_context self with
  | Some ctx => truthy (ubuntu_arm_image_ocid ctx)
  | None => false
  end.

(** Successive choices [xs] drawn from a budget that each choice
    decrements: a choice is at least 1 and at most what the choices before
    it have left, or 1 when less than 1 is left. *)
Fixpoint within_budget (budget : Z) (xs : list Z) : Prop :=
  match xs with
  | [] => True
  | x :: rest => 1 <= x <= Z.max 1 budget /\ within_budget (budget - x) rest
  end.

(** The same for the memory choices, each also capped at 6 GB for each
    OCPU of its instance. *)
Fixpoint memory_within_budget (budget : Z) (ocpus mems : list Z) : Prop :=
  match ocpus, mems with
  | [], [] => True
  | o :: ocpus', m :: mems' =>
      1 <= m <= Z.max 1 (Z.min budget (o * 6))
      /\ memory_within_budget (budget - m) ocpus' mems'
  | _, _ => False
  end.

(** What holds of the variables of the ARM loop of [_plan_custom] after
    [n] instances. *)
Definition arm_vars_ok (available_arm_ocpus available_arm_memory : Z) (n : nat)
    (v : ArmVars) : Prop :=
  rem_ocpus v = available_arm_ocpus - sum (arm_ocpus v)
  /\ rem_memory v = available_arm_memory - sum (arm_memory v)
  /\ within_budget available_arm_ocpus (arm_ocpus v)
  /\ memory_within_budget available_arm_memory (arm_ocpus v) (arm_memory v)
  /\ List.length (arm_ocpus v) = n
  /\ List.length (arm_memory v) = n
  /\ List.length (arm_boot v) = n
  /\ List.length (arm_hosts v) = n
  /\ List.length (arm_blocks v) = n.

(** No line feed in a string. *)
Definition no_lf (s : string) : bool :=
  forall_chars (fun c => negb (Ascii.eqb c (ascii_of_nat 10))) s.

(** No separator [|] in a string. *)
Definition no_bar (s : string) : bool :=
  forall_chars (fun c => negb (Ascii.eqb c "|")) s.

Definition single_line_context (ctx : OciContext) : bool :=
  no_lf (tenancy_ocid ctx) && no_lf (or_empty (user_ocid ctx)) && no_lf (region ctx)
  && no_lf (or_empty (ubuntu_x86_image_ocid ctx))
  && no_lf (or_empty (ubuntu_arm_image_ocid ctx)).

Definition single_line_hostnames (planned : PlannedConfig) : bool :=
  forallb no_lf (amd_micro_hostnames planned)
  && forallb no_lf (arm_flex_hostnames planned).

End OCI.

(* ================================================================== *)
(** * Re-reading the numeric literals of a rendered [variables.tf] *)
(* ================================================================== *)

Module Reparse.

Import OCI.

(** The counts and sizes of a [PlannedConfig]. *)
Record NumericLiterals : Type := {
  n_amd_micro_instance_count : Z;
  n_amd_micro_boot_volume_size_gb : Z;
  n_amd_block_volume_size_gb : Z;
  n_arm_flex_instance_count : Z;
  n_arm_flex_ocpus_per_instance : list Z;
  n_arm_flex_memory_per_instance : list Z;
  n_arm_flex_boot_volume_size_gb : list Z;
  n_arm_block_volume_sizes : list Z
}.

Definition numeric_literals (planned : PlannedConfig) : NumericLiterals := {|
  n_amd_micro_instance_count := amd_micro_instance_count planned;
  n_amd_micro_boot_volume_size_gb := amd_micro_boot_volume_size_gb planned;
  n_amd_block_volume_size_gb := amd_block_volume_size_gb planned;
  n_arm_flex_instance_count := arm_flex_instance_count planned;
  n_arm_flex_ocpus_per_instance := arm_flex_ocpus_per_instance planned;
  n_arm_flex_memory_per_instance := arm_flex_memory_per_instance planned;
  n_arm_flex_boot_volume_size_gb := arm_flex_boot_volume_size_gb planned;
  n_arm_block_volume_sizes := arm_block_volume_sizes planned
|}.

(** [line[len(key):]] when [line.startswith(key)]. *)
Fixpoint after_prefix (key line : string) : option string :=
  match key with
  | EmptyString => Some line
  | String a key' =>
      match line with
      | String b line' => if Ascii.eqb a b then after_prefix key' line' else None
      | EmptyString => None
      end
  end.

(** The right-hand side of the first line that starts with [key]. *)
Fixpoint find_assignment (key : string) (lines : list string) : result string :=
  match lines with
  | [] => Raise ValueError
  | line :: rest =>
      match after_prefix key line with
      | Some rhs => Ok rhs
      | None => find_assignment key rest
      end
  end.

(** An integer literal. *)
Definition read_int (rhs : string) : result Z := int rhs.

(** A bracketed, comma-separated list of integer literals. *)
Definition read_ints (rhs : string) : result (list Z) :=
  match rhs with
  | String "[" r =>
      match split "]" r with
      | [inner; EmptyString] =>
          match inner with
          | EmptyString => Ok []
          | _ => mapM int (split "," inner)
          end
      | _ => Raise ValueError
      end
  | _ => Raise ValueError
  end.

(** The repository has no reader for the rendered template.  This one
    follows the words of the specification, "re-parsing the numeric
    literals back out": it reads, line by line, the right-hand sides of
    the assignments of the [locals] block. *)
Definition reparse_numeric_literals (text : string) : result NumericLiterals :=
  let lines := split (ascii_of_nat 10) text in
  let int_of key := rhs <- find_assignment key lines ;; read_int rhs in
  let ints_of key := rhs <- find_assignment key lines ;; read_ints rhs in
  amd_count <- int_of "  amd_micro_instance_count      = " ;;
  amd_boot <- int_of "  amd_micro_boot_volume_size_gb = " ;;
  amd_block <- int_of "  amd_block_volume_size_gb      = " ;;
  arm_count <- int_of "  arm_flex_instance_count       = " ;;
  ocpus <- ints_of "  arm_flex_ocpus_per_instance   = " ;;
  memory <- ints_of "  arm_flex_memory_per_instance  = " ;;
  boot <- ints_of "  arm_flex_boot_volume_size_gb  = " ;;
  blocks <- ints_of "  arm_block_volume_sizes        = " ;;
  Ok {| n_amd_micro_instance_count := amd_count;
        n_amd_micro_boot_volume_size_gb := amd_boot;
        n_amd_block_volume_size_gb := amd_block;
        n_arm_flex_instance_count := arm_count;
        n_arm_flex_ocpus_per_instance := ocpus;
        n_arm_flex_memory_per_instance := memory;
        n_arm_flex_boot_volume_size_gb := boot;
        n_arm_block_volume_sizes := blocks |}.

End Reparse.

(* ================================================================== *)
(** * Concrete inputs used below *)
(* ================================================================== *)

Module Fixtures.

Import OCI.

(** The run-time configuration of the test suite ([conftest.py]). *)
Definition mock_runtime_config : RuntimeConfig := {|
  config_file := "~/.oci/config";
  profile := "DEFAULT";
  auth_mode := "security_token";
  non_interactive := true;
  auto_use_existing := false;
  auto_deploy := false;
  terraform_dir := "terraform";
  rt_tenancy_ocid := Some "ocid1.tenancy.oc1..test";
  rt_region := Some "us-phoenix-1";
  strict_provider_parity := true
|}.

Definition mock_oci_context : OciContext := {|
  tenancy_ocid := "ocid1.tenancy.oc1..exampletenancy";
  user_ocid := Some "ocid1.user.oc1..exampleuser";
  region := "us-phoenix-1";
  availability_domain := "phx-AD-1";
  ubuntu_x86_image_ocid := Some "ocid1.image.oc1.phx..ubuntu2204";
  ubuntu_arm_image_ocid := Some "ocid1.image.oc1.phx..ubuntuarm2204"
|}.

Definition workflow (res : ExistingResources) : CloudBooterWorkflow := {|
  runtime := mock_runtime_config;
  resources := res;
  oci_context := Some mock_oci_context
|}.

Definition mock_planned_config_mixed : PlannedConfig := {|
  amd_micro_instance_count := 1;
  amd_micro_boot_volume_size_gb := 50;
  amd_micro_hostnames := ["amd-1"];
  amd_block_volume_size_gb := 0;
  arm_flex_instance_count := 1;
  arm_flex_ocpus_per_instance := [4];
  arm_flex_memory_per_instance := [24];
  arm_flex_boot_volume_size_gb := [200];
  arm_flex_hostnames := ["arm-1"];
  arm_block_volume_sizes := [0]
|}.

Definition mock_planned_config_arm : PlannedConfig := {|
  amd_micro_instance_count := 0;
  amd_micro_boot_volume_size_gb := 50;
  amd_micro_hostnames := [];
  amd_block_volume_size_gb := 0;
  arm_flex_instance_count := 1;
  arm_flex_ocpus_per_instance := [4];
  arm_flex_memory_per_instance := [24];
  arm_flex_boot_volume_size_gb := [200];
  arm_flex_hostnames := ["arm-1"];
  arm_block_volume_sizes := [0]
|}.

(** The configuration of [test_exceeds_amd_limit]. *)
Definition exceeds_amd_limit : PlannedConfig := {|
  amd_micro_instance_count := 5;
  amd_micro_boot_volume_size_gb := 50;
  amd_micro_hostnames := ["amd-1"; "amd-2"; "amd-3"; "amd-4"; "amd-5"];
  amd_block_volume_size_gb := 0;
  arm_flex_instance_count := 0;
  arm_flex_ocpus_per_instance := [];
  arm_flex_memory_per_instance := [];
  arm_flex_boot_volume_size_gb := [];
  arm_flex_hostnames := [];
  arm_block_volume_sizes := []
|}.

Definition amd_only (count : Z) (hostnames : list string) : PlannedConfig := {|
  amd_micro_instance_count := count;
  amd_micro_boot_volume_size_gb := 50;
  amd_micro_hostnames := hostnames;
  amd_block_volume_size_gb := 0;
  arm_flex_instance_count := 0;
  arm_flex_ocpus_per_instance := [];
  arm_flex_memory_per_instance := [];
  arm_flex_boot_volume_size_gb := [];
  arm_flex_hostnames := [];
  arm_block_volume_sizes := []
|}.

(** An account with two running AMD instances and nothing else. *)
Definition two_amd_instances : ExistingResources :=
  _inventory_compute_instances
    [ {| inst_id := "ocid1.instance.oc1..amd1"; inst_display_name := "amd-instance-1";
         inst_lifecycle_state := "RUNNING"; inst_shape := FREE_TIER_AMD_SHAPE;
         inst_public_ip := "203.0.113.7"; inst_private_ip := "10.0.0.2";
         inst_ocpus := 1; inst_memory_in_gbs := 1 |};
      {| inst_id := "ocid1.instance.oc1..amd2"; inst_display_name := "amd-instance-2";
         inst_lifecycle_state := "RUNNING"; inst_shape := FREE_TIER_AMD_SHAPE;
         inst_public_ip := "none"; inst_private_ip := "10.0.0.3";
         inst_ocpus := 1; inst_memory_in_gbs := 1 |} ]
    empty_resources.

(** An account with one AMD instance, one ARM instance of 2 OCPUs and
    12 GB, and their two boot volumes. *)
Definition one_amd_one_arm : ExistingResources :=
  let res :=
    _inventory_compute_instances
      [ {| inst_id := "ocid1.instance.oc1..amd1"; inst_display_name := "web";
           inst_lifecycle_state := "RUNNING"; inst_shape := FREE_TIER_AMD_SHAPE;
           inst_public_ip := "203.0.113.7"; inst_private_ip := "10.0.0.2";
           inst_ocpus := 1; inst_memory_in_gbs := 1 |};
        {| inst_id := "ocid1.instance.oc1..arm1"; inst_display_name := "db";
           inst_lifecycle_state := "RUNNING"; inst_shape := FREE_TIER_ARM_SHAPE;
           inst_public_ip := "none"; inst_private_ip := "10.0.0.3";
           inst_ocpus := 2; inst_memory_in_gbs := 12 |} ]
      empty_resources in
  {| vcns := [("ocid1.vcn.oc1..main", "main-vcn|10.0.0.0/16")];
     subnets := []; internet_gateways := []; route_tables := [];
     security_lists := [];
     amd_instances := amd_instances res;
     arm_instances := arm_instances res;
     boot_volumes := [("ocid1.bootvolume.oc1..web", volume_record "web (Boot Volume)" 50);
                      ("ocid1.bootvolume.oc1..db", volume_record "db (Boot Volume)" 47)];
     block_volumes := [] |}.

(** The inventory of the test suite ([mock_existing_resources] of
    [conftest.py]): its records are names only. *)
Definition mock_existing_resources : ExistingResources := {|
  vcns := [("ocid1.vcn.oc1..test", "main-vcn")];
  subnets := [("ocid1.subnet.oc1..test", "main-subnet")];
  internet_gateways := []; route_tables := []; security_lists := [];
  amd_instances := [("ocid1.instance.oc1..amd1", "amd-instance-1")];
  arm_instances := [("ocid1.instance.oc1..arm1", "arm-instance-1")];
  boot_volumes := []; block_volumes := []
|}.

(** An account with one ARM instance of 2 OCPUs and 12 GB on a boot
    volume of 100 GB. *)
Definition arm_on_large_boot_volume : ExistingResources := {|
  vcns := []; subnets := []; internet_gateways := []; route_tables := [];
  security_lists := []; amd_instances := [];
  arm_instances :=
    [("ocid1.instance.oc1..arm1",
      arm_record
        (instance_base "db" "RUNNING" FREE_TIER_ARM_SHAPE "none" "10.0.0.3") 2 12)];
  boot_volumes := [("ocid1.bootvolume.oc1..db", volume_record "db (Boot Volume)" 100)];
  block_volumes := []
|}.

(** An account whose only resource is one boot volume of 200 GB. *)
Definition one_large_boot_volume : ExistingResources := {|
  vcns := []; subnets := []; internet_gateways := []; route_tables := [];
  security_lists := []; amd_instances := []; arm_instances := [];
  boot_volumes := [("ocid1.bootvolume.oc1..old", volume_record "old (Boot Volume)" 200)];
  block_volumes := []
|}.

(** A configuration whose lists are shorter than its instance count. *)
Definition mismatched_lengths : PlannedConfig := {|
  amd_micro_instance_count := 0;
  amd_micro_boot_volume_size_gb := 50;
  amd_micro_hostnames := [];
  amd_block_volume_size_gb := 0;
  arm_flex_instance_count := 3;
  arm_flex_ocpus_per_instance := [4];
  arm_flex_memory_per_instance := [24; 0];
  arm_flex_boot_volume_size_gb := [];
  arm_flex_hostnames := ["arm-1"];
  arm_block_volume_sizes := []
|}.

(** The user asks for two ARM instances and accepts every default. *)
Definition two_arm_all_defaults : list string :=
  [EmptyString; "2"; EmptyString; EmptyString; EmptyString; EmptyString;
   EmptyString; EmptyString; EmptyString; EmptyString].

(** The user asks for one AMD and one ARM instance on what is left. *)
Definition one_more_of_each : list string :=
  ["1"; "60"; "web-2"; "1"; "db-2"; "2"; "12"; "50"].

(** Two configurations that differ in the AMD block volume size and
    whose hostnames contain quotes, brackets and line feeds. *)
Definition locals_from_amd_block (size : Z) : string :=
  nl ++ "  amd_block_volume_size_gb      = " ++ str_Z size
  ++ nl ++ "  "
  ++ nl ++ "  # ARM A1 Flex Instances Configuration"
  ++ nl ++ "  arm_flex_instance_count       = 1"
  ++ nl ++ "  arm_flex_ocpus_per_instance   = [1]"
  ++ nl ++ "  arm_flex_memory_per_instance  = [6]"
  ++ nl ++ "  arm_flex_boot_volume_size_gb  = [50]"
  ++ nl ++ "  arm_flex_hostnames            = ".

Definition crafted_config (amd_hostname : string) (amd_block : Z) (arm_hostname : string)
  : PlannedConfig := {|
  amd_micro_instance_count := 1;
  amd_micro_boot_volume_size_gb := 50;
  amd_micro_hostnames := [amd_hostname];
  amd_block_volume_size_gb := amd_block;
  arm_flex_instance_count := 1;
  arm_flex_ocpus_per_instance := [1];
  arm_flex_memory_per_instance := [6];
  arm_flex_boot_volume_size_gb := [50];
  arm_flex_hostnames := [arm_hostname];
  arm_block_volume_sizes := [0]
|}.

Definition crafted_config_1 : PlannedConfig :=
  crafted_config "a" 1 ("z" ++ dq ++ "]" ++ locals_from_amd_block 2 ++ "[" ++ dq ++ "w").

Definition crafted_config_2 : PlannedConfig :=
  crafted_config ("a" ++ dq ++ "]" ++ locals_from_amd_block 1 ++ "[" ++ dq ++ "z") 2 "w".

Definition clock_reading : string := "Wed Nov  4 09:30:00 2026".
Definition later_clock_reading : string := "Wed Nov  4 09:30:01 2026".

End Fixtures.

(* ================================================================== *)
(** * OCI: the choice of a plan and the rest of the inventory of [cli.py] *)
(* ================================================================== *)

Module OCIPlan.

Import OCI.

(** ** [_plan_configuration] *)

Definition _plan_configuration (self : CloudBooterWorkflow) (ctx : OciContext)
    (resources : ExistingResources) : M PlannedConfig :=
  if auto_use_existing (runtime self) || non_interactive (runtime self) then
    lift (_plan_from_existing self resources)
  else
    choice <~ prompt_int_range "Choose configuration" 1 3 1 ;;
    if choice =? 1 then lift (_plan_from_existing self resources)
    else if choice =? 2 then _plan_custom self ctx
    else lift (_plan_maximum self).

(** ** [_inventory_storage_resources] *)

(** A boot or block volume as the SDK lists it; [size_in_gbs] after
    [int(...)]. *)
Record Volume : Type := {
  vol_id : string;
  vol_display_name : string;
  vol_lifecycle_state : string;
  vol_size_in_gbs : Z
}.

Definition record_volume (d : dict) (volume : Volume) : dict :=
  if String.eqb (vol_lifecycle_state volume) "AVAILABLE" then
    setitem d (vol_id volume)
      (volume_record (vol_display_name volume) (vol_size_in_gbs volume))
  else d.

Definition _inventory_storage_resources (boots blocks : list Volume)
    (res : ExistingResources) : ExistingResources :=
  {| vcns := vcns res; subnets := subnets res;
     internet_gateways := internet_gateways res;
     route_tables := route_tables res; security_lists := security_lists res;
     amd_instances := amd_instances res; arm_instances := arm_instances res;
     boot_volumes := fold_left record_volume boots (boot_volumes res);
     block_volumes := fold_left record_volume blocks (block_volumes res) |}.

(** ** [_inventory_networking_resources] *)

(** What the SDK lists for one VCN, with the answers of the four
    per-VCN queries. *)
Record Subnet : Type := {
  subnet_id : string;
  subnet_display_name : string;
  subnet_cidr_block : string;
  subnet_lifecycle_state : string
}.

Record Gateway : Type := {
  igw_id : string;
  igw_display_name : string;
  igw_lifecycle_state : string
}.

Record Named : Type := {
  named_id : string;
  named_display_name : string
}.

Record Vcn : Type := {
  vcn_id : string;
  vcn_display_name : string;
  vcn_lifecycle_state : string;
  vcn_cidr_blocks : list string;
  vcn_subnets : list Subnet;
  vcn_internet_gateways : list Gateway;
  vcn_route_tables : list Named;
  vcn_security_lists : list Named
}.

Definition record_subnet (vcn : Vcn) (d : dict) (subnet : Subnet) : dict :=
  if String.eqb (subnet_lifecycle_state subnet) "AVAILABLE" then
    setitem d (subnet_id subnet)
      (subnet_display_name subnet ++ "|" ++ subnet_cidr_block subnet ++ "|" ++ vcn_id vcn)
  else d.

Definition record_gateway (vcn : Vcn) (d : dict) (igw : Gateway) : dict :=
  if String.eqb (igw_lifecycle_state igw) "AVAILABLE" then
    setitem d (igw_id igw) (igw_display_name igw ++ "|" ++ vcn_id vcn)
  else d.

Definition record_named (vcn : Vcn) (d : dict) (x : Named) : dict :=
  setitem d (named_id x) (named_display_name x ++ "|" ++ vcn_id vcn).

(** The body of the loop over the VCNs. *)
Definition record_vcn (res : ExistingResources) (vcn : Vcn) : result ExistingResources :=
  if negb (String.eqb (vcn_lifecycle_state vcn) "AVAILABLE") then Ok res
  else
    cidr <- index (vcn_cidr_blocks vcn) 0 ;;
    Ok {| vcns := setitem (vcns res) (vcn_id vcn) (vcn_display_name vcn ++ "|" ++ cidr);
          subnets := fold_left (record_subnet vcn) (vcn_subnets vcn) (subnets res);
          internet_gateways :=
            fold_left (record_gateway vcn) (vcn_internet_gateways vcn)
              (internet_gateways res);
          route_tables :=
            fold_left (record_named vcn) (vcn_route_tables vcn) (route_tables res);
          security_lists :=
            fold_left (record_named vcn) (vcn_security_lists vcn) (security_lists res);
          amd_instances := amd_instances res; arm_instances := arm_instances res;
          boot_volumes := boot_volumes res; block_volumes := block_volumes res |}.

Fixpoint _inventory_networking_resources (vcn_list : list Vcn) (res : ExistingResources)
  : result ExistingResources :=
  match vcn_list with
  | [] => Ok res
  | vcn :: rest =>
      res' <- record_vcn res vcn ;;
      _inventory_networking_resources rest res'
  end.

(** [_inventory_all_resources]: compute, then networking, then storage. *)
Definition _inventory_all_resources (instances : list Instance) (vcn_list : list Vcn)
    (boots blocks : list Volume) (res : ExistingResources) : result ExistingResources :=
  let res := _inventory_compute_instances instances res in
  res <- _inventory_networking_resources vcn_list res ;;
  Ok (_inventory_storage_resources boots blocks res).

(** The keys of a [dict]. *)
Definition keys (d : dict) : list string := map fst d.

(** ** Notions used to state the properties *)

(** The instances the compute inventory records as AMD and as ARM
    instances. *)
Definition is_amd (instance : Instance) : bool :=
  negb (String.eqb (inst_lifecycle_state instance) "TERMINATED")
  && String.eqb (inst_shape instance) FREE_TIER_AMD_SHAPE.

Definition is_arm (instance : Instance) : bool :=
  negb (String.eqb (inst_lifecycle_state instance) "TERMINATED")
  && String.eqb (inst_shape instance) FREE_TIER_ARM_SHAPE.

Definition is_available (volume : Volume) : bool :=
  String.eqb (vol_lifecycle_state volume) "AVAILABLE".

Definition vcn_is_available (vcn : Vcn) : bool :=
  String.eqb (vcn_lifecycle_state vcn) "AVAILABLE".

(** The record the compute inventory stores for an instance. *)
Definition base_of (instance : Instance) : string :=
  instance_base (inst_display_name instance) (inst_lifecycle_state instance)
    (inst_shape instance) (inst_public_ip instance) (inst_private_ip instance).

Definition arm_record_of (instance : Instance) : string :=
  arm_record (base_of instance) (inst_ocpus instance) (inst_memory_in_gbs instance).

Definition volume_record_of (volume : Volume) : string :=
  volume_record (vol_display_name volume) (vol_size_in_gbs volume).

Definition vcn_record_of (vcn : Vcn) : string :=
  vcn_display_name vcn ++ "|" ++ nth 0 (vcn_cidr_blocks vcn) EmptyString.

(** The texts of an instance that go into its record have no [|]. *)
Definition instance_text_ok (instance : Instance) : bool :=
  no_bar (inst_display_name instance) && no_bar (inst_lifecycle_state instance)
  && no_bar (inst_public_ip instance) && no_bar (inst_private_ip instance).

Definition volume_text_ok (volume : Volume) : bool := no_bar (vol_display_name volume).

End OCIPlan.

(* ================================================================== *)
(** * Running [terraform]: subprocesses, output and waiting *)
(* ================================================================== *)

Module Shell.

(** What [subprocess.run] returns: the exit status and the captured
    output ([text=True], so both are strings). *)
Record CompletedProcess : Type := {
  returncode : Z;
  stdout : string;
  stderr : string
}.

(** What a function does to the outside: it runs a command in a directory
    with some variables added to the environment, prints a text
    ([click.echo], to standard output or to standard error), or waits
    ([time.sleep]). *)
Inductive event : Type :=
| Run (cmd : list string) (cwd : string) (env : list (string * string))
| Echo (text : string)
| EchoErr (text : string)
| Sleep (seconds : Z).

(** The outside as a function sees it: the environment variables and the
    result of every subprocess, numbered in the order they are run. *)
Record World : Type := {
  getenv : string -> option string;
  subprocess_result : nat -> CompletedProcess
}.

Definition is_run (e : event) : bool :=
  match e with Run _ _ _ => true | _ => false end.

Definition runs (es : list event) : nat := List.length (filter is_run es).

(** A computation is given the world and the number of subprocesses run
    before it, and gives its result and the events it caused, oldest
    first.  An exception keeps the events caused before it. *)
Definition IO (A : Type) : Type := World -> nat -> result A * list event.

Definition pure {A : Type} (a : A) : IO A := fun _ _ => (Ok a, []).

Definition raise {A : Type} (e : exn) : IO A := fun _ _ => (Raise e, []).

Definition bindIO {A B : Type} (m : IO A) (k : A -> IO B) : IO B :=
  fun w n =>
    match m w n with
    | (Ok a, es) =>
        let '(r, es') := k a w (n + runs es)%nat in (r, (es ++ es')%list)
    | (Raise e, es) => (Raise e, es)
    end.

Definition liftIO {A : Type} (r : result A) : IO A := fun _ _ => (r, []).

Definition subprocess_run (cmd : list string) (cwd : string)
    (env : list (string * string)) : IO CompletedProcess :=
  fun w n => (Ok (subprocess_result w n), [Run cmd cwd env]).

Definition echo (text : string) : IO unit := fun _ _ => (Ok tt, [Echo text]).

Definition echo_err (text : string) : IO unit := fun _ _ => (Ok tt, [EchoErr text]).

(** [time.sleep] keeps a length as a signed 64-bit count of nanoseconds:
    the longest length it takes, in seconds. *)
Definition sleep_max : Z := 9223372036.

(** [time.sleep(seconds)] for an integer: a length that does not fit the
    clock raises [OverflowError], and one that fits and is negative,
    [ValueError]. *)
Definition sleep (seconds : Z) : IO unit :=
  fun _ _ =>
    if (seconds <? - sleep_max) || (sleep_max <? seconds) then (Raise OverflowError, [])
    else if seconds <? 0 then (Raise ValueError, [])
    else (Ok tt, [Sleep seconds]).

(** [os.getenv(name, default)] *)
Definition getenv_default (name default : string) : IO string :=
  fun w _ =>
    (Ok (match getenv w name with Some v => v | None => default end), []).

End Shell.

Notation "x <<- m ;; k" := (Shell.bindIO m (fun x => k))
  (at level 61, m at next level, right associativity).

Module OCITerraform.

Import OCI Shell.

(** ** [OUT_OF_CAPACITY_RE]

    The pattern is an alternation of four literal texts, searched
    anywhere in the output without regard to the case of letters. *)

Definition lower (c : ascii) : ascii :=
  let n := nat_of_ascii c in
  if (Nat.leb 65 n && Nat.leb n 90)%bool then ascii_of_nat (n + 32) else c.

(** The pattern matches at the start of the text. *)
Fixpoint match_here (pattern text : string) : bool :=
  match pattern with
  | EmptyString => true
  | String p pattern' =>
      match text with
      | EmptyString => false
      | String c text' =>
          (Ascii.eqb (lower p) (lower c) && match_here pattern' text')%bool
      end
  end.

(** The pattern matches somewhere in the text. *)
Fixpoint search (pattern text : string) : bool :=
  (match_here pattern text
   || match text with
      | EmptyString => false
      | String _ text' => search pattern text'
      end)%bool.

Definition OUT_OF_CAPACITY_RE_search (output : string) : bool :=
  (search "out of capacity" output || search "out of host capacity" output
   || search "OutOfCapacity" output || search "OutOfHostCapacity" output)%bool.

(** ** [_run_terraform_cmd] *)

Definition output_of (proc : CompletedProcess) : string := stdout proc ++ stderr proc.

Definition _run_terraform_cmd (cmd : list string) (cwd : string) : IO CompletedProcess :=
  proc <<- subprocess_run cmd cwd [] ;;
  let output := output_of proc in
  if negb (returncode proc =? 0) then
    raise (ClickException
             ("Command failed (" ++ join " " cmd ++ "):" ++ nl ++ output))
  else
    _ <<- (if truthy_str (strip output) then echo output else pure tt) ;;
    pure proc.

(** ** [_run_terraform_apply_with_retries] *)

Definition apply_cmd : list string := ["terraform"; "apply"; "-input=false"; "tfplan"].

Definition retry_message (attempt max_attempts sleep_time : Z) : string :=
  "Detected out-of-capacity condition on attempt " ++ str_Z attempt ++ "/"
  ++ str_Z max_attempts ++ "; retrying in " ++ str_Z sleep_time ++ "s...".

(** The [for] loop over the attempts that are left.  It gives [None] when
    the function has returned from inside the loop and the last output
    when the loop has ended, by [break] or by running out of attempts. *)
Fixpoint apply_attempts (attempts : list Z) (max_attempts base_delay : Z) (cwd : string)
    (last_output : string) : IO (option string) :=
  match attempts with
  | [] => pure (Some last_output)
  | attempt :: rest =>
      proc <<- subprocess_run apply_cmd cwd [] ;;
      let output := output_of proc in
      if returncode proc =? 0 then
        _ <<- (if truthy_str (strip output) then echo output else pure tt) ;;
        _ <<- echo "terraform apply succeeded" ;;
        pure None
      else if negb (OUT_OF_CAPACITY_RE_search output) then
        raise (ClickException ("terraform apply failed:" ++ nl ++ output))
      else if attempt =? max_attempts then pure (Some output)
      else
        let sleep_time := base_delay * 2 ^ (attempt - 1) in
        _ <<- echo (retry_message attempt max_attempts sleep_time) ;;
        _ <<- sleep sleep_time ;;
        apply_attempts rest max_attempts base_delay cwd output
  end.

Definition gave_up (max_attempts : Z) (last_output : string) : exn :=
  ClickException
    ("terraform apply did not succeed after " ++ str_Z max_attempts ++ " attempts."
     ++ nl ++ last_output).

Definition _run_terraform_apply_with_retries (cwd : string) : IO unit :=
  max_text <<- getenv_default "RETRY_MAX_ATTEMPTS" "8" ;;
  max_attempts <<- liftIO (int max_text) ;;
  delay_text <<- getenv_default "RETRY_BASE_DELAY" "15" ;;
  base_delay <<- liftIO (int delay_text) ;;
  ended <<- apply_attempts (range 1 (max_attempts + 1)) max_attempts base_delay cwd
              EmptyString ;;
  match ended with
  | None => pure tt
  | Some last_output => raise (gave_up max_attempts last_output)
  end.

(** ** [_run_terraform_deploy] *)

Definition init_cmd : list string := ["terraform"; "init"; "-input=false"].
Definition plan_cmd : list string := ["terraform"; "plan"; "-out"; "tfplan"].

Definition _run_terraform_deploy (terraform_dir : string) : IO unit :=
  _ <<- _run_terraform_cmd init_cmd terraform_dir ;;
  _ <<- _run_terraform_cmd plan_cmd terraform_dir ;;
  _run_terraform_apply_with_retries terraform_dir.

(** The commands of the [Run] events, in order. *)
Fixpoint commands (es : list event) : list (list string) :=
  match es with
  | [] => []
  | Run cmd _ _ :: es' => cmd :: commands es'
  | _ :: es' => commands es'
  end.

(** The lengths of the [Sleep] events, in order. *)
Fixpoint sleeps (es : list event) : list Z :=
  match es with
  | [] => []
  | Sleep seconds :: es' => seconds :: sleeps es'
  | _ :: es' => sleeps es'
  end.

(** The text with its letters A to Z in lower case. *)
Fixpoint lower_text (s : string) : string :=
  match s with
  | EmptyString => EmptyString
  | String c r => String (lower c) (lower_text r)
  end.

End OCITerraform.

(* ================================================================== *)
(** * GCP: [cli.py] *)
(* ================================================================== *)

Module GCPCli.

Import Shell.

(** ** [deploy], up to the choice of the zone

    The rest of [deploy] writes the files of renderers that are not part
    of these sources. *)

(** How the first part of [deploy] ends: [sys.exit(1)] after the hard
    errors have been printed, or it goes on with a zone. *)
Inductive deploy_start : Type :=
| Exit1 (printed : list string)
| GoOn (zone : string).

Definition deploy_validate_and_zone (region zone : string) (disk_size : Z)
    (allow_paid : bool) : deploy_start :=
  let errors := GCP.validate_proposed_config "e2-micro" region disk_size None allow_paid in
  let hard_errors := filter (fun e => startswith e "ERROR:") errors in
  match hard_errors with
  | _ :: _ => Exit1 hard_errors
  | [] => GoOn (if truthy_str zone then zone else region ++ "-a")
  end.

(** ** [_terraform_deploy] *)

Definition deploy_cmds : list (list string) :=
  [ ["terraform"; "init"; "-input=false"];
    ["terraform"; "plan"; "-input=false"; "-out=tfplan"];
    ["terraform"; "apply"; "-input=false"; "tfplan"] ].

(** The [for] loop over the commands that are left; [Some code] is
    [sys.exit(code)]. *)
Fixpoint run_each (cmds : list (list string)) (tf_dir : string)
    (env : list (string * string)) : IO (option Z) :=
  match cmds with
  | [] => pure None
  | cmd :: rest =>
      _ <<- echo ("$ " ++ join " " cmd) ;;
      r <<- subprocess_run cmd tf_dir env ;;
      if negb (returncode r =? 0) then
        _ <<- echo_err ("terraform command failed: " ++ join " " cmd) ;;
        pure (Some (returncode r))
      else run_each rest tf_dir env
  end.

Definition _terraform_deploy (tf_dir : string) (non_interactive : bool) : IO (option Z) :=
  let env := [("TF_IN_AUTOMATION", if non_interactive then "1" else EmptyString)] in
  run_each deploy_cmds tf_dir env.

End GCPCli.

(* ================================================================== *)
(** * Concrete worlds used below *)
(* ================================================================== *)

Module ShellFixtures.

Import Shell.

Definition capacity_failure : CompletedProcess := {|
  returncode := 1;
  stdout := EmptyString;
  stderr := "Error: 500-InternalError, Out of host capacity."
|}.

Definition success : CompletedProcess := {|
  returncode := 0;
  stdout := "Apply complete! Resources: 3 added, 0 changed, 0 destroyed.";
  stderr := EmptyString
|}.

Definition no_env : string -> option string := fun _ => None.

(** No setting in the environment; the first [failures] subprocesses
    report that the region is out of capacity and the later ones succeed. *)
Definition capacity_after (failures : nat) : World := {|
  getenv := no_env;
  subprocess_result := fun n => if Nat.ltb n failures then capacity_failure else success
|}.

(** The same with [RETRY_MAX_ATTEMPTS] set to [value]. *)
Definition capacity_after_with_max (failures : nat) (value : string) : World := {|
  getenv := fun name => if String.eqb name "RETRY_MAX_ATTEMPTS" then Some value else None;
  subprocess_result := fun n => if Nat.ltb n failures then capacity_failure else success
|}.

(** The same with [RETRY_BASE_DELAY] set to [value]. *)
Definition capacity_after_with_delay (failures : nat) (value : string) : World := {|
  getenv := fun name => if String.eqb name "RETRY_BASE_DELAY" then Some value else None;
  subprocess_result := fun n => if Nat.ltb n failures then capacity_failure else success
|}.

(** The first command succeeds and the second fails. *)
Definition second_fails : World := {|
  getenv := no_env;
  subprocess_result :=
    fun n => if Nat.eqb n 1
             then {| returncode := 2; stdout := EmptyString; stderr := "Error: plan" |}
             else success
|}.

End ShellFixtures.

(* ================================================================== *)
(** * A concrete account used below *)
(* ================================================================== *)

Module InventoryFixtures.

Import OCI OCIPlan.

Definition instance (id name state shape private_ip : string) (ocpus memory : Z)
  : Instance := {|
  inst_id := id; inst_display_name := name; inst_lifecycle_state := state;
  inst_shape := shape; inst_public_ip := "none"; inst_private_ip := private_ip;
  inst_ocpus := ocpus; inst_memory_in_gbs := memory
|}.

(** One AMD instance, two ARM instances and a terminated one. *)
Definition listed_instances : list Instance :=
  [ instance "ocid1.instance.oc1..web" "web" "RUNNING" FREE_TIER_AMD_SHAPE "10.0.0.2" 1 1;
    instance "ocid1.instance.oc1..db" "db" "RUNNING" FREE_TIER_ARM_SHAPE "10.0.0.3" 2 12;
    instance "ocid1.instance.oc1..old" "old" "TERMINATED" FREE_TIER_ARM_SHAPE "none" 4 24;
    instance "ocid1.instance.oc1..ci" "ci" "STOPPED" FREE_TIER_ARM_SHAPE "10.0.0.4" 1 6 ].

(** The same account after the second instance has been renamed. *)
Definition listed_instances_renamed : list Instance :=
  [ instance "ocid1.instance.oc1..web" "web" "RUNNING" FREE_TIER_AMD_SHAPE "10.0.0.2" 1 1;
    instance "ocid1.instance.oc1..db" "db|primary" "RUNNING" FREE_TIER_ARM_SHAPE
      "10.0.0.3" 2 12 ].

Definition vcn (id name state : string) (cidr_blocks : list string) : Vcn := {|
  vcn_id := id; vcn_display_name := name; vcn_lifecycle_state := state;
  vcn_cidr_blocks := cidr_blocks;
  vcn_subnets :=
    [ {| subnet_id := id ++ ".subnet"; subnet_display_name := name ++ "-subnet";
         subnet_cidr_block := "10.0.0.0/24"; subnet_lifecycle_state := "AVAILABLE" |} ];
  vcn_internet_gateways := [];
  vcn_route_tables := [ {| named_id := id ++ ".rt"; named_display_name := "default" |} ];
  vcn_security_lists := []
|}.

Definition listed_vcns : list Vcn :=
  [ vcn "ocid1.vcn.oc1..main" "main" "AVAILABLE" ["10.0.0.0/16"];
    vcn "ocid1.vcn.oc1..gone" "gone" "TERMINATED" [] ].

Definition listed_vcns_without_cidr : list Vcn :=
  [ vcn "ocid1.vcn.oc1..main" "main" "AVAILABLE" ["10.0.0.0/16"];
    vcn "ocid1.vcn.oc1..odd" "odd" "AVAILABLE" [] ].

Definition volume (id name state : string) (size : Z) : Volume := {|
  vol_id := id; vol_display_name := name; vol_lifecycle_state := state;
  vol_size_in_gbs := size
|}.

Definition listed_boot_volumes : list Volume :=
  [ volume "ocid1.bootvolume.oc1..web" "web (Boot Volume)" "AVAILABLE" 50;
    volume "ocid1.bootvolume.oc1..db" "db (Boot Volume)" "AVAILABLE" 47;
    volume "ocid1.bootvolume.oc1..old" "old (Boot Volume)" "TERMINATED" 47 ].

Definition listed_block_volumes : list Volume :=
  [ volume "ocid1.volume.oc1..data" "data" "AVAILABLE" 60 ].

(** What the inventory has stored, or nothing when it has failed. *)
Definition inventoried (instances : list Instance) : ExistingResources :=
  match _inventory_all_resources instances listed_vcns listed_boot_volumes
          listed_block_volumes empty_resources with
  | Py.Ok res => res
  | Py.Raise _ => empty_resources
  end.

(** The test workflow without [--non-interactive]. *)
Definition interactive_workflow (res : ExistingResources) : CloudBooterWorkflow := {|
  runtime := {|
    config_file := "~/.oci/config"; profile := "DEFAULT"; auth_mode := "security_token";
    non_interactive := false; auto_use_existing := false; auto_deploy := false;
    terraform_dir := "terraform"; rt_tenancy_ocid := None; rt_region := None;
    strict_provider_parity := true |};
  resources := res;
  oci_context := Some Fixtures.mock_oci_context
|}.

End InventoryFixtures.

(* ================================================================== *)
(** * Properties of the GCP validator *)
(* ================================================================== *)

Section GCPValidator.

Import GCP.

Variables (machine_type region : string) (boot_disk_size_gb : Z)
          (storage_region : option string).

Lemma bad_machine_type_spec :
  bad_machine_type machine_type = true <-> machine_type <> "e2-micro".
Proof.
  unfold bad_machine_type; cbn [free_machine_type LIMITS].
  destruct (String.eqb_spec machine_type "e2-micro"); cbn; intuition congruence.
Qed.

Lemma str_in_spec (x : string) (xs : list string) :
  str_in x xs = true <-> In x xs.
Proof.
  unfold str_in. rewrite existsb_exists. split.
  - intros (y & Hy & E). apply String.eqb_eq in E. now subst.
  - intros H. exists x. split; [assumption | apply String.eqb_refl].
Qed.

Lemma bad_region_spec :
  bad_region region = true <-> ~ In region ["us-west1"; "us-central1"; "us-east1"].
Proof.
  unfold bad_region; cbn [free_compute_regions LIMITS].
  rewrite negb_true_iff, <- not_true_iff_false, str_in_spec. reflexivity.
Qed.

Lemma bad_boot_disk_spec :
  bad_boot_disk boot_disk_size_gb = true <-> boot_disk_size_gb > 30.
Proof.
  unfold bad_boot_disk; cbn [free_standard_pd_gb LIMITS].
  rewrite Z.gtb_ltb, Z.ltb_lt. lia.
Qed.

Lemma bad_storage_region_spec :
  bad_storage_region storage_region = true <->
  exists sr, storage_region = Some sr /\ sr <> EmptyString
             /\ ~ In sr ["us-east1"; "us-west1"; "us-central1"].
Proof.
  unfold bad_storage_region; cbn [free_storage_regions LIMITS].
  destruct storage_region as [sr|].
  - rewrite andb_true_iff, negb_true_iff, <- not_true_iff_false, str_in_spec.
    split.
    + intros [T N]. exists sr. repeat split; [ | assumption].
      intros ->. discriminate T.
    + intros (sr' & [= <-] & NE & N). split; [ | assumption].
      destruct sr; [congruence | reflexivity].
  - split; [discriminate | intros (sr & E & _); discriminate E].
Qed.

(** The validator, with the override off, is the four checks in order. *)
Lemma validate_unfold :
  validate_proposed_config machine_type region boot_disk_size_gb storage_region false =
  ((if bad_machine_type machine_type then [machine_type_error LIMITS machine_type] else [])
   ++ (if bad_region region then [region_error LIMITS region] else [])
   ++ (if bad_boot_disk boot_disk_size_gb
       then [boot_disk_error LIMITS boot_disk_size_gb] else [])
   ++ (match storage_region with
       | Some sr =>
           if bad_storage_region (Some sr) then [storage_region_error LIMITS sr] else []
       | None => []
       end))%list.
Proof.
  unfold validate_proposed_config, bad_machine_type, bad_region, bad_boot_disk,
    bad_storage_region, append_if.
  cbn [negb].
  destruct (negb (machine_type =? free_machine_type LIMITS)%string),
           (negb (str_in region (free_compute_regions LIMITS))),
           (boot_disk_size_gb >? free_standard_pd_gb LIMITS);
    destruct storage_region as [sr|]; cbn [app]; try reflexivity;
    destruct (truthy_str sr && negb (str_in sr (free_storage_regions LIMITS)))%bool;
    reflexivity.
Qed.

(** C1. With the override off, the validator returns one ERROR entry for
    each of the four checks that is violated and none for a check that
    holds: the entries reporting a check number one when the check is
    violated and zero otherwise, the list has as many entries as there are
    violated checks (so three violated checks give three entries), and it
    is empty exactly when no check is violated. *)
Theorem validate_one_error_per_violated_check :
  let errors :=
    validate_proposed_config machine_type region boot_disk_size_gb storage_region false in
  count_tag "ERROR: Machine type" errors = b2n (bad_machine_type machine_type)
  /\ count_tag "ERROR: Region" errors = b2n (bad_region region)
  /\ count_tag "ERROR: Boot disk" errors = b2n (bad_boot_disk boot_disk_size_gb)
  /\ count_tag "ERROR: Cloud Storage region" errors
     = b2n (bad_storage_region storage_region)
  /\ List.length errors
     = (b2n (bad_machine_type machine_type) + b2n (bad_region region)
        + b2n (bad_boot_disk boot_disk_size_gb)
        + b2n (bad_storage_region storage_region))%nat
  /\ Forall (fun e => startswith e "ERROR:" = true) errors
  /\ (errors = [] <->
      bad_machine_type machine_type = false /\ bad_region region = false
      /\ bad_boot_disk boot_disk_size_gb = false
      /\ bad_storage_region storage_region = false).
Proof.
  cbv zeta. rewrite validate_unfold.
  destruct (bad_machine_type machine_type), (bad_region region),
           (bad_boot_disk boot_disk_size_gb);
    destruct storage_region as [sr|];
    try destruct (bad_storage_region (Some sr));
    cbn; repeat split; try reflexivity; try discriminate;
    try (repeat constructor; fail);
    try (intros (A & B & C & D); discriminate).
Qed.

(** C10. Every entry the validator returns, whatever its arguments, starts
    with [ERROR:]; none starts with [WARN:]. *)
Theorem validate_entries_are_errors (allow_paid_resources : bool) :
  Forall (fun e => startswith e "ERROR:" = true /\ startswith e "WARN:" = false)
    (validate_proposed_config machine_type region boot_disk_size_gb storage_region
       allow_paid_resources).
Proof.
  destruct allow_paid_resources; [constructor | ].
  rewrite validate_unfold.
  destruct (bad_machine_type machine_type), (bad_region region),
           (bad_boot_disk boot_disk_size_gb);
    destruct storage_region as [sr|];
    try destruct (bad_storage_region (Some sr));
    cbn [app]; repeat constructor.
Qed.

End GCPValidator.

(* ================================================================== *)
(** * Facts about the Python prelude *)
(* ================================================================== *)

Section PyFacts.

Lemma forall_chars_app (p : ascii -> bool) (a b : string) :
  forall_chars p (a ++ b) = (forall_chars p a && forall_chars p b)%bool.
Proof.
  induction a as [|c a IH]; cbn; [reflexivity | ].
  rewrite IH. now rewrite andb_assoc.
Qed.

Lemma forall_chars_weaken (p p' : ascii -> bool) (s : string) :
  (forall c, p c = true -> p' c = true) ->
  forall_chars p s = true -> forall_chars p' s = true.
Proof.
  intros W. induction s as [|c s IH]; cbn; [reflexivity | ].
  rewrite !andb_true_iff. intros [H1 H2]. auto.
Qed.

(** The digits of a decimal number are digits. *)
Lemma string_of_uint_digits (d : uint) :
  forall_chars is_digit (NilEmpty.string_of_uint d) = true.
Proof. induction d; cbn; auto. Qed.

Lemma string_of_uint_nonempty (d : uint) :
  d <> Nil -> NilEmpty.string_of_uint d <> EmptyString.
Proof. destruct d; cbn; congruence. Qed.

Lemma str_Z_chars (z : Z) : forall_chars sign_or_digit (str_Z z) = true.
Proof.
  destruct z as [|p|p]; cbn -[is_digit]; [reflexivity | | ].
  - eapply forall_chars_weaken; [ | apply string_of_uint_digits].
    intros c H. unfold sign_or_digit. now rewrite H.
  - eapply forall_chars_weaken; [ | apply string_of_uint_digits].
    intros c H. unfold sign_or_digit. now rewrite H.
Qed.

Lemma str_Z_nonempty (z : Z) : str_Z z <> EmptyString.
Proof.
  destruct z as [|p|p]; cbn; try discriminate.
  apply string_of_uint_nonempty, Unsigned.to_uint_nonnil.
Qed.

Lemma lstrip_no_space (space : ascii -> bool) (s : string) :
  forall_chars (fun c => negb (space c)) s = true -> lstrip space s = s.
Proof.
  destruct s as [|c s]; cbn; [reflexivity | ].
  rewrite andb_true_iff, negb_true_iff. now intros [-> _].
Qed.

Lemma rstrip_no_space (space : ascii -> bool) (s : string) :
  forall_chars (fun c => negb (space c)) s = true -> rstrip space s = s.
Proof.
  induction s as [|c s IH]; cbn; [reflexivity | ].
  rewrite andb_true_iff, negb_true_iff. intros [Hc Hs].
  rewrite (IH Hs), Hc. now destruct s.
Qed.

Lemma strip_no_space (s : string) :
  forall_chars (fun c => negb (is_space c)) s = true -> strip s = s.
Proof.
  intros H. unfold strip. rewrite (lstrip_no_space _ _ H). now apply rstrip_no_space.
Qed.

Lemma digit_not_underscore (c : ascii) : is_digit c = true -> Ascii.eqb c "_" = false.
Proof.
  intros H. destruct (Ascii.eqb_spec c "_") as [->|]; [discriminate H | reflexivity].
Qed.

Lemma drop_underscores_digits (b : bool) (s : string) :
  forall_chars is_digit s = true -> drop_underscores b s = Some s.
Proof.
  revert b. induction s as [|c s IH]; intros b; cbn -[is_digit]; [reflexivity | ].
  rewrite andb_true_iff. intros [Hc Hs].
  rewrite (digit_not_underscore _ Hc), (IH _ Hs). reflexivity.
Qed.

Lemma int_of_digits_uint (d : uint) :
  d <> Nil -> int_of_digits (NilEmpty.string_of_uint d) = Ok (Z.of_uint d).
Proof.
  intros Hd. unfold int_of_digits.
  rewrite (drop_underscores_digits _ _ (string_of_uint_digits d)).
  destruct (NilEmpty.string_of_uint d) as [|c r] eqn:E.
  - now apply string_of_uint_nonempty in E.
  - rewrite <- E, NilEmpty.usu. reflexivity.
Qed.

Lemma of_uint_to_uint (p : positive) : Z.of_uint (Pos.to_uint p) = Z.pos p.
Proof. unfold Z.of_uint. now rewrite Unsigned.of_to. Qed.

Lemma sign_or_digit_no_space (c : ascii) :
  sign_or_digit c = true -> negb (is_int_space c) = true.
Proof.
  unfold sign_or_digit, is_digit, is_int_space.
  destruct (Ascii.eqb_spec c "-") as [->|_]; [reflexivity | ].
  rewrite orb_false_r, andb_true_iff, !Nat.leb_le, negb_true_iff, !orb_false_iff,
    !andb_false_iff, !Nat.leb_gt, !Nat.eqb_neq.
  lia.
Qed.

Lemma digit_not_sign (c : ascii) :
  is_digit c = true -> Ascii.eqb c "-" = false /\ Ascii.eqb c "+" = false.
Proof.
  intros H. split.
  - destruct (Ascii.eqb_spec c "-") as [->|]; [discriminate H | reflexivity].
  - destruct (Ascii.eqb_spec c "+") as [->|]; [discriminate H | reflexivity].
Qed.

(** [int(str(z)) == z] *)
Lemma int_str_Z (z : Z) : int (str_Z z) = Ok z.
Proof.
  assert (N : forall_chars (fun c => negb (is_int_space c)) (str_Z z) = true).
  { eapply forall_chars_weaken; [apply sign_or_digit_no_space | apply str_Z_chars]. }
  unfold int. rewrite (lstrip_no_space _ _ N), (rstrip_no_space _ _ N). clear N.
  destruct z as [|p|p]; [reflexivity | | ].
  - cbn [str_Z].
    pose proof (string_of_uint_digits (Pos.to_uint p)) as D.
    pose proof (int_of_digits_uint (Pos.to_uint p) (Unsigned.to_uint_nonnil p)) as I.
    destruct (NilEmpty.string_of_uint (Pos.to_uint p)) as [|c r].
    + discriminate I.
    + cbn -[is_digit] in D. apply andb_true_iff in D as [Dc _].
      destruct (digit_not_sign _ Dc) as [-> ->].
      rewrite I, of_uint_to_uint. reflexivity.
  - cbn [str_Z]. rewrite Ascii.eqb_refl.
    rewrite (int_of_digits_uint _ (Unsigned.to_uint_nonnil p)), of_uint_to_uint.
    reflexivity.
Qed.

(** [int] skips a no-break space and refuses a file separator, which
    [str.strip] removes. *)
Lemma int_white_space :
  int (String (ascii_of_nat 160) "12") = Ok 12
  /\ int (String (ascii_of_nat 28) "12") = Raise ValueError
  /\ strip (String (ascii_of_nat 28) "12") = "12".
Proof. repeat split. Qed.

(** White space before a literal does not matter to [int]. *)
Lemma int_space_str_Z (z : Z) : int (String " " (str_Z z)) = Ok z.
Proof.
  change (int (String " " (str_Z z))) with (int (str_Z z)). apply int_str_Z.
Qed.

(** ** Concatenation *)

Lemma str_app_assoc (a b c : string) : (a ++ b) ++ c = a ++ (b ++ c).
Proof. induction a as [|x a IH]; cbn; [reflexivity | now rewrite IH]. Qed.

Lemma str_app_nil_r (a : string) : a ++ EmptyString = a.
Proof. induction a as [|x a IH]; cbn; [reflexivity | now rewrite IH]. Qed.

Lemma concat_empty_cons (x : string) (xs : list string) :
  String.concat EmptyString (x :: xs) = x ++ String.concat EmptyString xs.
Proof. destruct xs; cbn; [now rewrite str_app_nil_r | reflexivity]. Qed.

(** [sep.join] puts the separator before every item but the first. *)
Lemma join_cons (sep e : string) (es : list string) :
  join sep (e :: es) = e ++ String.concat EmptyString (map (fun x => sep ++ x) es).
Proof.
  unfold join. revert e. induction es as [|e' es IH]; intros e.
  - cbn. now rewrite str_app_nil_r.
  - change (String.concat sep (e :: e' :: es))
      with (e ++ sep ++ String.concat sep (e' :: es)).
    rewrite IH. cbn [map]. rewrite concat_empty_cons, str_app_assoc. reflexivity.
Qed.

(** ** [split] *)

Lemma split_no_sep (sep : ascii) (s : string) :
  forall_chars (fun c => negb (Ascii.eqb c sep)) s = true -> split sep s = [s].
Proof.
  induction s as [|c s IH]; cbn; [reflexivity | ].
  rewrite andb_true_iff, negb_true_iff. intros [-> Hs]. now rewrite (IH Hs).
Qed.

Lemma split_app_sep (sep : ascii) (a b : string) :
  forall_chars (fun c => negb (Ascii.eqb c sep)) a = true ->
  split sep (a ++ String sep b) = a :: split sep b.
Proof.
  induction a as [|c a IH]; cbn.
  - intros _. now rewrite Ascii.eqb_refl.
  - rewrite andb_true_iff, negb_true_iff. intros [-> Ha]. now rewrite (IH Ha).
Qed.

Lemma mapM_ok {A B : Type} (f : A -> result B) (g : A -> B) (xs : list A) :
  (forall x, In x xs -> f x = Ok (g x)) -> mapM f xs = Ok (map g xs).
Proof.
  induction xs as [|x xs IH]; cbn; [reflexivity | ].
  intros H. rewrite (H x (or_introl eq_refl)). cbn.
  rewrite IH by (intros y Hy; apply H; now right). reflexivity.
Qed.

Lemma mapM_length {A B : Type} (f : A -> result B) (xs : list A) (ys : list B) :
  mapM f xs = Ok ys -> List.length ys = List.length xs.
Proof.
  revert ys. induction xs as [|x xs IH]; cbn; intros ys.
  - now intros [= <-].
  - destruct (f x) as [y|]; [cbn | discriminate].
    destruct (mapM f xs) as [ys'|]; [cbn | discriminate].
    intros [= <-]. cbn. now rewrite (IH ys').
Qed.

Lemma mapM_Forall2 {A B : Type} (f : A -> result B) (xs : list A) (ys : list B) :
  mapM f xs = Ok ys -> Forall2 (fun x y => f x = Ok y) xs ys.
Proof.
  revert ys. induction xs as [|x xs IH]; cbn; intros ys.
  - intros [= <-]. constructor.
  - destruct (f x) as [y|] eqn:E; [cbn | discriminate].
    destruct (mapM f xs) as [ys'|]; [cbn | discriminate].
    intros [= <-]. constructor; auto.
Qed.

Lemma fold_add_shift (xs : list Z) (a : Z) :
  fold_left Z.add xs a = a + fold_left Z.add xs 0.
Proof.
  revert a. induction xs as [|y ys IH]; intros a; cbn; [lia | ].
  rewrite (IH (a + y)), (IH y). lia.
Qed.

Lemma sum_cons (x : Z) (xs : list Z) : sum (x :: xs) = x + sum xs.
Proof. unfold sum. cbn. apply fold_add_shift. Qed.

Lemma sum_app (xs ys : list Z) : sum (xs ++ ys) = sum xs + sum ys.
Proof.
  induction xs as [|x xs IH]; [reflexivity | ].
  rewrite <- app_comm_cons, !sum_cons, IH. lia.
Qed.

End PyFacts.

(* ================================================================== *)
(** * Properties of the OCI validator *)
(* ================================================================== *)

Section OCIValidator.

Import OCI.

Variables (self : CloudBooterWorkflow) (planned : PlannedConfig).

(** What [_available_resources] returns once the records are read. *)
Lemma available_resources_of_usage (os ms bs ks : list Z) :
  read_usage (resources self) = Ok (os, ms, bs, ks) ->
  _available_resources self =
  Ok (2 - len (amd_instances (resources self)), 4 - sum os, 24 - sum ms,
      200 - (sum bs + sum ks)).
Proof.
  unfold read_usage, _available_resources.
  destruct (mapM _ (values (arm_instances _))) as [os'|]; [cbn | discriminate].
  destruct (mapM _ (values (arm_instances _))) as [ms'|]; [cbn | discriminate].
  destruct (mapM _ (values (boot_volumes _))) as [bs'|]; [cbn | discriminate].
  destruct (mapM _ (values (block_volumes _))) as [ks'|]; [cbn | discriminate].
  intros [= -> -> -> ->]. reflexivity.
Qed.



Lemma validation_errors_unfold (a o m s : Z) :
  _available_resources self = Ok (a, o, m, s) ->
  validation_errors self planned =
  Ok ((if amd_micro_instance_count planned >? a
       then [amd_count_error (amd_micro_instance_count planned) a] else [])
      ++ (if sum (arm_flex_ocpus_per_instance planned) >? o
          then [arm_ocpus_error (sum (arm_flex_ocpus_per_instance planned)) o] else [])
      ++ (if sum (arm_flex_memory_per_instance planned) >? m
          then [arm_memory_error (sum (arm_flex_memory_per_instance planned)) m] else [])
      ++ (if proposed_storage planned >? s
          then [storage_error (proposed_storage planned) s] else [])
      ++ (if len (vcns (resources self)) >? 2 then [vcn_error] else []))%list.
Proof.
  intros H. unfold validation_errors. rewrite H. cbn [bind].
  unfold append_if, FREE_TIER_MAX_VCNS.
  destruct (amd_micro_instance_count planned >? a),
           (sum (arm_flex_ocpus_per_instance planned) >? o),
           (sum (arm_flex_memory_per_instance planned) >? m),
           (proposed_storage planned >? s),
           (len (vcns (resources self)) >? 2); reflexivity.
Qed.

Lemma validate_of_errors (errors : list string) :
  validation_errors self planned = Ok errors ->
  _validate_proposed_config self planned =
  match errors with
  | [] => Ok tt
  | _ :: _ => Raise (ClickException (validation_failure errors))
  end.
Proof. intros H. unfold _validate_proposed_config. now rewrite H. Qed.

(** The validator returns normally exactly when the plan is within what
    [_available_resources] returned and at most two VCNs exist. *)
Lemma validate_ok_iff (a o m s : Z) :
  _available_resources self = Ok (a, o, m, s) ->
  _validate_proposed_config self planned = Ok tt <->
  amd_micro_instance_count planned <= a
  /\ sum (arm_flex_ocpus_per_instance planned) <= o
  /\ sum (arm_flex_memory_per_instance planned) <= m
  /\ proposed_storage planned <= s
  /\ len (vcns (resources self)) <= 2.
Proof.
  intros A. rewrite (validate_of_errors _ (validation_errors_unfold _ _ _ _ A)).
  destruct (Z.gtb_spec (amd_micro_instance_count planned) a),
           (Z.gtb_spec (sum (arm_flex_ocpus_per_instance planned)) o),
           (Z.gtb_spec (sum (arm_flex_memory_per_instance planned)) m),
           (Z.gtb_spec (proposed_storage planned) s),
           (Z.gtb_spec (len (vcns (resources self))) 2);
    cbn [app]; split; intros Hyp;
    first [ discriminate Hyp | reflexivity | exfalso; lia | repeat split; lia ].
Qed.

(** C2, amended.  On an inventory whose records can be read, the
    validator reports one violation for each of the five conditions
    that holds and nothing else: the proposed AMD count
    exceeds 2 minus the existing AMD instances; the proposed OCPU sum
    exceeds 4 minus the OCPUs of the existing ARM instances; the proposed
    memory sum exceeds 24 minus their memory; the proposed storage exceeds
    200 minus the existing boot and block volumes; more than 2 VCNs
    exist.  It returns normally exactly when none holds and raises the
    collected violations exactly when one holds. *)
Theorem validator_reports_each_exceeded_limit (os ms bs ks : list Z) :
  read_usage (resources self) = Ok (os, ms, bs, ks) ->
  let amd_exceeded :=
    amd_micro_instance_count planned >? 2 - len (amd_instances (resources self)) in
  let ocpus_exceeded := sum (arm_flex_ocpus_per_instance planned) >? 4 - sum os in
  let memory_exceeded := sum (arm_flex_memory_per_instance planned) >? 24 - sum ms in
  let storage_exceeded :=
    amd_micro_instance_count planned * amd_micro_boot_volume_size_gb planned
    + sum (arm_flex_boot_volume_size_gb planned)
    + amd_micro_instance_count planned * amd_block_volume_size_gb planned
    + sum (arm_block_volume_sizes planned) >? 200 - (sum bs + sum ks) in
  let vcns_exceeded := len (vcns (resources self)) >? 2 in
  exists errors,
    validation_errors self planned = Ok errors
    /\ errors =
       ((if amd_exceeded
         then [amd_count_error (amd_micro_instance_count planned)
                 (2 - len (amd_instances (resources self)))] else [])
        ++ (if ocpus_exceeded
            then [arm_ocpus_error (sum (arm_flex_ocpus_per_instance planned)) (4 - sum os)]
            else [])
        ++ (if memory_exceeded
            then [arm_memory_error (sum (arm_flex_memory_per_instance planned))
                    (24 - sum ms)] else [])
        ++ (if storage_exceeded
            then [storage_error (proposed_storage planned) (200 - (sum bs + sum ks))]
            else [])
        ++ (if vcns_exceeded then [vcn_error] else []))%list
    /\ List.length errors
       = (b2n amd_exceeded + b2n ocpus_exceeded + b2n memory_exceeded
          + b2n storage_exceeded + b2n vcns_exceeded)%nat
    /\ (_validate_proposed_config self planned = Ok tt <->
        amd_exceeded = false /\ ocpus_exceeded = false /\ memory_exceeded = false
        /\ storage_exceeded = false /\ vcns_exceeded = false)
    /\ (_validate_proposed_config self planned
        = Raise (ClickException (validation_failure errors)) <->
        amd_exceeded = true \/ ocpus_exceeded = true \/ memory_exceeded = true
        \/ storage_exceeded = true \/ vcns_exceeded = true).
Proof.
  intros U. cbv zeta.
  pose proof (validation_errors_unfold _ _ _ _ (available_resources_of_usage _ _ _ _ U))
    as E.
  eexists. split; [exact E | ].
  rewrite (validate_of_errors _ E).
  fold (proposed_storage planned).
  destruct (amd_micro_instance_count planned >? _),
           (sum (arm_flex_ocpus_per_instance planned) >? _),
           (sum (arm_flex_memory_per_instance planned) >? _),
           (proposed_storage planned >? _),
           (len (vcns (resources self)) >? 2);
    cbn; (split; [reflexivity | ]); (split; [reflexivity | ]);
    split; split; intros H; try discriminate H; try reflexivity;
    intuition discriminate.
Qed.

End OCIValidator.

Section ValidatorOutcomes.

Import OCI Fixtures.

(** The scenario of the specification: with two AMD instances in the
    account and no ARM instance, a third AMD instance is refused with
    "only 0 available", and no AMD instance with 4 ARM OCPUs is accepted. *)
Lemma validator_rejects_third_amd_instance :
  read_usage (resources (workflow two_amd_instances)) = Ok ([], [], [], [])
  /\ (exists errors,
        validation_errors (workflow two_amd_instances) (amd_only 1 ["amd-instance-3"])
        = Ok errors
        /\ errors = ["Cannot create 1 AMD instances, only 0 available."]
        /\ _validate_proposed_config (workflow two_amd_instances)
             (amd_only 1 ["amd-instance-3"])
           = Raise (ClickException (validation_failure errors)))
  /\ _validate_proposed_config (workflow two_amd_instances) mock_planned_config_arm
     = Ok tt.
Proof.
  split; [reflexivity | split].
  - destruct (validator_reports_each_exceeded_limit (workflow two_amd_instances)
                (amd_only 1 ["amd-instance-3"]) [] [] [] [] eq_refl)
      as (errors & E & Eq & _ & _ & R).
    exists errors. split; [exact E | split].
    + rewrite Eq. reflexivity.
    + apply R. left. reflexivity.
  - destruct (validator_reports_each_exceeded_limit (workflow two_amd_instances)
                mock_planned_config_arm [] [] [] [] eq_refl)
      as (errors & _ & _ & _ & A & _).
    apply A. repeat split.
Defined.

(** C2, as stated, fails on an inventory whose records lack the size
    fields, as the records of [mock_existing_resources] of the test suite
    do: five AMD instances exceed the one that is left and 250 GB the
    200 GB, and the validator raises [IndexError] from reading the
    inventory instead of reporting a violation. *)
Lemma unreadable_inventory_reports_no_violation :
  (amd_micro_instance_count exceeds_amd_limit
   >? 2 - len (amd_instances mock_existing_resources)) = true
  /\ (proposed_storage exceeds_amd_limit >? 200 - 0) = true
  /\ read_usage mock_existing_resources = Raise IndexError
  /\ validation_errors (workflow mock_existing_resources) exceeds_amd_limit
     = Raise IndexError
  /\ _validate_proposed_config (workflow mock_existing_resources) exceeds_amd_limit
     = Raise IndexError.
Proof. repeat split. Qed.


(** C8, as stated, fails on the OCI validator: the configuration of
    [test_exceeds_amd_limit] makes it raise instead of returning a list. *)
Lemma oci_validator_raises :
  validation_errors (workflow empty_resources) exceeds_amd_limit
  = Ok ["Cannot create 5 AMD instances, only 2 available.";
        "Cannot use 250GB storage, only 200GB available."]
  /\ _validate_proposed_config (workflow empty_resources) exceeds_amd_limit
     = Raise (ClickException
                (validation_failure
                   ["Cannot create 5 AMD instances, only 2 available.";
                    "Cannot use 250GB storage, only 200GB available."])).
Proof. split; reflexivity. Qed.

Lemma validation_failure_lines (e : string) (errors : list string) :
  validation_failure (e :: errors) =
  "Free Tier validation failed:"
  ++ String.concat EmptyString (map (fun x => nl ++ "- " ++ x) (e :: errors)).
Proof.
  unfold validation_failure. rewrite join_cons. cbn [map].
  rewrite concat_empty_cons, !str_app_assoc. reflexivity.
Qed.

(** C8, amended.  The GCP validator returns its violations as a list, and
    its callers decide on the list: [deploy] stops and [validate] exits
    with status 1 exactly when the list is not empty.  The OCI validator
    collects its violations in a list as well, returns normally when the
    list is empty, and otherwise raises one [ClickException] whose message
    has one line per violation. *)
Theorem gcp_returns_violations_oci_raises_them
    (machine_type region : string) (boot_disk_size_gb : Z)
    (storage_region : option string) (allow_paid_resources : bool)
    (self : CloudBooterWorkflow) (planned : PlannedConfig) (errors : list string) :
  validation_errors self planned = Ok errors ->
  (let gcp_errors :=
     GCP.validate_proposed_config machine_type region boot_disk_size_gb storage_region
       allow_paid_resources in
   (GCP.deploy_stops gcp_errors = true <-> gcp_errors <> [])
   /\ (GCP.validate_exit_status gcp_errors = 1 <-> gcp_errors <> []))
  /\ (errors = [] -> _validate_proposed_config self planned = Ok tt)
  /\ (errors <> [] ->
      _validate_proposed_config self planned
      = Raise (ClickException
                 ("Free Tier validation failed:"
                  ++ String.concat EmptyString (map (fun x => nl ++ "- " ++ x) errors)))).
Proof.
  intros E. split; [ | split].
  - cbv zeta. destruct allow_paid_resources.
    + cbn. split; split; intros H; try discriminate H; now elim H.
    + rewrite validate_unfold.
      destruct (GCP.bad_machine_type machine_type), (GCP.bad_region region),
               (GCP.bad_boot_disk boot_disk_size_gb);
        destruct storage_region as [sr|];
        try destruct (GCP.bad_storage_region (Some sr));
        cbn; split; split; intros H; try discriminate H; try reflexivity;
        now elim H.
  - intros ->. now rewrite (validate_of_errors _ _ _ E).
  - intros NE. rewrite (validate_of_errors _ _ _ E).
    destruct errors as [|e errors]; [now elim NE | ].
    now rewrite validation_failure_lines.
Qed.

(** The message raised for the configuration of [test_exceeds_amd_limit]. *)
Lemma gcp_returns_violations_oci_raises_them_witness :
  validation_errors (workflow empty_resources) exceeds_amd_limit
  = Ok ["Cannot create 5 AMD instances, only 2 available.";
        "Cannot use 250GB storage, only 200GB available."]
  /\ _validate_proposed_config (workflow empty_resources) exceeds_amd_limit
     = Raise (ClickException
                ("Free Tier validation failed:"
                 ++ nl ++ "- Cannot create 5 AMD instances, only 2 available."
                 ++ nl ++ "- Cannot use 250GB storage, only 200GB available.")).
Proof.
  split; [reflexivity | ].
  refine (proj2 (proj2 (gcp_returns_violations_oci_raises_them
                          "e2-micro" "us-central1" 20 None false
                          (workflow empty_resources) exceeds_amd_limit
                          ["Cannot create 5 AMD instances, only 2 available.";
                           "Cannot use 250GB storage, only 200GB available."]
                          eq_refl)) _).
  discriminate.
Defined.

End ValidatorOutcomes.

(* ================================================================== *)
(** * Properties of the interactive prompts and of [_plan_custom] *)
(* ================================================================== *)

Section Prompts.

Import OCI.

Lemma bindM_ok {A B : Type} (m : M A) (k : A -> M B) (inp : list string)
    (r : B * list string) :
  bindM m k inp = Ok r ->
  exists a inp', m inp = Ok (a, inp') /\ k a inp' = Ok r.
Proof.
  unfold bindM. destruct (m inp) as [[a inp']|e]; [ | discriminate].
  intros H. now exists a, inp'.
Qed.

Lemma ret_ok {A : Type} (a : A) (inp : list string) (r : A * list string) :
  ret a inp = Ok r -> r = (a, inp).
Proof. unfold ret. now intros [= <-]. Qed.

Lemma lift_ok {A : Type} (m : result A) (inp inp' : list string) (a : A) :
  lift m inp = Ok (a, inp') -> m = Ok a /\ inp' = inp.
Proof. unfold lift. destruct m; [ | discriminate]. now intros [= <- <-]. Qed.

(** An accepted answer lies in the range of the prompt. *)
Lemma prompt_int_range_bounds (text : string) (lo hi default : Z)
    (inp rest : list string) (value : Z) :
  prompt_int_range text lo hi default inp = Ok (value, rest) ->
  lo <= value <= hi.
Proof.
  induction inp as [|line inp IH]; cbn; [discriminate | ].
  destruct (if truthy_str line then int line else Ok default) as [v|e]; [ | exact IH].
  destruct (lo <=? v) eqn:L; cbn; [ | exact IH].
  destruct (v <=? hi) eqn:H; cbn; [ | exact IH].
  intros [= <- _]. apply Z.leb_le in L, H. lia.
Qed.

(** With the default in range, an empty line is an answer. *)
Lemma prompt_int_range_default (text : string) (lo hi default : Z) (rest : list string) :
  lo <= default <= hi ->
  prompt_int_range text lo hi default (EmptyString :: rest) = Ok (default, rest).
Proof.
  intros [L H]. cbn.
  apply Z.leb_le in L, H. now rewrite L, H.
Qed.

Lemma forM_length {A B : Type} (f : A -> M B) (xs : list A) (inp rest : list string)
    (ys : list B) :
  forM xs f inp = Ok (ys, rest) -> List.length ys = List.length xs.
Proof.
  revert inp rest ys. induction xs as [|x xs IH]; intros inp rest ys; cbn [forM].
  - intros H. apply ret_ok in H. now injection H as -> _.
  - intros H. apply bindM_ok in H as (y & inp1 & _ & H).
    apply bindM_ok in H as (ys' & inp2 & H' & H).
    apply ret_ok in H. injection H as -> _. cbn. now rewrite (IH _ _ _ H').
Qed.

Lemma range_length (a b : Z) : List.length (range a b) = Z.to_nat (b - a).
Proof. unfold range. now rewrite length_map, length_seq. Qed.

Lemma len_app {A : Type} (xs ys : list A) : len (xs ++ ys) = len xs + len ys.
Proof. unfold len. rewrite length_app. lia. Qed.

(** ** Budgets *)

Lemma within_budget_snoc (budget x : Z) (xs : list Z) :
  within_budget budget xs ->
  1 <= x <= Z.max 1 (budget - sum xs) ->
  within_budget budget (xs ++ [x]).
Proof.
  revert budget. induction xs as [|y ys IH]; intros budget; cbn [within_budget app].
  - unfold sum; cbn. rewrite Z.sub_0_r. auto.
  - rewrite sum_cons. intros [Hy Hys] Hx. split; [assumption | ].
    apply IH; [assumption | ]. now replace (budget - y - sum ys) with (budget - (y + sum ys)) by lia.
Qed.

Lemma memory_within_budget_snoc (budget o m : Z) (ocpus mems : list Z) :
  memory_within_budget budget ocpus mems ->
  1 <= m <= Z.max 1 (Z.min (budget - sum mems) (o * 6)) ->
  memory_within_budget budget (ocpus ++ [o]) (mems ++ [m]).
Proof.
  revert budget mems.
  induction ocpus as [|o' ocpus IH]; intros budget [|m' mems];
    cbn [memory_within_budget app]; try contradiction.
  - unfold sum; cbn. rewrite Z.sub_0_r. auto.
  - rewrite sum_cons. intros [Hm' Hrest] Hm. split; [assumption | ].
    apply IH; [assumption | ].
    now replace (budget - m' - sum mems) with (budget - (m' + sum mems)) by lia.
Qed.

Lemma within_budget_positive (budget : Z) (xs : list Z) :
  within_budget budget xs -> Forall (fun x => 1 <= x) xs.
Proof.
  revert budget. induction xs as [|x xs IH]; intros budget; cbn [within_budget].
  - constructor.
  - intros [Hx Hxs]. constructor; [lia | eauto].
Qed.

(** A memory choice is at most 6 GB for each OCPU of its instance. *)
Lemma memory_within_ratio (budget : Z) (ocpus mems : list Z) :
  Forall (fun o => 1 <= o) ocpus ->
  memory_within_budget budget ocpus mems ->
  Forall2 (fun o m => 1 <= m <= o * 6) ocpus mems.
Proof.
  revert budget mems.
  induction ocpus as [|o ocpus IH]; intros budget [|m mems] P;
    cbn [memory_within_budget]; try contradiction.
  - constructor.
  - inversion P as [|? ? Ho Hos]; subst.
    intros [Hm Hrest]. constructor; [lia | eauto].
Qed.

(** While the choices before the last leave at least 1, the sum stays
    within the budget. *)
Lemma within_budget_sum (budget : Z) (xs : list Z) :
  within_budget budget xs ->
  sum (removelast xs) < budget ->
  sum xs <= budget.
Proof.
  revert budget. induction xs as [|x xs IH]; intros budget.
  - unfold sum; cbn. lia.
  - cbn [within_budget]. intros [Hx Hxs].
    destruct xs as [|y ys].
    + unfold sum; cbn. lia.
    + change (removelast (x :: y :: ys)) with (x :: removelast (y :: ys)).
      rewrite !sum_cons. intros Hlt.
      specialize (IH (budget - x) Hxs). rewrite sum_cons in IH. lia.
Qed.

Lemma memory_within_budget_sum (budget : Z) (ocpus mems : list Z) :
  memory_within_budget budget ocpus mems ->
  sum (removelast mems) < budget ->
  sum mems <= budget.
Proof.
  revert budget mems.
  induction ocpus as [|o ocpus IH]; intros budget [|m mems];
    cbn [memory_within_budget]; try contradiction.
  - unfold sum; cbn. lia.
  - intros [Hm Hrest].
    destruct mems as [|m' ms].
    + unfold sum; cbn. lia.
    + change (removelast (m :: m' :: ms)) with (m :: removelast (m' :: ms)).
      rewrite !sum_cons. intros Hlt.
      specialize (IH (budget - m) _ Hrest). rewrite sum_cons in IH. lia.
Qed.

End Prompts.

Section CustomPlanner.

Import OCI Fixtures.

Lemma arm_vars_init_ok (a m : Z) : arm_vars_ok a m 0 (arm_vars_init a m).
Proof.
  unfold arm_vars_ok, arm_vars_init; cbn.
  unfold sum; cbn. repeat split; lia.
Qed.

Lemma arm_loop_body_ok (a m : Z) (n : nat) (i : Z) (v v' : ArmVars)
    (inp rest : list string) :
  arm_vars_ok a m n v ->
  arm_loop_body i v inp = Ok (v', rest) ->
  arm_vars_ok a m (S n) v'.
Proof.
  intros (Ro & Rm & Wo & Wm & L1 & L2 & L3 & L4 & L5) H.
  unfold arm_loop_body in H.
  apply bindM_ok in H as (host & inp1 & _ & H).
  apply bindM_ok in H as (ocpu & inp2 & Ho & H).
  apply bindM_ok in H as (mem & inp3 & Hm & H).
  apply bindM_ok in H as (boot & inp4 & _ & H).
  apply ret_ok in H. injection H as -> _.
  apply prompt_int_range_bounds in Ho, Hm.
  unfold arm_vars_ok;
    cbn [arm_ocpus arm_memory arm_boot arm_hosts arm_blocks rem_ocpus rem_memory].
  rewrite !sum_app, !length_app, L1, L2, L3, L4, L5.
  change (sum [ocpu]) with ocpu. change (sum [mem]) with mem. cbn [List.length].
  repeat split; try lia.
  - apply within_budget_snoc; [assumption | ]. rewrite <- Ro. exact Ho.
  - apply memory_within_budget_snoc; [assumption | ]. rewrite <- Rm. exact Hm.
Qed.

Lemma arm_loop_ok (a m : Z) (xs : list Z) (n : nat) (v v' : ArmVars)
    (inp rest : list string) :
  arm_vars_ok a m n v ->
  for_each xs arm_loop_body v inp = Ok (v', rest) ->
  arm_vars_ok a m (n + List.length xs) v'.
Proof.
  revert n v inp. induction xs as [|i xs IH]; intros n v inp Hv; cbn [for_each].
  - intros H. apply ret_ok in H. injection H as -> _.
    cbn. now rewrite Nat.add_0_r.
  - intros H. apply bindM_ok in H as (v1 & inp1 & Hb & H).
    cbn [List.length]. rewrite Nat.add_succ_r.
    apply (IH (S n) v1 inp1); [ | exact H].
    eapply arm_loop_body_ok; eassumption.
Qed.

Variables (self : CloudBooterWorkflow) (ctx : OciContext).

(** What a returned plan owes to the prompts, in terms of what
    [_available_resources] returned. *)
Lemma plan_custom_inv (inp rest : list string) (planned : PlannedConfig)
    (available_amd available_arm_ocpus available_arm_memory available_storage : Z) :
  _available_resources self
  = Ok (available_amd, available_arm_ocpus, available_arm_memory, available_storage) ->
  _plan_custom self ctx inp = Ok (planned, rest) ->
  0 <= amd_micro_instance_count planned <= Z.max 0 available_amd
  /\ len (amd_micro_hostnames planned) = amd_micro_instance_count planned
  /\ 0 <= arm_flex_instance_count planned <= 4
  /\ lists_match_count planned
  /\ within_budget available_arm_ocpus (arm_flex_ocpus_per_instance planned)
  /\ memory_within_budget available_arm_memory
       (arm_flex_ocpus_per_instance planned) (arm_flex_memory_per_instance planned).
Proof.
  intros A H.
  unfold _plan_custom in H. rewrite A in H.
  apply bindM_ok in H as (avail & inp0 & Ha & H).
  apply lift_ok in Ha as [Ha _].
  assert (Ea : avail = (available_amd, available_arm_ocpus, available_arm_memory,
                        available_storage)) by congruence.
  subst avail. cbv iota beta in H.
  apply bindM_ok in H as (amd_count & inp1 & Hc & H).
  apply bindM_ok in H as (amd_boot & inp2 & _ & H).
  apply bindM_ok in H as (amd_hosts & inp3 & Hh & H).
  apply bindM_ok in H as ([arm_count v] & inp4 & Harm & H).
  apply ret_ok in H. injection H as -> _.
  cbn [amd_micro_instance_count amd_micro_hostnames arm_flex_instance_count
       arm_flex_ocpus_per_instance arm_flex_memory_per_instance].
  apply prompt_int_range_bounds in Hc.
  apply forM_length in Hh. rewrite range_length in Hh.
  assert (V : 0 <= arm_count <= 4
              /\ within_budget available_arm_ocpus (arm_ocpus v)
              /\ memory_within_budget available_arm_memory (arm_ocpus v) (arm_memory v)
              /\ List.length (arm_ocpus v) = Z.to_nat arm_count
              /\ List.length (arm_memory v) = Z.to_nat arm_count
              /\ List.length (arm_boot v) = Z.to_nat arm_count
              /\ List.length (arm_hosts v) = Z.to_nat arm_count
              /\ List.length (arm_blocks v) = Z.to_nat arm_count).
  { destruct (truthy (ubuntu_arm_image_ocid ctx) && (available_arm_ocpus >? 0))%bool.
    - apply bindM_ok in Harm as (n & inp5 & Hn & Harm).
      apply bindM_ok in Harm as (v' & inp6 & Hv & Harm).
      apply ret_ok in Harm. injection Harm as -> ->.
      apply prompt_int_range_bounds in Hn. split; [exact Hn | ].
      apply (arm_loop_ok _ _ _ 0%nat _ _ _ _ (arm_vars_init_ok _ _)) in Hv.
      rewrite range_length in Hv.
      replace (n + 1 - 1) with n in Hv by lia.
      destruct Hv as (_ & _ & Hv). exact Hv.
    - apply ret_ok in Harm. injection Harm as -> ->.
      cbn. repeat split; lia. }
  destruct V as (Hn & Wo & Wm & L1 & L2 & L3 & L4 & L5).
  unfold lists_match_count, len;
    cbn [arm_flex_instance_count arm_flex_ocpus_per_instance
         arm_flex_memory_per_instance arm_flex_boot_volume_size_gb
         arm_flex_hostnames arm_block_volume_sizes].
  rewrite L1, L2, L3, L4, L5, Hh.
  split; [lia | ]. split; [lia | ]. split; [lia | ].
  split; [repeat split; lia | ].
  split; [exact Wo | exact Wm].
Qed.

(** A plan is returned only after [_available_resources] returned. *)
Lemma plan_custom_available (inp rest : list string) (planned : PlannedConfig) :
  _plan_custom self ctx inp = Ok (planned, rest) ->
  exists avail, _available_resources self = Ok avail.
Proof.
  unfold _plan_custom. intros H.
  apply bindM_ok in H as (avail & inp0 & Ha & _).
  apply lift_ok in Ha as [Ha _]. now exists avail.
Qed.

(** C3, amended.  A plan of [_plan_custom] has between 0 and
    max(0, 2 - existing AMD instances) AMD instances and between 0 and 4
    ARM instances, described by lists of that length.  The OCPU and memory
    budgets are decremented by each instance: an instance takes at least
    1 OCPU and at most what the instances before it left of 4 minus the
    OCPUs in use, or 1 when less is left; it takes at least 1 GB and at
    most what is left of 24 minus the memory in use and 6 GB for each of
    its OCPUs, or 1 GB when less is left.  So each memory size is at most
    6 times the OCPUs of its instance, and a sum stays within its budget
    as long as the instances before the last leave at least 1 of it. *)
Theorem custom_plan_bounds (inp rest : list string) (planned : PlannedConfig)
    (os ms bs ks : list Z) :
  read_usage (resources self) = Ok (os, ms, bs, ks) ->
  _plan_custom self ctx inp = Ok (planned, rest) ->
  let available_amd := 2 - len (amd_instances (resources self)) in
  let available_arm_ocpus := 4 - sum os in
  let available_arm_memory := 24 - sum ms in
  0 <= amd_micro_instance_count planned <= Z.max 0 available_amd
  /\ len (amd_micro_hostnames planned) = amd_micro_instance_count planned
  /\ 0 <= arm_flex_instance_count planned <= 4
  /\ lists_match_count planned
  /\ within_budget available_arm_ocpus (arm_flex_ocpus_per_instance planned)
  /\ memory_within_budget available_arm_memory
       (arm_flex_ocpus_per_instance planned) (arm_flex_memory_per_instance planned)
  /\ Forall2 (fun o m => 1 <= m <= o * 6)
       (arm_flex_ocpus_per_instance planned) (arm_flex_memory_per_instance planned)
  /\ (sum (removelast (arm_flex_ocpus_per_instance planned)) < available_arm_ocpus ->
      sum (arm_flex_ocpus_per_instance planned) <= available_arm_ocpus)
  /\ (sum (removelast (arm_flex_memory_per_instance planned)) < available_arm_memory ->
      sum (arm_flex_memory_per_instance planned) <= available_arm_memory).
Proof.
  intros U H. cbv zeta.
  destruct (plan_custom_inv _ _ _ _ _ _ _ (available_resources_of_usage _ _ _ _ _ U) H)
    as (A & Hh & C & L & Wo & Wm).
  split; [exact A | ]. split; [exact Hh | ]. split; [exact C | ].
  split; [exact L | ]. split; [exact Wo | ]. split; [exact Wm | ].
  split; [ | split].
  - eapply memory_within_ratio; [ | exact Wm]. eapply within_budget_positive, Wo.
  - now apply within_budget_sum.
  - now apply memory_within_budget_sum
      with (ocpus := arm_flex_ocpus_per_instance planned).
Qed.

End CustomPlanner.

Section CustomPlannerExamples.

Import OCI Fixtures.

(** C3, as stated, fails: on an empty account a user who asks for two ARM
    instances and accepts every default gets 4 OCPUs and 24 GB for the
    first and 1 OCPU and 1 GB for the second, 5 OCPUs and 25 GB in all,
    more than the 4 OCPUs and 24 GB that are free. *)
Lemma custom_plan_over_allocates :
  read_usage (resources (workflow empty_resources)) = Ok ([], [], [], [])
  /\ exists planned,
       _plan_custom (workflow empty_resources) mock_oci_context two_arm_all_defaults
       = Ok (planned, [])
       /\ arm_flex_ocpus_per_instance planned = [4; 1]
       /\ arm_flex_memory_per_instance planned = [24; 1]
       /\ ~ sum (arm_flex_ocpus_per_instance planned) <= FREE_TIER_MAX_ARM_OCPUS - sum []
       /\ ~ sum (arm_flex_memory_per_instance planned)
            <= FREE_TIER_MAX_ARM_MEMORY_GB - sum [].
Proof.
  split; [reflexivity | ].
  eexists. split; [vm_compute; reflexivity | ].
  cbn. repeat split; intros H; vm_compute in H; now apply H.
Qed.

(** The bounds at work: one more AMD and one more ARM instance on an
    account that already has one of each. *)
Lemma custom_plan_bounds_witness :
  read_usage (resources (workflow one_amd_one_arm)) = Ok ([2], [12], [50; 47], [])
  /\ exists planned,
       _plan_custom (workflow one_amd_one_arm) mock_oci_context one_more_of_each
       = Ok (planned, [])
       /\ amd_micro_instance_count planned <= 1
       /\ within_budget 2 (arm_flex_ocpus_per_instance planned)
       /\ Forall2 (fun o m => 1 <= m <= o * 6)
            (arm_flex_ocpus_per_instance planned) (arm_flex_memory_per_instance planned).
Proof.
  split; [reflexivity | ].
  eexists. split; [vm_compute; reflexivity | ].
  destruct (custom_plan_bounds (workflow one_amd_one_arm) mock_oci_context
              one_more_of_each [] _ [2] [12] [50; 47] [] eq_refl eq_refl)
    as (A & _ & _ & _ & W & _ & R & _).
  split; [exact (proj2 A) | split; [exact W | exact R]].
Defined.

End CustomPlannerExamples.

(* ================================================================== *)
(** * Properties of [_plan_maximum] *)
(* ================================================================== *)

Section MaximumPlanner.

Import OCI Fixtures.

Lemma sum_one (x : Z) : sum [x] = x.
Proof. unfold sum; cbn. reflexivity. Qed.

Lemma sum_nil : sum [] = 0.
Proof. reflexivity. Qed.

Lemma len_map {A B : Type} (f : A -> B) (xs : list A) : len (map f xs) = len xs.
Proof. unfold len. now rewrite length_map. Qed.

Lemma len_range (a b : Z) : a <= b -> len (range a b) = b - a.
Proof. intros H. unfold len. rewrite range_length. lia. Qed.

Variable self : CloudBooterWorkflow.

(** C4, amended.  [_plan_maximum] plans max(0, 2 - existing) AMD
    instances with 50 GB boot volumes and, exactly when an ARM base image
    is available and OCPUs remain, one ARM instance with all remaining
    OCPUs and memory and a boot volume of the storage left after the AMD
    boot volumes, but at least 47 GB.  The plan passes the validator
    exactly when no limit is already exceeded and the remaining storage
    covers the AMD boot volumes and, with an ARM instance, its 47 GB. *)
Theorem maximum_plan_shape (os ms bs ks : list Z) :
  read_usage (resources self) = Ok (os, ms, bs, ks) ->
  let available_amd := 2 - len (amd_instances (resources self)) in
  let available_arm_ocpus := 4 - sum os in
  let available_arm_memory := 24 - sum ms in
  let available_storage := 200 - (sum bs + sum ks) in
  let flexible := (has_arm_image self && (available_arm_ocpus >? 0))%bool in
  exists planned,
    _plan_maximum self = Ok planned
    /\ amd_micro_instance_count planned = Z.max 0 available_amd
    /\ amd_micro_boot_volume_size_gb planned = 50
    /\ amd_block_volume_size_gb planned = 0
    /\ len (amd_micro_hostnames planned) = amd_micro_instance_count planned
    /\ lists_match_count planned
    /\ (flexible = true ->
        arm_flex_instance_count planned = 1
        /\ arm_flex_ocpus_per_instance planned = [available_arm_ocpus]
        /\ arm_flex_memory_per_instance planned = [available_arm_memory]
        /\ arm_flex_boot_volume_size_gb planned
           = [Z.max 47 (available_storage - Z.max 0 available_amd * 50)]
        /\ arm_block_volume_sizes planned = [0])
    /\ (flexible = false -> arm_flex_instance_count planned = 0)
    /\ (_validate_proposed_config self planned = Ok tt <->
        0 <= available_amd
        /\ (flexible = false -> 0 <= available_arm_ocpus /\ 0 <= available_arm_memory)
        /\ Z.max 0 available_amd * 50 + (if flexible then 47 else 0) <= available_storage
        /\ len (vcns (resources self)) <= 2).
Proof.
  intros U. cbv zeta.
  unfold _plan_maximum. rewrite (available_resources_of_usage _ _ _ _ _ U). cbn [bind].
  replace (match oci_context self with
           | Some ctx => (truthy (ubuntu_arm_image_ocid ctx) && (4 - sum os >? 0))%bool
           | None => false
           end)
    with (has_arm_image self && (4 - sum os >? 0))%bool
    by (unfold has_arm_image; now destruct (oci_context self)).
  set (amd := Z.max 0 (2 - len (amd_instances (resources self)))).
  assert (Hamd : 0 <= amd) by (subst amd; lia).
  assert (Hhosts : len (map (fun i => "amd-instance-" ++ str_Z i) (range 1 (amd + 1)))
                   = amd).
  { rewrite len_map, len_range by lia. lia. }
  destruct (has_arm_image self && (4 - sum os >? 0))%bool; eexists;
    (split; [reflexivity | ]);
    cbn [amd_micro_instance_count amd_micro_boot_volume_size_gb
         amd_block_volume_size_gb amd_micro_hostnames arm_flex_instance_count
         arm_flex_ocpus_per_instance arm_flex_memory_per_instance
         arm_flex_boot_volume_size_gb arm_block_volume_sizes];
    (split; [reflexivity | ]); (split; [reflexivity | ]); (split; [reflexivity | ]);
    (split; [exact Hhosts | ]);
    (split; [unfold lists_match_count; cbn; repeat split | ]).
  - split; [intros _; repeat split | ]. split; [discriminate | ].
    rewrite (validate_ok_iff _ _ _ _ _ _ (available_resources_of_usage _ _ _ _ _ U)).
    unfold proposed_storage.
    cbn [amd_micro_instance_count amd_micro_boot_volume_size_gb
         amd_block_volume_size_gb arm_flex_ocpus_per_instance
         arm_flex_memory_per_instance arm_flex_boot_volume_size_gb
         arm_block_volume_sizes].
    rewrite !sum_one. fold amd. unfold FREE_TIER_MIN_BOOT_VOLUME_GB.
    split.
    + intros (A & _ & _ & S & V). repeat split; try lia; discriminate.
    + intros (A & _ & S & V). repeat split; lia.
  - split; [discriminate | ]. split; [reflexivity | ].
    rewrite (validate_ok_iff _ _ _ _ _ _ (available_resources_of_usage _ _ _ _ _ U)).
    unfold proposed_storage.
    cbn [amd_micro_instance_count amd_micro_boot_volume_size_gb
         amd_block_volume_size_gb arm_flex_ocpus_per_instance
         arm_flex_memory_per_instance arm_flex_boot_volume_size_gb
         arm_block_volume_sizes].
    rewrite !sum_nil. fold amd.
    split.
    + intros (A & O & M & S & V). repeat split; lia.
    + intros (A & OM & S & V). destruct (OM eq_refl). repeat split; lia.
Qed.

End MaximumPlanner.

Section MaximumPlannerExamples.

Import OCI Fixtures.

(** C4, as stated, fails: in an account whose 200 GB of storage are
    already taken by one boot volume, the maximum plan still has two AMD
    boot volumes of 50 GB and an ARM boot volume of 47 GB, and the
    validator refuses it. *)
Lemma maximum_plan_exceeds_storage :
  read_usage (resources (workflow one_large_boot_volume)) = Ok ([], [], [200], [])
  /\ exists planned,
       _plan_maximum (workflow one_large_boot_volume) = Ok planned
       /\ proposed_storage planned = 147
       /\ ~ proposed_storage planned <= FREE_TIER_MAX_STORAGE_GB - 200
       /\ _validate_proposed_config (workflow one_large_boot_volume) planned
          = Raise (ClickException
                     (validation_failure
                        ["Cannot use 147GB storage, only 0GB available."])).
Proof.
  split; [reflexivity | ].
  eexists. split; [reflexivity | ].
  split; [reflexivity | split; [ | reflexivity]].
  intros H. vm_compute in H. now apply H.
Qed.

(** On an account with nothing in use and an ARM image, the maximum plan
    is two AMD instances and one ARM instance with 4 OCPUs, 24 GB and a
    boot volume of 100 GB, and it passes the validator. *)
Lemma maximum_plan_on_empty_account :
  read_usage (resources (workflow empty_resources)) = Ok ([], [], [], [])
  /\ exists planned,
       _plan_maximum (workflow empty_resources) = Ok planned
       /\ amd_micro_instance_count planned = 2
       /\ arm_flex_instance_count planned = 1
       /\ arm_flex_ocpus_per_instance planned = [4]
       /\ arm_flex_memory_per_instance planned = [24]
       /\ arm_flex_boot_volume_size_gb planned = [100]
       /\ _validate_proposed_config (workflow empty_resources) planned = Ok tt.
Proof.
  split; [reflexivity | ].
  destruct (maximum_plan_shape (workflow empty_resources) [] [] [] [] eq_refl)
    as (planned & P & A & _ & _ & _ & _ & F & _ & V).
  destruct (F eq_refl) as (C & O & M & B & _).
  exists planned. split; [exact P | ].
  split; [exact A | ]. split; [exact C | ]. split; [exact O | ].
  split; [exact M | ]. split; [exact B | ].
  apply V. vm_compute. repeat split; discriminate.
Defined.

(** The same for every workflow with nothing in use and an ARM image. *)
Lemma maximum_plan_zero_usage (self : CloudBooterWorkflow) :
  amd_instances (resources self) = [] ->
  arm_instances (resources self) = [] ->
  boot_volumes (resources self) = [] ->
  block_volumes (resources self) = [] ->
  has_arm_image self = true ->
  _plan_maximum self =
  Ok {| amd_micro_instance_count := 2;
        amd_micro_boot_volume_size_gb := 50;
        amd_micro_hostnames := ["amd-instance-1"; "amd-instance-2"];
        amd_block_volume_size_gb := 0;
        arm_flex_instance_count := 1;
        arm_flex_ocpus_per_instance := [4];
        arm_flex_memory_per_instance := [24];
        arm_flex_boot_volume_size_gb := [100];
        arm_flex_hostnames := ["arm-instance-1"];
        arm_block_volume_sizes := [0] |}.
Proof.
  intros E1 E2 E3 E4 I.
  unfold _plan_maximum, _available_resources. rewrite E1, E2, E3, E4. cbn [values map mapM bind].
  unfold has_arm_image in I. destruct (oci_context self) as [ctx|]; [ | discriminate I].
  rewrite I. reflexivity.
Qed.

End MaximumPlannerExamples.

(* ================================================================== *)
(** * Properties of [_plan_from_existing] *)
(* ================================================================== *)

Section ExistingPlanner.

Import OCI Fixtures.

Lemma no_bar_str_Z (z : Z) : no_bar (str_Z z) = true.
Proof.
  eapply forall_chars_weaken; [ | apply str_Z_chars].
  intros c H. unfold sign_or_digit, is_digit in H.
  destruct (Ascii.eqb_spec c "|") as [->|]; [discriminate H | reflexivity].
Qed.

(** The fields of the record of an ARM instance whose name, state, shape
    and addresses have no [|]. *)
Lemma arm_record_fields (name state shape public_ip private_ip : string) (ocpus memory : Z) :
  no_bar name = true -> no_bar state = true -> no_bar shape = true ->
  no_bar public_ip = true -> no_bar private_ip = true ->
  split "|" (arm_record (instance_base name state shape public_ip private_ip) ocpus memory)
  = [name; state; shape; public_ip; private_ip; str_Z ocpus; str_Z memory].
Proof.
  intros H1 H2 H3 H4 H5. unfold arm_record, instance_base.
  rewrite !str_app_assoc. cbn [String.append].
  repeat (rewrite split_app_sep by assumption).
  rewrite split_app_sep by apply no_bar_str_Z.
  rewrite split_no_sep by apply no_bar_str_Z.
  reflexivity.
Qed.

Lemma arm_record_reads (name state shape public_ip private_ip : string) (ocpus memory : Z) :
  no_bar name = true -> no_bar state = true -> no_bar shape = true ->
  no_bar public_ip = true -> no_bar private_ip = true ->
  let record :=
    arm_record (instance_base name state shape public_ip private_ip) ocpus memory in
  first_field record = name
  /\ field_int record 5 = Ok ocpus
  /\ field_int record 6 = Ok memory.
Proof.
  intros H1 H2 H3 H4 H5. cbv zeta. unfold first_field, field_int, field_str.
  rewrite (arm_record_fields _ _ _ _ _ _ _ H1 H2 H3 H4 H5). cbn [index nth_error bind].
  now rewrite !int_str_Z.
Qed.

Lemma volume_record_reads (name : string) (size : Z) :
  no_bar name = true -> field_int (volume_record name size) 1 = Ok size.
Proof.
  intros H. unfold field_int, field_str, volume_record. cbn [String.append].
  rewrite (split_app_sep _ _ _ H), split_no_sep by apply no_bar_str_Z.
  cbn [index nth_error bind]. apply int_str_Z.
Qed.

Variables (self : CloudBooterWorkflow) (res : ExistingResources).

(** The two goals of the case of a non-empty inventory. *)
Ltac nonempty_lengths Lo Lm :=
  unfold lists_match_count, len, replicate;
  cbn [arm_flex_instance_count arm_flex_ocpus_per_instance
       arm_flex_memory_per_instance arm_flex_boot_volume_size_gb
       arm_flex_hostnames arm_block_volume_sizes];
  rewrite Lo, Lm, !repeat_length, !length_map; repeat split.

Ltac nonempty_fields Lb :=
  cbn [amd_micro_instance_count amd_micro_hostnames arm_flex_instance_count
       arm_flex_hostnames arm_flex_ocpus_per_instance arm_flex_memory_per_instance
       amd_micro_boot_volume_size_gb arm_flex_boot_volume_size_gb];
  repeat split; try assumption; try apply len_map; try apply Lb.

(** C6, amended.  When every record of an ARM instance carries an
    integer in its sixth and in its seventh field, the plan of
    [_plan_from_existing] has as many AMD and ARM instances as the
    inventory and takes each hostname from the first field and each OCPU
    count and memory size from the sixth and seventh field of the
    instance's record; the boot volume sizes are not taken from the
    inventory: AMD boot volumes are 50 GB, ARM boot volumes 47 GB.  When the inventory has no instance of either class,
    the plan is one ARM instance with 4 OCPUs, 24 GB and a 200 GB boot
    volume if an ARM base image is available, and no instance otherwise. *)
Theorem plan_from_existing_copies_records (os ms : list Z) :
  mapM (fun entry => field_int entry 5) (values (arm_instances res)) = Ok os ->
  mapM (fun entry => field_int entry 6) (values (arm_instances res)) = Ok ms ->
  exists planned,
    _plan_from_existing self res = Ok planned
    /\ lists_match_count planned
    /\ (amd_instances res <> [] \/ arm_instances res <> [] ->
        amd_micro_instance_count planned = len (amd_instances res)
        /\ amd_micro_hostnames planned = map first_field (values (amd_instances res))
        /\ arm_flex_instance_count planned = len (arm_instances res)
        /\ arm_flex_hostnames planned = map first_field (values (arm_instances res))
        /\ arm_flex_ocpus_per_instance planned = os
        /\ arm_flex_memory_per_instance planned = ms
        /\ Forall2 (fun entry o => field_int entry 5 = Ok o)
             (values (arm_instances res)) (arm_flex_ocpus_per_instance planned)
        /\ Forall2 (fun entry m => field_int entry 6 = Ok m)
             (values (arm_instances res)) (arm_flex_memory_per_instance planned)
        /\ amd_micro_boot_volume_size_gb planned = 50
        /\ Forall (fun b => b = 47) (arm_flex_boot_volume_size_gb planned))
    /\ (amd_instances res = [] -> arm_instances res = [] ->
        amd_micro_instance_count planned = 0
        /\ if has_arm_image self then
             arm_flex_instance_count planned = 1
             /\ arm_flex_ocpus_per_instance planned = [4]
             /\ arm_flex_memory_per_instance planned = [24]
             /\ arm_flex_boot_volume_size_gb planned = [200]
             /\ arm_flex_hostnames planned = ["arm-instance-1"]
           else
             arm_flex_instance_count planned = 0
             /\ arm_flex_ocpus_per_instance planned = []
             /\ arm_flex_memory_per_instance planned = []
             /\ arm_flex_boot_volume_size_gb planned = []
             /\ arm_flex_hostnames planned = []).
Proof.
  intros Ho Hm. unfold _plan_from_existing. rewrite Ho, Hm. cbn [bind].
  pose proof (mapM_length _ _ _ Ho) as Lo. pose proof (mapM_length _ _ _ Hm) as Lm.
  pose proof (mapM_Forall2 _ _ _ Ho) as Fo. pose proof (mapM_Forall2 _ _ _ Hm) as Fm.
  unfold values in *.
  assert (Lb : forall n, Forall (fun b => b = 47) (replicate 47 n)).
  { intros n. unfold replicate. apply Forall_forall. intros b Hb.
    now apply repeat_spec in Hb. }
  destruct (amd_instances res) as [|amd amds] eqn:Ea;
    destruct (arm_instances res) as [|arm arms] eqn:Er.
  - fold (has_arm_image self).
    eexists. split; [reflexivity | ]. split; [ | split].
    + unfold lists_match_count. destruct (has_arm_image self); cbn; repeat split.
    + intros [N|N]; now elim N.
    + intros _ _. split; [reflexivity | ].
      destruct (has_arm_image self); cbn; repeat split.
  - eexists. split; [reflexivity | ]. split; [ | split; [ | discriminate]].
    + nonempty_lengths Lo Lm.
    + intros _. nonempty_fields Lb.
  - eexists. split; [reflexivity | ]. split; [ | split; [ | discriminate]].
    + nonempty_lengths Lo Lm.
    + intros _. nonempty_fields Lb.
  - eexists. split; [reflexivity | ]. split; [ | split; [ | discriminate]].
    + nonempty_lengths Lo Lm.
    + intros _. nonempty_fields Lb.
Qed.

End ExistingPlanner.

Section ExistingPlannerExamples.

Import OCI Fixtures.

(** The plan for an account with one AMD and one ARM instance. *)
Lemma plan_from_existing_copies_records_witness :
  mapM (fun entry => field_int entry 5) (values (arm_instances one_amd_one_arm)) = Ok [2]
  /\ mapM (fun entry => field_int entry 6) (values (arm_instances one_amd_one_arm))
     = Ok [12]
  /\ exists planned,
       _plan_from_existing (workflow one_amd_one_arm) one_amd_one_arm = Ok planned
       /\ amd_micro_instance_count planned = 1
       /\ amd_micro_hostnames planned = ["web"]
       /\ arm_flex_instance_count planned = 1
       /\ arm_flex_hostnames planned = ["db"]
       /\ arm_flex_ocpus_per_instance planned = [2]
       /\ arm_flex_memory_per_instance planned = [12].
Proof.
  split; [reflexivity | split; [reflexivity | ]].
  destruct (plan_from_existing_copies_records (workflow one_amd_one_arm) one_amd_one_arm
              [2] [12] eq_refl eq_refl) as (planned & P & _ & N & _).
  destruct N as (C1 & H1 & C2 & H2 & O & M & _); [left; discriminate | ].
  exists planned. split; [exact P | ].
  split; [exact C1 | ]. split; [exact H1 | ]. split; [exact C2 | ].
  split; [exact H2 | ]. split; [exact O | exact M].
Defined.

(** On an account without instances the plan is the default ARM instance. *)
Lemma plan_from_existing_on_empty_account :
  exists planned,
    _plan_from_existing (workflow empty_resources) empty_resources = Ok planned
    /\ amd_micro_instance_count planned = 0
    /\ arm_flex_instance_count planned = 1
    /\ arm_flex_ocpus_per_instance planned = [4]
    /\ arm_flex_memory_per_instance planned = [24]
    /\ arm_flex_boot_volume_size_gb planned = [200].
Proof. eexists. split; [reflexivity | ]. cbn. repeat split. Qed.

(** C6, as stated, fails in two ways.  A record without the sixth and
    seventh field stops the planner, as the records of
    [mock_existing_resources] of the test suite do; and the size of a boot
    volume is not copied: the instance on a boot volume of 100 GB is
    planned with 47 GB. *)
Lemma plan_from_existing_needs_fields :
  _plan_from_existing (workflow mock_existing_resources) mock_existing_resources
  = Raise IndexError
  /\ mapM (fun entry => field_int entry 1) (values (boot_volumes arm_on_large_boot_volume))
     = Ok [100]
  /\ exists planned,
       _plan_from_existing (workflow arm_on_large_boot_volume) arm_on_large_boot_volume
       = Ok planned
       /\ arm_flex_instance_count planned = 1
       /\ arm_flex_boot_volume_size_gb planned = [47].
Proof.
  split; [reflexivity | split; [reflexivity | ]].
  eexists. split; [reflexivity | split; reflexivity].
Qed.

End ExistingPlannerExamples.

(* ================================================================== *)
(** * The list-length invariant of [PlannedConfig] *)
(* ================================================================== *)

Section ListLengths.

Import OCI Reparse Fixtures.

Lemma plan_from_existing_lengths (self : CloudBooterWorkflow) (res : ExistingResources)
    (planned : PlannedConfig) :
  _plan_from_existing self res = Ok planned -> lists_match_count planned.
Proof.
  unfold _plan_from_existing.
  destruct (mapM (fun entry => field_int entry 5) (values (arm_instances res)))
    as [os|] eqn:Ho; [ | discriminate].
  cbn [bind].
  destruct (mapM (fun entry => field_int entry 6) (values (arm_instances res)))
    as [ms|] eqn:Hm; [ | discriminate].
  cbn [bind].
  apply mapM_length in Ho, Hm.
  assert (G : lists_match_count
                {| amd_micro_instance_count := len (values (amd_instances res));
                   amd_micro_boot_volume_size_gb := 50;
                   amd_micro_hostnames := map first_field (values (amd_instances res));
                   amd_block_volume_size_gb := 0;
                   arm_flex_instance_count := len (values (arm_instances res));
                   arm_flex_ocpus_per_instance := os;
                   arm_flex_memory_per_instance := ms;
                   arm_flex_boot_volume_size_gb :=
                     replicate FREE_TIER_MIN_BOOT_VOLUME_GB
                       (List.length (values (arm_instances res)));
                   arm_flex_hostnames := map first_field (values (arm_instances res));
                   arm_block_volume_sizes :=
                     replicate 0 (List.length (values (arm_instances res))) |}).
  { unfold lists_match_count, len, replicate; cbn.
    rewrite Ho, Hm, !repeat_length, !length_map. repeat split. }
  destruct (values (amd_instances res)), (values (arm_instances res));
    intros [= <-]; try exact G.
  unfold lists_match_count.
  destruct (match oci_context self with Some _ => _ | None => _ end);
    cbn; repeat split.
Qed.

Lemma plan_maximum_lengths (self : CloudBooterWorkflow) (planned : PlannedConfig) :
  _plan_maximum self = Ok planned -> lists_match_count planned.
Proof.
  unfold _plan_maximum.
  destruct (_available_resources self) as [[[[a o] m] s]|]; [ | discriminate].
  cbn [bind].
  destruct (match oci_context self with Some _ => _ | None => _ end);
    intros [= <-]; unfold lists_match_count; cbn; repeat split.
Qed.

Lemma plan_custom_lengths (self : CloudBooterWorkflow) (ctx : OciContext)
    (inp rest : list string) (planned : PlannedConfig) :
  _plan_custom self ctx inp = Ok (planned, rest) -> lists_match_count planned.
Proof.
  intros H.
  destruct (plan_custom_available _ _ _ _ _ H) as ([[[a o] m] s] & A).
  now destruct (plan_custom_inv _ _ _ _ _ _ _ _ _ A H) as (_ & _ & _ & L & _).
Qed.

(** The validator reads the lists, never the ARM instance count. *)
Lemma validate_ignores_arm_count (self : CloudBooterWorkflow) (planned : PlannedConfig)
    (count : Z) :
  _validate_proposed_config self (with_arm_count planned count)
  = _validate_proposed_config self planned.
Proof. reflexivity. Qed.

(** C7, as stated, fails: a configuration with three ARM instances and
    lists of length 1, 2, 0, 1 and 0 passes the validator, and is rendered
    with these lists as they are. *)
Lemma mismatched_lengths_accepted :
  ~ lists_match_count mismatched_lengths
  /\ _validate_proposed_config (workflow empty_resources) mismatched_lengths = Ok tt
  /\ reparse_numeric_literals
       (_render_variables_tf clock_reading mock_oci_context mismatched_lengths)
     = Ok (numeric_literals mismatched_lengths).
Proof.
  split; [ | split; vm_compute; reflexivity].
  intros (H & _). vm_compute in H. discriminate H.
Qed.

(** C7, amended.  No assertion guards the lengths of the lists: the
    validator gives the same outcome whatever the ARM instance count
    says.  The lengths agree with the count in every configuration that
    [_plan_from_existing], [_plan_maximum] or [_plan_custom] returns. *)
Theorem planners_keep_list_lengths (self : CloudBooterWorkflow)
    (res : ExistingResources) (ctx : OciContext) (inp : list string) :
  (forall planned,
     _plan_from_existing self res = Ok planned -> lists_match_count planned)
  /\ (forall planned, _plan_maximum self = Ok planned -> lists_match_count planned)
  /\ (forall planned rest,
        _plan_custom self ctx inp = Ok (planned, rest) -> lists_match_count planned)
  /\ (forall planned count,
        _validate_proposed_config self (with_arm_count planned count)
        = _validate_proposed_config self planned).
Proof.
  split; [ | split; [ | split]].
  - intros planned. apply plan_from_existing_lengths.
  - intros planned. apply plan_maximum_lengths.
  - intros planned rest. apply plan_custom_lengths.
  - intros planned count. apply validate_ignores_arm_count.
Qed.

(** The lengths of a plan of [_plan_custom]. *)
Lemma planners_keep_list_lengths_witness :
  exists planned,
    _plan_custom (workflow one_amd_one_arm) mock_oci_context one_more_of_each
    = Ok (planned, [])
    /\ lists_match_count planned
    /\ arm_flex_instance_count planned = 1.
Proof.
  eexists. split; [vm_compute; reflexivity | ]. split; [ | reflexivity].
  refine (proj1 (proj2 (proj2 (planners_keep_list_lengths (workflow one_amd_one_arm)
                                 one_amd_one_arm mock_oci_context one_more_of_each)))
            _ [] eq_refl).
Defined.

End ListLengths.

(* ================================================================== *)
(** * Properties of [_render_variables_tf] *)
(* ================================================================== *)

Section Renderer.

Import OCI Reparse Fixtures.

(** ** Lines *)

Lemma unlines_cons (l : string) (ls : list string) :
  unlines (l :: ls) = l ++ String (ascii_of_nat 10) (unlines ls).
Proof.
  unfold unlines. cbn [map]. rewrite concat_empty_cons, str_app_assoc. reflexivity.
Qed.

(** Splitting a text at its line feeds gives back its lines, and an empty
    string after the last line feed. *)
Lemma split_unlines (ls : list string) :
  Forall (fun l => no_lf l = true) ls ->
  split (ascii_of_nat 10) (unlines ls) = (ls ++ [EmptyString])%list.
Proof.
  induction 1 as [|l ls Hl _ IH]; [reflexivity | ].
  rewrite unlines_cons, (split_app_sep _ _ _ Hl), IH. reflexivity.
Qed.

Lemma forall_chars_join (p : ascii -> bool) (sep : string) (xs : list string) :
  forall_chars p sep = true ->
  Forall (fun x => forall_chars p x = true) xs ->
  forall_chars p (join sep xs) = true.
Proof.
  intros Hsep. induction 1 as [|x xs Hx Hxs IH]; [reflexivity | ].
  unfold join in *. destruct xs as [|y ys]; [exact Hx | ].
  change (String.concat sep (x :: y :: ys)) with (x ++ sep ++ String.concat sep (y :: ys)).
  rewrite !forall_chars_app, Hx, Hsep, IH. reflexivity.
Qed.

Lemma str_Z_free_of (c : ascii) (z : Z) :
  sign_or_digit c = false ->
  forall_chars (fun x => negb (Ascii.eqb x c)) (str_Z z) = true.
Proof.
  intros Hc. eapply forall_chars_weaken; [ | apply str_Z_chars].
  intros x Hx. destruct (Ascii.eqb_spec x c) as [->|]; [congruence | reflexivity].
Qed.

(** The characters of [nums(items)] other than brackets, commas and
    spaces are those of integer literals. *)
Lemma nums_inner_free_of (c : ascii) (items : list Z) :
  sign_or_digit c = false -> Ascii.eqb "," c = false -> Ascii.eqb " " c = false ->
  forall_chars (fun x => negb (Ascii.eqb x c)) (join ", " (map str_Z items)) = true.
Proof.
  intros Hc H1 H2. apply forall_chars_join.
  - cbn [forall_chars]. now rewrite H1, H2.
  - apply Forall_forall. intros x Hx. apply in_map_iff in Hx as (z & <- & _).
    now apply str_Z_free_of.
Qed.

Lemma no_lf_str_Z (z : Z) : no_lf (str_Z z) = true.
Proof. now apply str_Z_free_of. Qed.

Lemma no_lf_nums (items : list Z) : no_lf (nums items) = true.
Proof.
  unfold nums, no_lf. rewrite !forall_chars_app.
  rewrite nums_inner_free_of by reflexivity. reflexivity.
Qed.

Lemma no_lf_q (items : list string) :
  forallb no_lf items = true -> no_lf (q items) = true.
Proof.
  intros H. unfold q, no_lf. rewrite !forall_chars_app.
  rewrite forall_chars_join; [reflexivity | reflexivity | ].
  apply Forall_forall. intros x Hx. apply in_map_iff in Hx as (y & <- & Hy).
  rewrite !forall_chars_app. rewrite forallb_forall in H.
  specialize (H y Hy). unfold no_lf in H. now rewrite H.
Qed.

Lemma no_lf_app (a b : string) : no_lf (a ++ b) = (no_lf a && no_lf b)%bool.
Proof. apply forall_chars_app. Qed.

(** Under the three conditions no line of the template has a line feed. *)
Lemma variables_tf_lines_no_lf (generated : string) (ctx : OciContext)
    (planned : PlannedConfig) :
  no_lf generated = true ->
  single_line_context ctx = true ->
  single_line_hostnames planned = true ->
  Forall (fun l => no_lf l = true) (variables_tf_lines generated ctx planned).
Proof.
  intros Hg Hc Hh.
  unfold single_line_context in Hc. rewrite !andb_true_iff in Hc.
  destruct Hc as ((((C1 & C2) & C3) & C4) & C5).
  unfold single_line_hostnames in Hh. rewrite andb_true_iff in Hh.
  destruct Hh as (H1 & H2).
  apply no_lf_q in H1, H2.
  unfold variables_tf_lines.
  repeat (apply Forall_cons; [ | ]); try apply Forall_nil;
    rewrite ?no_lf_app, ?Hg, ?C1, ?C2, ?C3, ?C4, ?C5, ?H1, ?H2, ?no_lf_str_Z,
      ?no_lf_nums;
    reflexivity.
Qed.

(** ** Reading the literals back *)

Lemma split_comma_literals (s : string) (zs : list Z) :
  forall_chars (fun c => negb (Ascii.eqb c ",")) s = true ->
  split "," (s ++ String.concat EmptyString (map (fun x => ", " ++ x) (map str_Z zs)))
  = s :: map (fun z => String " " (str_Z z)) zs.
Proof.
  revert s. induction zs as [|z zs IH]; intros s Hs.
  - cbn. rewrite str_app_nil_r. now apply split_no_sep.
  - cbn [map]. rewrite concat_empty_cons.
    change (", " ++ str_Z z) with (String "," (String " " (str_Z z))).
    change (String "," (String " " (str_Z z)) ++ ?t)
      with (String "," (String " " (str_Z z) ++ t)).
    rewrite (split_app_sep _ _ _ Hs), IH; [reflexivity | ].
    cbn. now apply str_Z_free_of.
Qed.

Lemma mapM_int_spaced (zs : list Z) :
  mapM int (map (fun z => String " " (str_Z z)) zs) = Ok zs.
Proof.
  induction zs as [|z zs IH]; [reflexivity | ].
  cbn [map mapM]. rewrite int_space_str_Z, IH. reflexivity.
Qed.

(** Reading [nums(items)] gives [items]. *)
Lemma read_ints_nums (items : list Z) : read_ints (nums items) = Ok items.
Proof.
  unfold nums, read_ints. cbn [String.append].
  rewrite split_app_sep by (now apply nums_inner_free_of).
  cbn [split].
  destruct items as [|z zs]; [reflexivity | ].
  cbn [map]. rewrite join_cons.
  rewrite split_comma_literals by (now apply str_Z_free_of).
  destruct (str_Z z ++ _) as [|c r] eqn:E.
  - destruct (str_Z z) eqn:Ez; [now apply str_Z_nonempty in Ez | discriminate E].
  - cbn [mapM]. rewrite int_str_Z, mapM_int_spaced. reflexivity.
Qed.

Section Assignments.

Variables (generated : string) (ctx : OciContext) (planned : PlannedConfig).

Let lines : list string :=
  (variables_tf_lines generated ctx planned ++ [EmptyString])%list.

Lemma find_amd_micro_instance_count :
  find_assignment "  amd_micro_instance_count      = " lines
  = Ok (str_Z (amd_micro_instance_count planned)).
Proof. reflexivity. Qed.

Lemma find_amd_micro_boot_volume_size_gb :
  find_assignment "  amd_micro_boot_volume_size_gb = " lines
  = Ok (str_Z (amd_micro_boot_volume_size_gb planned)).
Proof. reflexivity. Qed.

Lemma find_amd_block_volume_size_gb :
  find_assignment "  amd_block_volume_size_gb      = " lines
  = Ok (str_Z (amd_block_volume_size_gb planned)).
Proof. reflexivity. Qed.

Lemma find_arm_flex_instance_count :
  find_assignment "  arm_flex_instance_count       = " lines
  = Ok (str_Z (arm_flex_instance_count planned)).
Proof. reflexivity. Qed.

Lemma find_arm_flex_ocpus_per_instance :
  find_assignment "  arm_flex_ocpus_per_instance   = " lines
  = Ok (nums (arm_flex_ocpus_per_instance planned)).
Proof. reflexivity. Qed.

Lemma find_arm_flex_memory_per_instance :
  find_assignment "  arm_flex_memory_per_instance  = " lines
  = Ok (nums (arm_flex_memory_per_instance planned)).
Proof. reflexivity. Qed.

Lemma find_arm_flex_boot_volume_size_gb :
  find_assignment "  arm_flex_boot_volume_size_gb  = " lines
  = Ok (nums (arm_flex_boot_volume_size_gb planned)).
Proof. reflexivity. Qed.

Lemma find_arm_block_volume_sizes :
  find_assignment "  arm_block_volume_sizes        = " lines
  = Ok (nums (arm_block_volume_sizes planned)).
Proof. reflexivity. Qed.

End Assignments.

(** C9, amended.  When the hostnames of the configuration, the strings of
    the context and the clock reading contain no line feed, reading the
    numeric literals of the rendered text line by line gives back the
    counts, sizes and lists of the configuration.  The second line of the
    text carries the clock reading; two renders of one configuration with
    one context agree on every other line, and are the same text when the
    clock reading is the same. *)
Theorem render_reparse_roundtrip (generated : string) (ctx : OciContext)
    (planned : PlannedConfig) :
  no_lf generated = true ->
  single_line_context ctx = true ->
  single_line_hostnames planned = true ->
  reparse_numeric_literals (_render_variables_tf generated ctx planned)
  = Ok (numeric_literals planned)
  /\ nth_error (variables_tf_lines generated ctx planned) 1
     = Some ("# Generated: " ++ generated)
  /\ (forall generated' k,
        k <> 1%nat ->
        nth_error (variables_tf_lines generated' ctx planned) k
        = nth_error (variables_tf_lines generated ctx planned) k)
  /\ (forall generated',
        generated' = generated ->
        _render_variables_tf generated' ctx planned
        = _render_variables_tf generated ctx planned).
Proof.
  intros Hg Hc Hh. split; [ | split; [reflexivity | split]].
  - unfold reparse_numeric_literals, _render_variables_tf.
    rewrite (split_unlines _ (variables_tf_lines_no_lf _ _ _ Hg Hc Hh)).
    rewrite find_amd_micro_instance_count, find_amd_micro_boot_volume_size_gb,
      find_amd_block_volume_size_gb, find_arm_flex_instance_count,
      find_arm_flex_ocpus_per_instance, find_arm_flex_memory_per_instance,
      find_arm_flex_boot_volume_size_gb, find_arm_block_volume_sizes.
    unfold read_int. cbn [bind].
    rewrite !int_str_Z. cbn [bind]. rewrite !read_ints_nums. reflexivity.
  - intros generated' [|[|k]] Hk; [reflexivity | now elim Hk | reflexivity].
  - now intros generated' ->.
Qed.

(** The round trip on the mixed configuration of the test suite. *)
Lemma render_reparse_roundtrip_witness :
  no_lf clock_reading = true
  /\ single_line_context mock_oci_context = true
  /\ single_line_hostnames mock_planned_config_mixed = true
  /\ reparse_numeric_literals
       (_render_variables_tf clock_reading mock_oci_context mock_planned_config_mixed)
     = Ok {| n_amd_micro_instance_count := 1;
             n_amd_micro_boot_volume_size_gb := 50;
             n_amd_block_volume_size_gb := 0;
             n_arm_flex_instance_count := 1;
             n_arm_flex_ocpus_per_instance := [4];
             n_arm_flex_memory_per_instance := [24];
             n_arm_flex_boot_volume_size_gb := [200];
             n_arm_block_volume_sizes := [0] |}.
Proof.
  split; [reflexivity | split; [reflexivity | split; [reflexivity | ]]].
  exact (proj1 (render_reparse_roundtrip clock_reading mock_oci_context
                  mock_planned_config_mixed eq_refl eq_refl eq_refl)).
Defined.

(** C9, as stated, fails twice.  Two renders of one configuration at
    different clock readings differ.  And two configurations with
    different numeric values can render to the same text, so that no
    reader gives back both; the reader of this file gives back the first
    one's values for the second. *)
Lemma render_depends_on_clock_and_is_not_injective :
  _render_variables_tf clock_reading mock_oci_context mock_planned_config_mixed
  <> _render_variables_tf later_clock_reading mock_oci_context mock_planned_config_mixed
  /\ numeric_literals crafted_config_1 <> numeric_literals crafted_config_2
  /\ _render_variables_tf clock_reading mock_oci_context crafted_config_1
     = _render_variables_tf clock_reading mock_oci_context crafted_config_2
  /\ reparse_numeric_literals
       (_render_variables_tf clock_reading mock_oci_context crafted_config_2)
     <> Ok (numeric_literals crafted_config_2).
Proof.
  split; [ | split; [ | split]].
  - intros H. vm_compute in H. discriminate H.
  - intros H. vm_compute in H. discriminate H.
  - vm_compute. reflexivity.
  - intros H. vm_compute in H. discriminate H.
Qed.

End Renderer.

(* ================================================================== *)
(** * Properties of the retries of [terraform apply] *)
(* ================================================================== *)

Section ApplyRetries.

Import OCI Shell OCITerraform.

Variables (w : World) (cwd : string).

Lemma range_cons (a b : Z) : a < b -> range a b = a :: range (a + 1) b.
Proof.
  intros H. unfold range.
  replace (Z.to_nat (b - a)) with (S (Z.to_nat (b - (a + 1)))) by lia.
  cbn [seq map]. f_equal; [lia | ].
  rewrite <- seq_shift, map_map. apply map_ext. intros k. lia.
Qed.

Lemma range_nil (a b : Z) : b <= a -> range a b = [].
Proof. intros H. unfold range. now replace (Z.to_nat (b - a)) with 0%nat by lia. Qed.

(** One turn of the loop. *)
Lemma apply_attempts_step (attempt : Z) (rest : list Z) (max_attempts base_delay : Z)
    (last : string) (c : nat) :
  apply_attempts (attempt :: rest) max_attempts base_delay cwd last w c =
  let proc := subprocess_result w c in
  let output := output_of proc in
  if returncode proc =? 0 then
    (Ok None,
     Run apply_cmd cwd []
     :: ((if truthy_str (strip output) then [Echo output] else [])
         ++ [Echo "terraform apply succeeded"])%list)
  else if negb (OUT_OF_CAPACITY_RE_search output) then
    (Raise (ClickException ("terraform apply failed:" ++ nl ++ output)),
     [Run apply_cmd cwd []])
  else if attempt =? max_attempts then (Ok (Some output), [Run apply_cmd cwd []])
  else
    let sleep_time := base_delay * 2 ^ (attempt - 1) in
    if (sleep_time <? - sleep_max) || (sleep_max <? sleep_time) then
      (Raise OverflowError,
       [Run apply_cmd cwd []; Echo (retry_message attempt max_attempts sleep_time)])
    else if sleep_time <? 0 then
      (Raise ValueError,
       [Run apply_cmd cwd []; Echo (retry_message attempt max_attempts sleep_time)])
    else
      let '(r, es) := apply_attempts rest max_attempts base_delay cwd output w (S c) in
      (r, Run apply_cmd cwd []
          :: Echo (retry_message attempt max_attempts sleep_time)
          :: Sleep sleep_time :: es).
Proof.
  cbn [apply_attempts]. unfold bindIO, subprocess_run, echo, sleep, pure, raise.
  cbv zeta.
  destruct (returncode (subprocess_result w c) =? 0).
  - destruct (truthy_str (strip (output_of (subprocess_result w c)))); reflexivity.
  - destruct (negb (OUT_OF_CAPACITY_RE_search (output_of (subprocess_result w c))));
      [reflexivity | ].
    destruct (attempt =? max_attempts); [reflexivity | ].
    destruct ((base_delay * 2 ^ (attempt - 1) <? - sleep_max)
              || (sleep_max <? base_delay * 2 ^ (attempt - 1)))%bool; [reflexivity | ].
    destruct (base_delay * 2 ^ (attempt - 1) <? 0); [reflexivity | ].
    cbn [runs filter is_run List.length app].
    replace (c + 1 + 0 + 0)%nat with (S c) by lia.
    destruct (apply_attempts rest max_attempts base_delay cwd _ w (S c)) as [r es].
    reflexivity.
Qed.

(** The setting [RETRY_MAX_ATTEMPTS] or its default, and the same for
    [RETRY_BASE_DELAY]. *)
Let max_text : string :=
  match getenv w "RETRY_MAX_ATTEMPTS" with Some v => v | None => "8" end.

Let delay_text : string :=
  match getenv w "RETRY_BASE_DELAY" with Some v => v | None => "15" end.

(** The function is the loop over the attempts 1 to [max_attempts],
    followed by the exception when the loop ends. *)
Lemma retries_unfold (max_attempts base_delay : Z) (c : nat) :
  int max_text = Ok max_attempts ->
  int delay_text = Ok base_delay ->
  _run_terraform_apply_with_retries cwd w c =
  let '(r, es) :=
    apply_attempts (range 1 (max_attempts + 1)) max_attempts base_delay cwd
      EmptyString w c in
  (match r with
   | Ok None => Ok tt
   | Ok (Some last_output) => Raise (gave_up max_attempts last_output)
   | Raise e => Raise e
   end, es).
Proof.
  intros Hm Hd.
  unfold _run_terraform_apply_with_retries, bindIO, getenv_default, liftIO.
  fold max_text. fold delay_text. rewrite Hm, Hd.
  cbn [runs filter List.length app].
  replace (c + 0 + 0 + 0 + 0)%nat with c by lia.
  destruct (apply_attempts _ max_attempts base_delay cwd EmptyString w c) as [[[last|]|e] es];
    unfold raise, pure; now rewrite ?app_nil_r.
Qed.

(** What the loop over the attempts [a] to [max_attempts] does, whatever
    the results of the subprocesses. *)
Lemma apply_attempts_shape (max_attempts base_delay : Z) (m : nat) :
  forall (a : Z) (last : string) (c : nat) (r : result (option string)) (es : list event),
    Z.to_nat (max_attempts + 1 - a) = m ->
    apply_attempts (range a (max_attempts + 1)) max_attempts base_delay cwd last w c
    = (r, es) ->
    commands es = repeat apply_cmd (runs es)
    /\ (runs es <= m)%nat
    /\ ((m = 0%nat /\ es = []) \/ (S (List.length (sleeps es)) <= runs es)%nat)
    /\ sleeps es
       = map (fun i => base_delay * 2 ^ (a - 1 + Z.of_nat i))
           (seq 0 (List.length (sleeps es)))
    /\ (forall j, (S j < runs es)%nat ->
          returncode (subprocess_result w (c + j)) <> 0
          /\ OUT_OF_CAPACITY_RE_search (output_of (subprocess_result w (c + j))) = true).
Proof.
  induction m as [|m IH]; intros a last c r es Hm.
  - rewrite range_nil by lia. cbn. intros [= <- <-]. cbn.
    repeat split; try lia; auto; intros j Hj; lia.
  - rewrite range_cons by lia. rewrite apply_attempts_step. cbv zeta.
    destruct (returncode (subprocess_result w c) =? 0) eqn:Rc.
    { intros [= <- <-].
      destruct (truthy_str (strip (output_of (subprocess_result w c)))); cbn;
        (repeat split; try lia; auto; intros j Hj; lia). }
    destruct (OUT_OF_CAPACITY_RE_search (output_of (subprocess_result w c))) eqn:Cap;
      cbn [negb].
    2:{ intros [= <- <-]. cbn. repeat split; try lia; auto; intros j Hj; lia. }
    destruct (a =? max_attempts) eqn:Last.
    { intros [= <- <-]. cbn. repeat split; try lia; auto; intros j Hj; lia. }
    destruct ((base_delay * 2 ^ (a - 1) <? - sleep_max)
              || (sleep_max <? base_delay * 2 ^ (a - 1)))%bool eqn:Over.
    { intros [= <- <-]. cbn. repeat split; try lia; auto; intros j Hj; lia. }
    destruct (base_delay * 2 ^ (a - 1) <? 0) eqn:Neg.
    { intros [= <- <-]. cbn. repeat split; try lia; auto; intros j Hj; lia. }
    apply Z.eqb_neq in Last, Rc.
    destruct (apply_attempts (range (a + 1) (max_attempts + 1)) max_attempts base_delay
                cwd (output_of (subprocess_result w c)) w (S c)) as [r' es'] eqn:E.
    intros [= <- <-].
    destruct (IH (a + 1) _ (S c) r' es' ltac:(lia) E) as (C & R & S' & Sl & Cap').
    cbn [commands sleeps runs filter is_run List.length].
    fold (runs es').
    split; [cbn; now rewrite C | ].
    split; [lia | ].
    split; [right; destruct S' as [[Z' _]|S']; [lia | lia] | ].
    split.
    + cbn [seq map]. f_equal; [f_equal; f_equal; lia | ].
      rewrite Sl at 1. rewrite <- seq_shift, map_map.
      apply map_ext. intros i. f_equal. f_equal. lia.
    + intros [|j] Hj.
      * rewrite Nat.add_0_r. split; assumption.
      * replace (c + S j)%nat with (S c + j)%nat by lia. apply Cap'. lia.
Qed.


(** [terraform apply] is run at most [RETRY_MAX_ATTEMPTS] times, nothing
    else is run, and the function waits only between two runs: one time
    less than it runs [terraform]. *)
Theorem apply_retries_bounded (max_attempts base_delay : Z) (c : nat) :
  int max_text = Ok max_attempts ->
  int delay_text = Ok base_delay ->
  let es := snd (_run_terraform_apply_with_retries cwd w c) in
  commands es = repeat apply_cmd (runs es)
  /\ (runs es <= Z.to_nat max_attempts)%nat
  /\ (List.length (sleeps es) <= Nat.pred (runs es))%nat.
Proof.
  intros Hm Hd. cbv zeta. rewrite (retries_unfold _ _ _ Hm Hd).
  destruct (apply_attempts _ max_attempts base_delay cwd EmptyString w c) as [r es] eqn:E.
  destruct (apply_attempts_shape max_attempts base_delay (Z.to_nat max_attempts)
              1 EmptyString c r es ltac:(lia) E) as (C & R & S' & _).
  cbn [snd]. split; [exact C | split; [exact R | ]].
  destruct S' as [[_ ->]|S']; [cbn; lia | lia].
Qed.

(** A new attempt is made only after a failure that reports
    out-of-capacity: every run but the last failed with such an output. *)
Theorem apply_retries_only_after_capacity (max_attempts base_delay : Z) (c j : nat) :
  int max_text = Ok max_attempts ->
  int delay_text = Ok base_delay ->
  (S j < runs (snd (_run_terraform_apply_with_retries cwd w c)))%nat ->
  returncode (subprocess_result w (c + j)) <> 0
  /\ OUT_OF_CAPACITY_RE_search (output_of (subprocess_result w (c + j))) = true.
Proof.
  intros Hm Hd. rewrite (retries_unfold _ _ _ Hm Hd).
  destruct (apply_attempts _ max_attempts base_delay cwd EmptyString w c) as [r es] eqn:E.
  destruct (apply_attempts_shape max_attempts base_delay (Z.to_nat max_attempts)
              1 EmptyString c r es ltac:(lia) E) as (_ & _ & _ & _ & Cap).
  cbn [snd]. apply Cap.
Qed.

(** The waits double: the first is [RETRY_BASE_DELAY] seconds and each
    later one twice the one before. *)
Theorem apply_retries_backoff (max_attempts base_delay : Z) (c : nat) :
  int max_text = Ok max_attempts ->
  int delay_text = Ok base_delay ->
  let waits := sleeps (snd (_run_terraform_apply_with_retries cwd w c)) in
  waits = map (fun i => base_delay * 2 ^ Z.of_nat i) (seq 0 (List.length waits)).
Proof.
  intros Hm Hd. cbv zeta. rewrite (retries_unfold _ _ _ Hm Hd).
  destruct (apply_attempts _ max_attempts base_delay cwd EmptyString w c) as [r es] eqn:E.
  destruct (apply_attempts_shape max_attempts base_delay (Z.to_nat max_attempts)
              1 EmptyString c r es ltac:(lia) E) as (_ & _ & _ & Sl & _).
  cbn [snd]. rewrite Sl at 1. apply map_ext. intros i. f_equal; f_equal; lia.
Qed.


(** Nothing is run when a setting is not an integer ([int] raises) or
    when [RETRY_MAX_ATTEMPTS] is not positive (the function gives up
    without a try). *)
Theorem apply_retries_runs_nothing (c : nat) :
  (forall e, int max_text = Raise e ->
             _run_terraform_apply_with_retries cwd w c = (Raise e, []))
  /\ (forall max_attempts e,
        int max_text = Ok max_attempts -> int delay_text = Raise e ->
        _run_terraform_apply_with_retries cwd w c = (Raise e, []))
  /\ (forall max_attempts base_delay,
        int max_text = Ok max_attempts -> int delay_text = Ok base_delay ->
        max_attempts <= 0 ->
        _run_terraform_apply_with_retries cwd w c
        = (Raise (gave_up max_attempts EmptyString), [])).
Proof.
  split; [ | split].
  - intros e H.
    unfold _run_terraform_apply_with_retries, bindIO, getenv_default, liftIO.
    fold max_text. now rewrite H.
  - intros n e Hm Hd.
    unfold _run_terraform_apply_with_retries, bindIO, getenv_default, liftIO.
    fold max_text. fold delay_text. now rewrite Hm, Hd.
  - intros n b Hm Hd Hn. rewrite (retries_unfold _ _ _ Hm Hd).
    now rewrite range_nil by lia.
Qed.

End ApplyRetries.

Section ApplyRetriesExamples.

Import OCI Shell OCITerraform ShellFixtures.

(** Two out-of-capacity failures, then a success: three runs. *)
Lemma apply_retries_bounded_witness :
  int "8" = Ok 8 /\ int "15" = Ok 15
  /\ commands (snd (_run_terraform_apply_with_retries "terraform" (capacity_after 2) 0%nat))
     = [apply_cmd; apply_cmd; apply_cmd]
  /\ (runs (snd (_run_terraform_apply_with_retries "terraform" (capacity_after 2) 0%nat))
      <= 8)%nat.
Proof.
  split; [reflexivity | split; [reflexivity | ]].
  destruct (apply_retries_bounded (capacity_after 2) "terraform" 8 15 0%nat
              eq_refl eq_refl) as (C & R & _).
  split; [exact C | exact R].
Defined.

Lemma apply_retries_only_after_capacity_witness :
  int "8" = Ok 8 /\ int "15" = Ok 15
  /\ (2 < runs (snd (_run_terraform_apply_with_retries "terraform" (capacity_after 2) 0%nat)))%nat
  /\ returncode (subprocess_result (capacity_after 2) 1%nat) <> 0.
Proof.
  split; [reflexivity | split; [reflexivity | ]].
  assert (H : (2 < runs (snd (_run_terraform_apply_with_retries "terraform"
                                (capacity_after 2) 0%nat)))%nat)
    by (vm_compute; repeat constructor).
  split; [exact H | ].
  exact (proj1 (apply_retries_only_after_capacity (capacity_after 2) "terraform" 8 15
                  0%nat 1%nat eq_refl eq_refl H)).
Defined.

(** The two waits between the three runs are 15 and 30 seconds. *)
Lemma apply_retries_backoff_witness :
  int "8" = Ok 8 /\ int "15" = Ok 15
  /\ sleeps (snd (_run_terraform_apply_with_retries "terraform" (capacity_after 2) 0%nat))
     = [15; 30].
Proof.
  split; [reflexivity | split; [reflexivity | ]].
  exact (apply_retries_backoff (capacity_after 2) "terraform" 8 15 0%nat eq_refl eq_refl).
Defined.


(** With [RETRY_BASE_DELAY=10000000000] the first wait does not fit the
    clock: after one out-of-capacity failure the function raises
    [OverflowError] and the second run, which would succeed, is not made. *)
Lemma apply_retries_wait_too_long :
  _run_terraform_apply_with_retries "terraform"
    (capacity_after_with_delay 1 "10000000000") 0%nat
  = (Raise OverflowError,
     [Run apply_cmd "terraform" [];
      Echo (retry_message 1 8 10000000000)]).
Proof. vm_compute. reflexivity. Qed.

(** With [RETRY_MAX_ATTEMPTS=0] nothing is run. *)
Lemma apply_retries_runs_nothing_witness :
  int "0" = Ok 0 /\ int "15" = Ok 15 /\ 0 <= 0
  /\ _run_terraform_apply_with_retries "terraform" (capacity_after_with_max 0 "0") 0%nat
     = (Raise (gave_up 0 EmptyString), []).
Proof.
  split; [reflexivity | split; [reflexivity | split; [lia | ]]].
  exact (proj2 (proj2 (apply_retries_runs_nothing (capacity_after_with_max 0 "0")
                         "terraform" 0%nat)) 0 15 eq_refl eq_refl ltac:(lia)).
Defined.

End ApplyRetriesExamples.

(* ================================================================== *)
(** * Properties of the out-of-capacity pattern *)
(* ================================================================== *)

Section CapacityPattern.

Import OCI Shell OCITerraform.

Lemma lower_text_inv_cons (x : string) (a : ascii) (p : string) :
  lower_text x = String a p ->
  exists c x', x = String c x' /\ lower c = a /\ lower_text x' = p.
Proof.
  destruct x as [|c x']; cbn; [discriminate | ].
  intros [= <- <-]. now exists c, x'.
Qed.

Lemma lower_idem (c : ascii) : lower (lower c) = lower c.
Proof.
  destruct c as [[|] [|] [|] [|] [|] [|] [|] [|]]; reflexivity.
Qed.

Lemma lower_text_idem (s : string) : lower_text (lower_text s) = lower_text s.
Proof.
  induction s as [|c s IH]; cbn; [reflexivity | ]. now rewrite lower_idem, IH.
Qed.

(** The pattern matches at the start of the text exactly when the text
    starts with the pattern up to the case of letters. *)
Lemma match_here_iff (pattern text : string) :
  match_here pattern text = true <->
  exists x post, text = x ++ post /\ lower_text x = lower_text pattern.
Proof.
  revert text. induction pattern as [|p pattern IH]; intros text; cbn [match_here].
  - split; [intros _ | reflexivity]. now exists EmptyString, text.
  - destruct text as [|c text].
    + split; [discriminate | ]. intros (x & post & E & L).
      cbn in L. apply lower_text_inv_cons in L as (c & x' & -> & _). discriminate E.
    + rewrite andb_true_iff, IH. split.
      * intros (Ec & x & post & -> & L). apply Ascii.eqb_eq in Ec.
        exists (String c x), post. cbn. now rewrite L, Ec.
      * intros (x & post & E & L). cbn in L.
        apply lower_text_inv_cons in L as (c' & x' & -> & Lc & Lx).
        cbn in E. injection E as -> ->.
        split; [apply Ascii.eqb_eq; now rewrite Lc | now exists x', post].
Qed.

Lemma search_iff (pattern text : string) :
  search pattern text = true <->
  exists pre x post, text = pre ++ x ++ post /\ lower_text x = lower_text pattern.
Proof.
  induction text as [|c text IH]; cbn [search]; rewrite orb_true_iff, match_here_iff.
  - split.
    + intros [(x & post & E & L)|H]; [ | discriminate H].
      now exists EmptyString, x, post.
    + intros (pre & x & post & E & L). left.
      destruct pre; [ | discriminate E]. now exists x, post.
  - rewrite IH. split.
    + intros [(x & post & E & L)|(pre & x & post & E & L)].
      * now exists EmptyString, x, post.
      * exists (String c pre), x, post. cbn. now rewrite E.
    + intros (pre & x & post & E & L). destruct pre as [|c' pre].
      * left. now exists x, post.
      * cbn in E. injection E as -> ->. right. now exists pre, x, post.
Qed.

(** The output is taken for an out-of-capacity report exactly when it
    contains, in any mix of upper and lower case, one of "out of
    capacity", "out of host capacity", "outofcapacity" and
    "outofhostcapacity". *)
Theorem out_of_capacity_search_iff (output : string) :
  OUT_OF_CAPACITY_RE_search output = true <->
  exists pre x post,
    output = pre ++ x ++ post
    /\ (lower_text x = "out of capacity" \/ lower_text x = "out of host capacity"
        \/ lower_text x = "outofcapacity" \/ lower_text x = "outofhostcapacity").
Proof.
  unfold OUT_OF_CAPACITY_RE_search. rewrite !orb_true_iff, !search_iff. cbn [lower_text].
  change (lower_text "out of capacity") with "out of capacity".
  split.
  - intros [[[H|H]|H]|H]; destruct H as (pre & x & post & E & L);
      exists pre, x, post; (split; [exact E | ]); vm_compute in L |- *; auto.
  - intros (pre & x & post & E & [L|[L|[L|L]]]);
      [left; left; left | left; left; right | left; right | right];
      exists pre, x, post; (split; [exact E | ]); rewrite L; reflexivity.
Qed.

End CapacityPattern.

(* ================================================================== *)
(** * Properties of the [terraform] command sequences *)
(* ================================================================== *)

Section CommandSequences.

Import OCI Shell OCITerraform.

Variables (w : World) (dir : string).

Lemma commands_app (es es' : list event) :
  commands (es ++ es') = (commands es ++ commands es')%list.
Proof.
  induction es as [|e es IH]; [reflexivity | ].
  destruct e; cbn; now rewrite ?IH.
Qed.

Lemma run_terraform_cmd_unfold (cmd : list string) (c : nat) :
  _run_terraform_cmd cmd dir w c =
  let proc := subprocess_result w c in
  if returncode proc =? 0 then
    (Ok proc,
     Run cmd dir [] :: (if truthy_str (strip (output_of proc))
                        then [Echo (output_of proc)] else []))
  else
    (Raise (ClickException
              ("Command failed (" ++ join " " cmd ++ "):" ++ nl ++ output_of proc)),
     [Run cmd dir []]).
Proof.
  unfold _run_terraform_cmd, bindIO, subprocess_run, raise, pure, echo. cbv zeta.
  destruct (returncode (subprocess_result w c) =? 0); [ | reflexivity].
  destruct (truthy_str (strip (output_of (subprocess_result w c)))); reflexivity.
Qed.

Lemma run_terraform_cmd_runs (cmd : list string) (c : nat) :
  runs (snd (_run_terraform_cmd cmd dir w c)) = 1%nat
  /\ commands (snd (_run_terraform_cmd cmd dir w c)) = [cmd].
Proof.
  rewrite run_terraform_cmd_unfold. cbv zeta.
  destruct (returncode (subprocess_result w c) =? 0); [ | now split].
  destruct (truthy_str (strip (output_of (subprocess_result w c)))); now split.
Qed.

(** Whatever the settings, the retries run nothing but [terraform apply]. *)
Lemma retries_commands (c : nat) :
  commands (snd (_run_terraform_apply_with_retries dir w c))
  = repeat apply_cmd (runs (snd (_run_terraform_apply_with_retries dir w c))).
Proof.
  destruct (int (match getenv w "RETRY_MAX_ATTEMPTS" with Some v => v | None => "8" end))
    as [n|e] eqn:Hm.
  - destruct (int (match getenv w "RETRY_BASE_DELAY" with Some v => v | None => "15" end))
      as [b|e] eqn:Hd.
    + rewrite (retries_unfold w dir n b c Hm Hd).
      destruct (apply_attempts _ n b dir EmptyString w c) as [r es] eqn:E.
      now destruct (apply_attempts_shape w dir n b (Z.to_nat n) 1 EmptyString c r es
                      ltac:(lia) E) as (C & _).
    + unfold _run_terraform_apply_with_retries, bindIO, getenv_default, liftIO.
      now rewrite Hm, Hd.
  - unfold _run_terraform_apply_with_retries, bindIO, getenv_default, liftIO.
    now rewrite Hm.
Qed.

(** [_run_terraform_deploy] runs [init], then [plan], then [apply], and
    stops at the first of [init] and [plan] that fails, with the command
    and its output in the exception: [plan] is never run after a failed
    [init], and [apply] never unless both succeeded. *)
Theorem deploy_runs_in_order (c : nat) :
  let init := subprocess_result w c in
  let plan := subprocess_result w (S c) in
  let r := fst (_run_terraform_deploy dir w c) in
  let cmds := commands (snd (_run_terraform_deploy dir w c)) in
  (returncode init <> 0 ->
   cmds = [init_cmd]
   /\ r = Raise (ClickException
                   ("Command failed (terraform init -input=false):" ++ nl
                    ++ output_of init)))
  /\ (returncode init = 0 -> returncode plan <> 0 ->
      cmds = [init_cmd; plan_cmd]
      /\ r = Raise (ClickException
                      ("Command failed (terraform plan -out tfplan):" ++ nl
                       ++ output_of plan)))
  /\ (returncode init = 0 -> returncode plan = 0 ->
      exists k, cmds = init_cmd :: plan_cmd :: repeat apply_cmd k).
Proof.
  cbv zeta. unfold _run_terraform_deploy, bindIO.
  pose proof (run_terraform_cmd_runs init_cmd c) as [R0 C0].
  rewrite run_terraform_cmd_unfold in R0, C0 |- *. cbv zeta in R0, C0 |- *.
  destruct (returncode (subprocess_result w c) =? 0) eqn:Rc0.
  2:{ apply Z.eqb_neq in Rc0. cbn. repeat split; intros; try contradiction; auto. }
  apply Z.eqb_eq in Rc0.
  set (es0 := Run init_cmd dir [] :: _) in *. cbn [snd] in R0, C0. rewrite R0.
  replace (c + 1)%nat with (S c) by lia.
  pose proof (run_terraform_cmd_runs plan_cmd (S c)) as [R1 C1].
  rewrite run_terraform_cmd_unfold in R1, C1 |- *. cbv zeta in R1, C1 |- *.
  destruct (returncode (subprocess_result w (S c)) =? 0) eqn:Rc1.
  2:{ apply Z.eqb_neq in Rc1. cbn [fst snd]. rewrite commands_app, C0.
      repeat split; intros; try contradiction; auto. }
  apply Z.eqb_eq in Rc1.
  set (es1 := Run plan_cmd dir [] :: _) in *. cbn [snd] in R1, C1. rewrite R1.
  pose proof (retries_commands (S c + 1)%nat) as C2.
  destruct (_run_terraform_apply_with_retries dir w (S c + 1)%nat) as [r2 es2].
  cbn [fst snd] in C2 |- *. rewrite !commands_app, C0, C1, C2.
  repeat split; intros; try contradiction. now exists (runs es2).
Qed.

End CommandSequences.

Section GCPDeploy.

Import Shell GCPCli.

Variables (w : World) (tf_dir : string) (non_interactive : bool).

Lemma run_each_spec (env : list (string * string)) (cmds : list (list string)) :
  forall c : nat,
    let r := fst (run_each cmds tf_dir env w c) in
    let es := snd (run_each cmds tf_dir env w c) in
    exists k,
      (k <= List.length cmds)%nat
      /\ OCITerraform.commands es = firstn k cmds
      /\ (forall j, (S j < k)%nat -> returncode (subprocess_result w (c + j)) = 0)
      /\ ((k = List.length cmds
           /\ (forall j, (j < k)%nat -> returncode (subprocess_result w (c + j)) = 0)
           /\ r = Ok None)
          \/ (exists i, k = S i
                        /\ returncode (subprocess_result w (c + i)) <> 0
                        /\ r = Ok (Some (returncode (subprocess_result w (c + i)))))).
Proof.
  induction cmds as [|cmd cmds IH]; intros c; cbv zeta.
  - exists 0%nat. cbn. repeat split; try lia. left. repeat split. intros j Hj. lia.
  - cbn [run_each]. unfold bindIO, echo, subprocess_run. cbn [runs filter is_run List.length].
    replace (c + 0 + 1)%nat with (S c) by lia.
    destruct (returncode (subprocess_result w (c + 0)) =? 0) eqn:Rc;
      rewrite Nat.add_0_r in Rc; cbn [negb].
    + apply Z.eqb_eq in Rc. specialize (IH (S c)). cbv zeta in IH.
      destruct (run_each cmds tf_dir env w (S c)) as [r es].
      destruct IH as (k & Hk & C & Z0 & Fin). cbn [fst snd] in *.
      exists (S k). split; [cbn; lia | ]. split; [cbn; now rewrite C | ].
      split.
      { intros [|j] Hj; [now rewrite Nat.add_0_r | ].
        replace (c + S j)%nat with (S c + j)%nat by lia. apply Z0. lia. }
      destruct Fin as [(E & A & R)|(i & E & N & R)].
      * left. split; [cbn; lia | split; [ | exact R]].
        intros [|j] Hj; [now rewrite Nat.add_0_r | ].
        replace (c + S j)%nat with (S c + j)%nat by lia. apply A. lia.
      * right. exists (S i). replace (c + S i)%nat with (S c + i)%nat by lia.
        split; [lia | split; assumption].
    + apply Z.eqb_neq in Rc. unfold echo_err, pure. cbn [fst snd app].
      exists 1%nat. split; [cbn; lia | ]. split; [reflexivity | ].
      split; [intros j Hj; lia | ].
      right. exists 0%nat. rewrite !Nat.add_0_r. repeat split. exact Rc.
Qed.

(** [_terraform_deploy] runs [init], [plan], [apply] in this order and
    stops at the first that fails: it then exits with the status of that
    command and runs nothing after it.  It ends without [sys.exit] exactly
    when the three commands succeed. *)
Theorem terraform_deploy_stops_at_first_failure (c : nat) :
  let r := fst (_terraform_deploy tf_dir non_interactive w c) in
  let cmds := OCITerraform.commands (snd (_terraform_deploy tf_dir non_interactive w c)) in
  exists k,
    (k <= 3)%nat
    /\ cmds = firstn k deploy_cmds
    /\ (forall j, (S j < k)%nat -> returncode (subprocess_result w (c + j)) = 0)
    /\ ((k = 3%nat
         /\ (forall j, (j < 3)%nat -> returncode (subprocess_result w (c + j)) = 0)
         /\ r = Ok None)
        \/ (exists i, k = S i
                      /\ returncode (subprocess_result w (c + i)) <> 0
                      /\ r = Ok (Some (returncode (subprocess_result w (c + i)))))).
Proof.
  cbv zeta. unfold _terraform_deploy.
  destruct (run_each_spec [("TF_IN_AUTOMATION", if non_interactive then "1" else EmptyString)]
              deploy_cmds c) as (k & Hk & C & Z0 & Fin).
  exists k. split; [exact Hk | ]. split; [exact C | ]. split; [exact Z0 | ].
  destruct Fin as [(E & A & R)|Fin]; [left | right; exact Fin].
  cbn in E. subst k. repeat split; assumption.
Qed.

End GCPDeploy.

Section GCPDeployStart.

Import GCPCli.

(** [deploy] validates the fixed machine type [e2-micro], so it stops
    (status 1) exactly when the override is off and the region is not
    free or the disk is over 30 GB; what it prints then never is the
    machine type error.  Otherwise it goes on, with the zone given or,
    when none is given, zone [a] of the region. *)
Theorem deploy_stops_on_region_or_disk (region zone : string) (disk_size : Z)
    (allow_paid : bool) :
  let blocked :=
    (negb allow_paid && (GCP.bad_region region || GCP.bad_boot_disk disk_size))%bool in
  (blocked = false ->
   deploy_validate_and_zone region zone disk_size allow_paid
   = GoOn (if truthy_str zone then zone else region ++ "-a"))
  /\ (blocked = true ->
      exists printed,
        deploy_validate_and_zone region zone disk_size allow_paid = Exit1 printed
        /\ printed <> []
        /\ printed
           = ((if GCP.bad_region region then [GCP.region_error GCP.LIMITS region] else [])
              ++ (if GCP.bad_boot_disk disk_size
                  then [GCP.boot_disk_error GCP.LIMITS disk_size] else []))%list).
Proof.
  cbv zeta. unfold deploy_validate_and_zone.
  destruct allow_paid; cbn [negb andb].
  - split; [reflexivity | discriminate].
  - rewrite validate_unfold.
    change (GCP.bad_machine_type "e2-micro") with false. cbn [app].
    destruct (GCP.bad_region region), (GCP.bad_boot_disk disk_size); cbn;
      (split; [intros H; try discriminate H; reflexivity | ]);
      intros H; try discriminate H; eexists; repeat split; discriminate.
Qed.

End GCPDeployStart.

Section CommandSequencesExamples.

Import OCI Shell OCITerraform GCPCli ShellFixtures.

(** [init] succeeds and [plan] fails: [apply] is not run. *)
Lemma deploy_runs_in_order_witness :
  returncode (subprocess_result second_fails 0) = 0
  /\ returncode (subprocess_result second_fails 1) <> 0
  /\ commands (snd (_run_terraform_deploy "terraform" second_fails 0%nat))
     = [init_cmd; plan_cmd].
Proof.
  split; [reflexivity | split; [discriminate | ]].
  exact (proj1 (proj1 (proj2 (deploy_runs_in_order second_fails "terraform" 0%nat))
                  eq_refl ltac:(discriminate))).
Defined.

(** A region outside the free tier stops [deploy]; a free region goes on
    with zone [a]. *)
Lemma deploy_stops_on_region_or_disk_witness :
  deploy_validate_and_zone "us-west1" EmptyString 20 false = GoOn "us-west1-a"
  /\ exists printed,
       deploy_validate_and_zone "europe-west1" EmptyString 20 false = Exit1 printed
       /\ printed <> [].
Proof.
  split.
  - exact (proj1 (deploy_stops_on_region_or_disk "us-west1" EmptyString 20 false) eq_refl).
  - destruct (proj2 (deploy_stops_on_region_or_disk "europe-west1" EmptyString 20 false)
                eq_refl) as (printed & E & N & _).
    now exists printed.
Defined.

End CommandSequencesExamples.

(* ================================================================== *)
(** * Properties of the choice of a plan and of its validation *)
(* ================================================================== *)

Section PlanThenValidate.

Import OCI OCIPlan Fixtures.

Variable self : CloudBooterWorkflow.

(** Every plan [_plan_configuration] returns, whichever way it is made,
    has lists as long as its ARM instance count; and with
    [--non-interactive] or [--auto-use-existing] no line of input is read. *)
Theorem plan_configuration_lengths (ctx : OciContext) (res : ExistingResources)
    (inp rest : list string) (planned : PlannedConfig) :
  _plan_configuration self ctx res inp = Ok (planned, rest) ->
  lists_match_count planned
  /\ ((auto_use_existing (runtime self) || non_interactive (runtime self))%bool = true ->
      rest = inp /\ _plan_from_existing self res = Ok planned).
Proof.
  unfold _plan_configuration.
  destruct (auto_use_existing (runtime self) || non_interactive (runtime self))%bool.
  - intros H. apply lift_ok in H as [H ->].
    split; [eapply plan_from_existing_lengths; eassumption | now intros _].
  - intros H. split; [ | discriminate].
    apply bindM_ok in H as (choice & inp1 & _ & H).
    destruct (choice =? 1).
    + apply lift_ok in H as [H _]. eapply plan_from_existing_lengths; eassumption.
    + destruct (choice =? 2).
      * eapply plan_custom_lengths; eassumption.
      * apply lift_ok in H as [H _]. eapply plan_maximum_lengths; eassumption.
Qed.

Lemma read_usage_inv (res : ExistingResources) (os ms bs ks : list Z) :
  read_usage res = Ok (os, ms, bs, ks) ->
  mapM (fun entry => field_int entry 5) (values (arm_instances res)) = Ok os
  /\ mapM (fun entry => field_int entry 6) (values (arm_instances res)) = Ok ms.
Proof.
  unfold read_usage.
  destruct (mapM (fun v => field_int v 5) (values (arm_instances res))) as [os'|];
    [cbn [bind] | discriminate].
  destruct (mapM (fun v => field_int v 6) (values (arm_instances res))) as [ms'|];
    [cbn [bind] | discriminate].
  destruct (mapM _ (values (boot_volumes res))); [cbn [bind] | discriminate].
  destruct (mapM _ (values (block_volumes res))); [cbn [bind] | discriminate].
  now intros [= -> -> _ _].
Qed.

Lemma sum_replicate (x : Z) (n : nat) : sum (replicate x n) = x * Z.of_nat n.
Proof.
  unfold replicate. induction n as [|n IH]; [cbn; lia | ].
  cbn [repeat]. rewrite sum_cons, IH. lia.
Qed.

(** Planning from the existing instances proposes them again, and the
    validator counts them against what they have left free: with at least
    one instance in the inventory, the plan passes exactly when the
    account holds at most half of each allowance (twice the AMD
    instances within 2, twice the OCPUs within 4, twice the memory within
    24) and 50 GB for each AMD and 47 GB for each ARM instance fit beside
    the existing volumes. *)
Theorem use_existing_passes_iff (os ms bs ks : list Z) :
  read_usage (resources self) = Ok (os, ms, bs, ks) ->
  amd_instances (resources self) <> [] \/ arm_instances (resources self) <> [] ->
  exists planned,
    _plan_from_existing self (resources self) = Ok planned
    /\ (_validate_proposed_config self planned = Ok tt <->
        2 * len (amd_instances (resources self)) <= 2
        /\ 2 * sum os <= 4
        /\ 2 * sum ms <= 24
        /\ 50 * len (amd_instances (resources self))
           + 47 * len (arm_instances (resources self)) + (sum bs + sum ks) <= 200
        /\ len (vcns (resources self)) <= 2).
Proof.
  intros U N. destruct (read_usage_inv _ _ _ _ _ U) as [Ho Hm].
  pose proof (available_resources_of_usage self os ms bs ks U) as A.
  unfold _plan_from_existing. rewrite Ho, Hm. cbn [bind].
  assert (G : forall planned,
             planned =
             {| amd_micro_instance_count := len (values (amd_instances (resources self)));
                amd_micro_boot_volume_size_gb := 50;
                amd_micro_hostnames :=
                  map first_field (values (amd_instances (resources self)));
                amd_block_volume_size_gb := 0;
                arm_flex_instance_count := len (values (arm_instances (resources self)));
                arm_flex_ocpus_per_instance := os;
                arm_flex_memory_per_instance := ms;
                arm_flex_boot_volume_size_gb :=
                  replicate FREE_TIER_MIN_BOOT_VOLUME_GB
                    (List.length (values (arm_instances (resources self))));
                arm_flex_hostnames :=
                  map first_field (values (arm_instances (resources self)));
                arm_block_volume_sizes :=
                  replicate 0 (List.length (values (arm_instances (resources self)))) |} ->
             _validate_proposed_config self planned = Ok tt <->
             2 * len (amd_instances (resources self)) <= 2
             /\ 2 * sum os <= 4
             /\ 2 * sum ms <= 24
             /\ 50 * len (amd_instances (resources self))
                + 47 * len (arm_instances (resources self)) + (sum bs + sum ks) <= 200
             /\ len (vcns (resources self)) <= 2).
  { intros planned ->. rewrite (validate_ok_iff self _ _ _ _ _ A).
    unfold proposed_storage.
    cbn [amd_micro_instance_count amd_micro_boot_volume_size_gb
         amd_block_volume_size_gb arm_flex_ocpus_per_instance
         arm_flex_memory_per_instance arm_flex_boot_volume_size_gb
         arm_block_volume_sizes].
    rewrite !sum_replicate. unfold values, FREE_TIER_MIN_BOOT_VOLUME_GB.
    rewrite !len_map. unfold len. rewrite length_map. lia. }
  unfold values in *.
  destruct (amd_instances (resources self)) as [|amd amds];
    destruct (arm_instances (resources self)) as [|arm arms];
    [destruct N as [N|N]; now elim N | | | ];
    (eexists; split; [reflexivity | apply G; reflexivity]).
Qed.

Lemma bindM_eq {A B : Type} (m : M A) (k : A -> M B) (inp inp' : list string) (a : A) :
  m inp = Ok (a, inp') -> bindM m k inp = k a inp'.
Proof. intros H. unfold bindM. now rewrite H. Qed.

(** A user who answers every prompt of [_plan_custom] with an empty line
    gets a plan: no AMD instance and, when an ARM base image is known and
    OCPUs are left, one ARM instance with all the OCPUs left, the memory
    left up to 6 GB for each of these OCPUs (at least 1 GB) and a 50 GB
    boot volume; no instance at all otherwise. *)
Theorem custom_defaults_plan (ctx : OciContext) (os ms bs ks : list Z)
    (rest : list string) :
  read_usage (resources self) = Ok (os, ms, bs, ks) ->
  let ocpus_left := 4 - sum os in
  let memory_left := 24 - sum ms in
  (truthy (ubuntu_arm_image_ocid ctx) = true -> 0 < ocpus_left ->
   _plan_custom self ctx (repeat EmptyString 6 ++ rest)%list
   = Ok ({| amd_micro_instance_count := 0;
            amd_micro_boot_volume_size_gb := 50;
            amd_micro_hostnames := [];
            amd_block_volume_size_gb := 0;
            arm_flex_instance_count := 1;
            arm_flex_ocpus_per_instance := [ocpus_left];
            arm_flex_memory_per_instance :=
              [Z.max 1 (Z.min memory_left (ocpus_left * 6))];
            arm_flex_boot_volume_size_gb := [50];
            arm_flex_hostnames := ["arm-instance-1"];
            arm_block_volume_sizes := [0] |}, rest))
  /\ (truthy (ubuntu_arm_image_ocid ctx) = false \/ ocpus_left <= 0 ->
      _plan_custom self ctx (EmptyString :: rest)
      = Ok ({| amd_micro_instance_count := 0;
               amd_micro_boot_volume_size_gb := 50;
               amd_micro_hostnames := [];
               amd_block_volume_size_gb := 0;
               arm_flex_instance_count := 0;
               arm_flex_ocpus_per_instance := [];
               arm_flex_memory_per_instance := [];
               arm_flex_boot_volume_size_gb := [];
               arm_flex_hostnames := [];
               arm_block_volume_sizes := [] |}, rest)).
Proof.
  intros U. cbv zeta.
  pose proof (available_resources_of_usage self os ms bs ks U) as A.
  unfold _plan_custom. rewrite A.
  split.
  - intros I P. cbn [repeat app].
    erewrite bindM_eq by reflexivity. cbv iota beta.
    erewrite bindM_eq by (apply prompt_int_range_default; lia).
    change (0 =? 0) with true. cbv iota beta.
    erewrite bindM_eq by reflexivity.
    erewrite bindM_eq by reflexivity.
    rewrite I. pose proof P as P'. apply Z.gtb_lt in P'. rewrite P'. cbn [andb].
    erewrite (bindM_eq (bindM _ _)).
    2:{ erewrite bindM_eq
          by (apply prompt_int_range_default; unfold FREE_TIER_MAX_ARM_INSTANCES; lia).
        change (range 1 (1 + 1)) with [1]. cbn [for_each].
        erewrite (bindM_eq (bindM _ _)).
        2:{ erewrite bindM_eq.
            2:{ unfold arm_loop_body.
                erewrite bindM_eq by reflexivity.
                cbn [rem_ocpus rem_memory arm_vars_init].
                erewrite bindM_eq by (apply prompt_int_range_default; lia).
                erewrite bindM_eq by (apply prompt_int_range_default; lia).
                erewrite bindM_eq by (apply prompt_int_range_default; lia).
                reflexivity. }
            reflexivity. }
        reflexivity. }
    cbv iota beta. unfold ret.
    replace (Z.max 1 (4 - sum os)) with (4 - sum os) by lia.
    reflexivity.
  - intros H.
    erewrite bindM_eq by reflexivity. cbv iota beta.
    erewrite bindM_eq by (apply prompt_int_range_default; lia).
    change (0 =? 0) with true. cbv iota beta.
    erewrite bindM_eq by reflexivity.
    erewrite bindM_eq by reflexivity.
    replace (truthy (ubuntu_arm_image_ocid ctx) && (4 - sum os >? 0))%bool with false.
    + reflexivity.
    + destruct H as [-> | H]; [reflexivity | ].
      destruct (Z.gtb_spec (4 - sum os) 0); [lia | ]. now rewrite andb_false_r.
Qed.

End PlanThenValidate.

Section PlanThenValidateExamples.

Import OCI OCIPlan Fixtures InventoryFixtures.

(** The user chooses the second configuration and asks for one more
    instance of each class. *)
Lemma plan_configuration_lengths_witness :
  exists planned,
    _plan_configuration (interactive_workflow one_amd_one_arm) mock_oci_context
      one_amd_one_arm ("2" :: one_more_of_each)
    = Ok (planned, [])
    /\ lists_match_count planned.
Proof.
  eexists. split; [vm_compute; reflexivity | ].
  exact (proj1 (plan_configuration_lengths (interactive_workflow one_amd_one_arm)
                  mock_oci_context one_amd_one_arm ("2" :: one_more_of_each) [] _ eq_refl)).
Defined.

(** An account with one AMD instance and one ARM instance of 2 OCPUs and
    12 GB holds half of each allowance and 97 GB: its own instances pass. *)
Lemma use_existing_passes_iff_witness :
  exists planned,
    _plan_from_existing (workflow one_amd_one_arm) one_amd_one_arm = Ok planned
    /\ _validate_proposed_config (workflow one_amd_one_arm) planned = Ok tt.
Proof.
  assert (U : read_usage (resources (workflow one_amd_one_arm))
              = Ok ([2], [12], [50; 47], [])) by (vm_compute; reflexivity).
  assert (N : amd_instances (resources (workflow one_amd_one_arm)) <> []
              \/ arm_instances (resources (workflow one_amd_one_arm)) <> [])
    by (left; vm_compute; discriminate).
  destruct (use_existing_passes_iff (workflow one_amd_one_arm) [2] [12] [50; 47] [] U N)
    as (planned & E & I).
  exists planned. split; [exact E | ].
  apply I. vm_compute. repeat split; discriminate.
Defined.

(** On that account 2 OCPUs and 12 GB are left, and six empty answers
    give one ARM instance with both. *)
Lemma custom_defaults_plan_witness :
  exists planned,
    _plan_custom (workflow one_amd_one_arm) mock_oci_context (repeat EmptyString 6)
    = Ok (planned, [])
    /\ amd_micro_instance_count planned = 0
    /\ arm_flex_ocpus_per_instance planned = [2]
    /\ arm_flex_memory_per_instance planned = [12].
Proof.
  assert (U : read_usage (resources (workflow one_amd_one_arm))
              = Ok ([2], [12], [50; 47], [])) by (vm_compute; reflexivity).
  eexists. split.
  - exact (proj1 (custom_defaults_plan (workflow one_amd_one_arm) mock_oci_context
                    [2] [12] [50; 47] [] [] U) eq_refl eq_refl).
  - repeat split.
Defined.

End PlanThenValidateExamples.

(* ================================================================== *)
(** * Properties of the inventory *)
(* ================================================================== *)

Section Inventory.

Import OCI OCIPlan.

(** ** Assignments to fresh keys *)

Lemma setitem_fresh (d : dict) (k v : string) :
  ~ In k (keys d) -> setitem d k v = (d ++ [(k, v)])%list.
Proof.
  induction d as [|[k' v'] d IH]; cbn; [reflexivity | ].
  intros H. destruct (String.eqb_spec k' k) as [->|_]; [elim H; now left | ].
  rewrite IH; [reflexivity | intros Hk; apply H; now right].
Qed.

Lemma fold_setitem_fresh {A : Type} (p : A -> bool) (key val : A -> string)
    (xs : list A) (d : dict) :
  NoDup (map key xs) -> (forall x, In x xs -> ~ In (key x) (keys d)) ->
  fold_left (fun d x => if p x then setitem d (key x) (val x) else d) xs d
  = (d ++ map (fun x => (key x, val x)) (filter p xs))%list.
Proof.
  revert d. induction xs as [|x xs IH]; intros d N F; cbn [fold_left filter map].
  - now rewrite app_nil_r.
  - cbn [map] in N. apply NoDup_cons_iff in N as [Nx N].
    destruct (p x).
    + rewrite setitem_fresh by (apply F; now left).
      rewrite IH; [cbn [map]; now rewrite <- app_assoc | assumption | ].
      intros y Hy. unfold keys. rewrite map_app, in_app_iff. cbn [map fst In].
      intros [H | [H | []]].
      * now apply (F y (or_intror Hy)).
      * apply Nx. rewrite H. now apply in_map.
    + apply IH; [assumption | intros y Hy; apply F; now right].
Qed.

Lemma fold_setitem_empty {A : Type} (p : A -> bool) (key val : A -> string) (xs : list A) :
  NoDup (map key xs) ->
  values (fold_left (fun d x => if p x then setitem d (key x) (val x) else d) xs [])
  = map val (filter p xs).
Proof.
  intros N. rewrite fold_setitem_fresh by (assumption || (intros x _ [])).
  rewrite app_nil_l. unfold values. now rewrite map_map.
Qed.

(** ** What each step of the inventory leaves alone *)

Lemma shapes_differ (shape : string) :
  String.eqb shape FREE_TIER_ARM_SHAPE = true ->
  String.eqb shape FREE_TIER_AMD_SHAPE = false.
Proof. intros H. apply String.eqb_eq in H. now subst shape. Qed.

Lemma compute_inventory_fields (instances : list Instance) (res : ExistingResources) :
  let res' := _inventory_compute_instances instances res in
  amd_instances res'
  = fold_left (fun d x => if is_amd x then setitem d (inst_id x) (base_of x) else d)
      instances (amd_instances res)
  /\ arm_instances res'
     = fold_left (fun d x => if is_arm x then setitem d (inst_id x) (arm_record_of x) else d)
         instances (arm_instances res)
  /\ vcns res' = vcns res
  /\ boot_volumes res' = boot_volumes res
  /\ block_volumes res' = block_volumes res.
Proof.
  cbv zeta. unfold _inventory_compute_instances.
  revert res. induction instances as [|x xs IH]; intros res; cbn [fold_left].
  - repeat split.
  - destruct (IH (record_instance res x)) as (Ha & Hr & Hv & Hb & Hk).
    rewrite Ha, Hr, Hv, Hb, Hk. clear IH Ha Hr Hv Hb Hk.
    unfold record_instance, is_amd, is_arm.
    destruct (String.eqb (inst_lifecycle_state x) "TERMINATED"); cbn [negb andb];
      [repeat split | ].
    destruct (String.eqb (inst_shape x) FREE_TIER_AMD_SHAPE) eqn:Ea.
    + destruct (String.eqb (inst_shape x) FREE_TIER_ARM_SHAPE) eqn:Er;
        [rewrite (shapes_differ _ Er) in Ea; discriminate | ].
      repeat split.
    + destruct (String.eqb (inst_shape x) FREE_TIER_ARM_SHAPE); repeat split.
Qed.

Lemma record_vcn_fields (res res' : ExistingResources) (vcn : Vcn) :
  record_vcn res vcn = Ok res' ->
  amd_instances res' = amd_instances res
  /\ arm_instances res' = arm_instances res
  /\ boot_volumes res' = boot_volumes res
  /\ block_volumes res' = block_volumes res
  /\ vcns res'
     = (if vcn_is_available vcn then setitem (vcns res) (vcn_id vcn) (vcn_record_of vcn)
        else vcns res).
Proof.
  unfold record_vcn, vcn_is_available, vcn_record_of.
  destruct (String.eqb (vcn_lifecycle_state vcn) "AVAILABLE"); cbn [negb].
  - destruct (vcn_cidr_blocks vcn) as [|cidr blocks]; cbn; [discriminate | ].
    intros [= <-]. cbn. repeat split.
  - intros [= <-]. repeat split.
Qed.

Lemma networking_inventory_fields (vcn_list : list Vcn) (res res' : ExistingResources) :
  _inventory_networking_resources vcn_list res = Ok res' ->
  amd_instances res' = amd_instances res
  /\ arm_instances res' = arm_instances res
  /\ boot_volumes res' = boot_volumes res
  /\ block_volumes res' = block_volumes res
  /\ vcns res'
     = fold_left (fun d x => if vcn_is_available x
                             then setitem d (vcn_id x) (vcn_record_of x) else d)
         vcn_list (vcns res).
Proof.
  revert res. induction vcn_list as [|vcn rest IH]; intros res; cbn [_inventory_networking_resources fold_left].
  - intros [= <-]. repeat split.
  - destruct (record_vcn res vcn) as [res1|] eqn:E; cbn [bind]; [ | discriminate].
    intros H. apply IH in H as (Ha & Hr & Hb & Hk & Hv).
    apply record_vcn_fields in E as (Ea & Er & Eb & Ek & Ev).
    rewrite Ha, Hr, Hb, Hk, Hv, Ea, Er, Eb, Ek, Ev. repeat split.
Qed.

(** What a successful inventory of an account that was empty for the
    workflow has stored. *)
Lemma inventory_all_fields (instances : list Instance) (vcn_list : list Vcn)
    (boots blocks : list Volume) (res : ExistingResources) :
  _inventory_all_resources instances vcn_list boots blocks empty_resources = Ok res ->
  NoDup (map inst_id instances) -> NoDup (map vcn_id vcn_list) ->
  NoDup (map vol_id boots) -> NoDup (map vol_id blocks) ->
  values (amd_instances res) = map base_of (filter is_amd instances)
  /\ values (arm_instances res) = map arm_record_of (filter is_arm instances)
  /\ values (vcns res) = map vcn_record_of (filter vcn_is_available vcn_list)
  /\ values (boot_volumes res) = map volume_record_of (filter is_available boots)
  /\ values (block_volumes res) = map volume_record_of (filter is_available blocks).
Proof.
  unfold _inventory_all_resources. intros H Ni Nv Nb Nk.
  destruct (_inventory_networking_resources vcn_list
              (_inventory_compute_instances instances empty_resources)) as [res1|] eqn:E;
    cbn [bind] in H; [ | discriminate].
  injection H as <-.
  apply networking_inventory_fields in E as (Ha & Hr & Hb & Hk & Hv).
  destruct (compute_inventory_fields instances empty_resources) as (Ca & Cr & Cv & Cb & Ck).
  cbv zeta in *. unfold _inventory_storage_resources.
  cbn [amd_instances arm_instances vcns boot_volumes block_volumes].
  rewrite Ha, Hr, Hb, Hk, Hv, Ca, Cr, Cv, Cb, Ck.
  cbn [amd_instances arm_instances vcns boot_volumes block_volumes empty_resources].
  rewrite !fold_setitem_empty by assumption.
  repeat split;
    apply (fold_setitem_empty is_available vol_id volume_record_of); assumption.
Qed.


(** ** Reading the records back *)

Lemma mapM_map_ok {A B C : Type} (f : B -> result C) (h : A -> B) (g : A -> C)
    (xs : list A) :
  (forall x, In x xs -> f (h x) = Ok (g x)) -> mapM f (map h xs) = Ok (map g xs).
Proof.
  intros H. induction xs as [|x xs IH]; cbn; [reflexivity | ].
  rewrite (H x (or_introl eq_refl)). cbn.
  rewrite IH by (intros y Hy; apply H; now right). reflexivity.
Qed.

Lemma forallb_In {A : Type} (p : A -> bool) (xs : list A) (x : A) :
  forallb p xs = true -> In x xs -> p x = true.
Proof. intros H. now apply forallb_forall. Qed.

Lemma no_bar_arm_shape : no_bar FREE_TIER_ARM_SHAPE = true.
Proof. reflexivity. Qed.

Lemma is_arm_shape (x : Instance) :
  is_arm x = true -> inst_shape x = FREE_TIER_ARM_SHAPE.
Proof.
  unfold is_arm. rewrite andb_true_iff. intros [_ H]. now apply String.eqb_eq.
Qed.

Lemma arm_record_of_reads (x : Instance) :
  is_arm x = true -> instance_text_ok x = true ->
  field_int (arm_record_of x) 5 = Ok (inst_ocpus x)
  /\ field_int (arm_record_of x) 6 = Ok (inst_memory_in_gbs x).
Proof.
  intros Hs Ht. unfold instance_text_ok in Ht. rewrite !andb_true_iff in Ht.
  destruct Ht as [[[H1 H2] H4] H5].
  unfold arm_record_of, base_of. rewrite (is_arm_shape x Hs).
  apply (arm_record_reads _ _ _ _ _ _ _ H1 H2 no_bar_arm_shape H4 H5).
Qed.

(** What the inventory stores, [_available_resources] reads back.  After
    a successful inventory of a listing with distinct identifiers in which
    no name, state or address of an ARM instance and no name of a volume
    contains [|], every record can be read, the four allowances are the
    caps minus the AMD instances that are not terminated, the OCPUs and
    the memory of the ARM instances that are not terminated and the sizes
    of the boot and block volumes that are available, and the VCNs counted
    are the available ones. *)
Theorem inventory_sets_allowances (self : CloudBooterWorkflow)
    (instances : list Instance) (vcn_list : list Vcn) (boots blocks : list Volume) :
  _inventory_all_resources instances vcn_list boots blocks empty_resources
  = Ok (resources self) ->
  NoDup (map inst_id instances) -> NoDup (map vcn_id vcn_list) ->
  NoDup (map vol_id boots) -> NoDup (map vol_id blocks) ->
  forallb instance_text_ok (filter is_arm instances) = true ->
  forallb volume_text_ok (filter is_available boots) = true ->
  forallb volume_text_ok (filter is_available blocks) = true ->
  let arm := filter is_arm instances in
  let used_storage :=
    sum (map vol_size_in_gbs (filter is_available boots))
    + sum (map vol_size_in_gbs (filter is_available blocks)) in
  read_usage (resources self)
  = Ok (map inst_ocpus arm, map inst_memory_in_gbs arm,
        map vol_size_in_gbs (filter is_available boots),
        map vol_size_in_gbs (filter is_available blocks))
  /\ _available_resources self
     = Ok (2 - len (filter is_amd instances), 4 - sum (map inst_ocpus arm),
           24 - sum (map inst_memory_in_gbs arm), 200 - used_storage)
  /\ len (vcns (resources self)) = len (filter vcn_is_available vcn_list).
Proof.
  intros H Ni Nv Nb Nk Ti Tb Tk. cbv zeta.
  destruct (inventory_all_fields _ _ _ _ _ H Ni Nv Nb Nk) as (Ha & Hr & Hv & Hb & Hk).
  assert (U : read_usage (resources self)
              = Ok (map inst_ocpus (filter is_arm instances),
                    map inst_memory_in_gbs (filter is_arm instances),
                    map vol_size_in_gbs (filter is_available boots),
                    map vol_size_in_gbs (filter is_available blocks))).
  { unfold read_usage. rewrite Hr, Hb, Hk.
    rewrite (mapM_map_ok _ arm_record_of inst_ocpus), (mapM_map_ok _ arm_record_of inst_memory_in_gbs).
    - rewrite !(mapM_map_ok _ volume_record_of vol_size_in_gbs); [reflexivity | | ];
        intros x Hx; apply volume_record_reads;
        [apply (forallb_In _ _ _ Tk Hx) | apply (forallb_In _ _ _ Tb Hx)].
    - intros x Hx. apply arm_record_of_reads;
        [now apply filter_In in Hx | apply (forallb_In _ _ _ Ti Hx)].
    - intros x Hx. apply arm_record_of_reads;
        [now apply filter_In in Hx | apply (forallb_In _ _ _ Ti Hx)]. }
  split; [exact U | ]. split.
  - rewrite (available_resources_of_usage self _ _ _ _ U).
    unfold len. rewrite <- (length_map snd (amd_instances (resources self))).
    fold (values (amd_instances (resources self))). rewrite Ha, length_map. reflexivity.
  - unfold len. rewrite <- (length_map snd (vcns (resources self))).
    fold (values (vcns (resources self))). rewrite Hv, length_map. reflexivity.
Qed.


(** ** A [|] in a display name *)

Lemma split_nonempty (sep : ascii) (s : string) : (1 <= List.length (split sep s))%nat.
Proof.
  induction s as [|c s IH]; cbn; [lia | ].
  destruct (Ascii.eqb c sep); [cbn; lia | ].
  destruct (split sep s); cbn in *; lia.
Qed.

Lemma split_length_app (sep : ascii) (a b : string) :
  List.length (split sep (a ++ String sep b))
  = (List.length (split sep a) + List.length (split sep b))%nat.
Proof.
  induction a as [|c a IH]; cbn.
  - now rewrite Ascii.eqb_refl.
  - destruct (Ascii.eqb c sep); [cbn; now rewrite IH | ].
    pose proof (split_nonempty sep (a ++ String sep b)) as N1.
    pose proof (split_nonempty sep a) as N2.
    destruct (split sep (a ++ String sep b)), (split sep a); cbn in *; lia.
Qed.

Lemma int_of_digits_error (s : string) (e : exn) :
  int_of_digits s = Raise e -> e = ValueError.
Proof.
  unfold int_of_digits. destruct (drop_underscores false s) as [[|c r]|];
    [congruence | | congruence].
  destruct (NilEmpty.uint_of_string (String c r)); congruence.
Qed.

Lemma int_error (s : string) (e : exn) : int s = Raise e -> e = ValueError.
Proof.
  unfold int. destruct (rstrip is_int_space (lstrip is_int_space s)) as [|c r];
    [congruence | ].
  destruct (Ascii.eqb c "-").
  - destruct (int_of_digits r) eqn:E; cbn; [discriminate | ].
    intros [= <-]. now apply int_of_digits_error in E.
  - destruct (Ascii.eqb c "+"); apply int_of_digits_error.
Qed.

(** The sixth field of the record of an ARM instance is there, whatever
    the texts of the instance. *)
Lemma arm_record_field_error (x : Instance) (e : exn) :
  field_int (arm_record_of x) 5 = Raise e -> e = ValueError.
Proof.
  unfold field_int, field_str, index.
  assert (L : (7 <= List.length (split "|" (arm_record_of x)))%nat).
  { unfold arm_record_of, arm_record, base_of, instance_base.
    cbn [String.append]. repeat (rewrite str_app_assoc; cbn [String.append]).
    rewrite !split_length_app.
    pose proof (split_nonempty "|" (inst_display_name x)).
    pose proof (split_nonempty "|" (inst_lifecycle_state x)).
    pose proof (split_nonempty "|" (inst_shape x)).
    pose proof (split_nonempty "|" (inst_public_ip x)).
    pose proof (split_nonempty "|" (inst_private_ip x)).
    pose proof (split_nonempty "|" (str_Z (inst_ocpus x))).
    pose proof (split_nonempty "|" (str_Z (inst_memory_in_gbs x))).
    lia. }
  destruct (nth_error (split "|" (arm_record_of x)) 5) as [v|] eqn:E.
  - cbn [bind]. apply int_error.
  - apply nth_error_None in E. lia.
Qed.

Lemma mapM_raises {A B : Type} (f : A -> result B) (xs : list A) (x : A) (e0 : exn) :
  (forall y e, In y xs -> f y = Raise e -> e = e0) ->
  In x xs -> f x = Raise e0 -> mapM f xs = Raise e0.
Proof.
  induction xs as [|y ys IH]; intros H Hin Hx; [destruct Hin | ].
  cbn [mapM]. destruct (f y) as [v|e] eqn:E; cbn [bind].
  - destruct Hin as [-> | Hin]; [congruence | ].
    rewrite IH; [reflexivity | intros z e Hz; apply H; now right | assumption | assumption].
  - now rewrite (H y e (or_introl eq_refl) E).
Qed.

Lemma prompt_int_range_error (text : string) (lo hi default : Z) (inp : list string)
    (e : exn) :
  prompt_int_range text lo hi default inp = Raise e -> e = Abort.
Proof.
  induction inp as [|line rest IH]; cbn [prompt_int_range]; [congruence | ].
  destruct (if truthy_str line then int line else Ok default) as [value|]; [ | exact IH].
  destruct ((lo <=? value) && (value <=? hi))%bool; [discriminate | exact IH].
Qed.

(** A [|] in the display name of an ARM instance moves the fields of its
    record by one, so that the private address is read where the OCPUs
    are expected.  When that address is no integer (as [10.0.0.3] or
    [none]), [_available_resources] raises [ValueError] after the
    inventory has succeeded, and so does every way of making a plan: no
    plan is returned; [_plan_configuration] raises [ValueError], or
    [Abort] when the input ends before a configuration is chosen. *)
Theorem bar_in_name_stops_planning (self : CloudBooterWorkflow)
    (instances : list Instance) (vcn_list : list Vcn) (boots blocks : list Volume)
    (instance : Instance) (a b : string) :
  _inventory_all_resources instances vcn_list boots blocks empty_resources
  = Ok (resources self) ->
  NoDup (map inst_id instances) -> NoDup (map vcn_id vcn_list) ->
  NoDup (map vol_id boots) -> NoDup (map vol_id blocks) ->
  In instance instances -> is_arm instance = true ->
  inst_display_name instance = a ++ "|" ++ b ->
  no_bar a = true -> no_bar b = true ->
  no_bar (inst_lifecycle_state instance) = true ->
  no_bar (inst_public_ip instance) = true ->
  no_bar (inst_private_ip instance) = true ->
  is_ok (int (inst_private_ip instance)) = false ->
  _available_resources self = Raise ValueError
  /\ _plan_from_existing self (resources self) = Raise ValueError
  /\ _plan_maximum self = Raise ValueError
  /\ forall ctx inp,
       _plan_custom self ctx inp = Raise ValueError
       /\ (_plan_configuration self ctx (resources self) inp = Raise ValueError
           \/ _plan_configuration self ctx (resources self) inp = Raise Abort).
Proof.
  intros H Ni Nv Nb Nk Hin Hs Hn Ha Hb Hst Hpu Hpr Hip.
  destruct (inventory_all_fields _ _ _ _ _ H Ni Nv Nb Nk) as (_ & Hr & _).
  assert (F : field_int (arm_record_of instance) 5 = Raise ValueError).
  { unfold field_int, field_str, arm_record_of, arm_record, base_of, instance_base.
    rewrite Hn, (is_arm_shape _ Hs). cbn [String.append].
    repeat (rewrite str_app_assoc; cbn [String.append]).
    rewrite (split_app_sep _ _ _ Ha), (split_app_sep _ _ _ Hb),
      (split_app_sep _ _ _ Hst), (split_app_sep _ _ _ no_bar_arm_shape),
      (split_app_sep _ _ _ Hpu), (split_app_sep _ _ _ Hpr).
    cbn [index nth_error bind].
    destruct (int (inst_private_ip instance)) as [v|e] eqn:E; [discriminate Hip | ].
    now rewrite (int_error _ _ E). }
  assert (R : mapM (fun v => field_int v 5) (values (arm_instances (resources self)))
              = Raise ValueError).
  { rewrite Hr. apply (mapM_raises _ _ (arm_record_of instance)).
    - intros y e Hy. apply in_map_iff in Hy as (x & <- & _). apply arm_record_field_error.
    - apply in_map. apply filter_In. now split.
    - exact F. }
  assert (A : _available_resources self = Raise ValueError).
  { unfold _available_resources. now rewrite R. }
  assert (E : _plan_from_existing self (resources self) = Raise ValueError).
  { unfold _plan_from_existing. now rewrite R. }
  assert (X : _plan_maximum self = Raise ValueError).
  { unfold _plan_maximum. now rewrite A. }
  assert (C : forall ctx inp, _plan_custom self ctx inp = Raise ValueError).
  { intros ctx inp. unfold _plan_custom, bindM, lift. now rewrite A. }
  repeat split; try assumption; [apply C | ].
  unfold _plan_configuration.
  destruct (auto_use_existing (runtime self) || non_interactive (runtime self))%bool.
  - left. unfold lift. now rewrite E.
  - unfold bindM.
    destruct (prompt_int_range "Choose configuration" 1 3 1 inp) as [[choice rest]|e] eqn:P.
    + left. destruct (choice =? 1); [unfold lift; now rewrite E | ].
      destruct (choice =? 2); [apply C | unfold lift; now rewrite X].
    + right. now rewrite (prompt_int_range_error _ _ _ _ _ _ P).
Qed.

(** ** Failure of the inventory *)

Lemma networking_inventory_outcome (vcn_list : list Vcn) (res : ExistingResources) :
  match _inventory_networking_resources vcn_list res with
  | Ok _ => forall vcn, In vcn vcn_list -> vcn_is_available vcn = true ->
                        vcn_cidr_blocks vcn <> []
  | Raise e => e = IndexError
               /\ exists vcn, In vcn vcn_list /\ vcn_is_available vcn = true
                              /\ vcn_cidr_blocks vcn = []
  end.
Proof.
  revert res. induction vcn_list as [|vcn rest IH]; intros res;
    cbn [_inventory_networking_resources].
  - intros vcn [].
  - unfold record_vcn at 1.
    destruct (vcn_is_available vcn) eqn:Ev; unfold vcn_is_available in Ev; rewrite Ev;
      cbn [negb].
    + destruct (vcn_cidr_blocks vcn) as [|cidr blocks] eqn:Ec; cbn [index nth_error bind].
      * split; [reflexivity | ]. exists vcn. repeat split; [now left | exact Ev | exact Ec].
      * match goal with |- context [_inventory_networking_resources rest ?r] =>
          specialize (IH r); destruct (_inventory_networking_resources rest r) end.
        -- intros v [<- | Hv] Ha; [congruence | now apply IH].
        -- destruct IH as (-> & v & Hv & Hrest). split; [reflexivity | ].
           exists v. split; [now right | exact Hrest].
    + cbn [bind]. specialize (IH res).
      destruct (_inventory_networking_resources rest res).
      * intros v [<- | Hv] Ha; [unfold vcn_is_available in Ha; congruence | now apply IH].
      * destruct IH as (-> & v & Hv & Hrest). split; [reflexivity | ].
        exists v. split; [now right | exact Hrest].
Qed.

(** The inventory of the instances and of the volumes never fails; the
    inventory as a whole fails on the first available VCN that has no
    CIDR block, with [IndexError], and on nothing else. *)
Theorem inventory_fails_iff (instances : list Instance) (vcn_list : list Vcn)
    (boots blocks : list Volume) (res : ExistingResources) :
  (is_ok (_inventory_all_resources instances vcn_list boots blocks res) = false <->
   exists vcn, In vcn vcn_list /\ vcn_is_available vcn = true /\ vcn_cidr_blocks vcn = [])
  /\ (forall e, _inventory_all_resources instances vcn_list boots blocks res = Raise e ->
                e = IndexError).
Proof.
  unfold _inventory_all_resources.
  pose proof (networking_inventory_outcome vcn_list
                (_inventory_compute_instances instances res)) as O.
  destruct (_inventory_networking_resources vcn_list
              (_inventory_compute_instances instances res)) as [res1|e1]; cbn [bind is_ok].
  - split; [ | discriminate]. split; [discriminate | ].
    intros (vcn & Hin & Ha & Hc). now elim (O vcn Hin Ha).
  - destruct O as (-> & W). split; [now split | now intros e [= <-]].
Qed.

End Inventory.

Section InventoryExamples.

Import OCI OCIPlan Fixtures InventoryFixtures.

Ltac distinct :=
  repeat (apply NoDup_cons; [cbn; intuition discriminate | ]); apply NoDup_nil.

(** One AMD instance, a running and a stopped ARM instance with 3 OCPUs
    and 18 GB together, 157 GB of available volumes and one available
    VCN. *)
Lemma inventory_sets_allowances_witness :
  _available_resources (workflow (inventoried listed_instances)) = Ok (1, 1, 6, 43)
  /\ len (vcns (inventoried listed_instances)) = 1.
Proof.
  assert (Ni : NoDup (map inst_id listed_instances)) by distinct.
  assert (Nv : NoDup (map vcn_id listed_vcns)) by distinct.
  assert (Nb : NoDup (map vol_id listed_boot_volumes)) by distinct.
  assert (Nk : NoDup (map vol_id listed_block_volumes)) by distinct.
  exact (proj2 (inventory_sets_allowances (workflow (inventoried listed_instances))
                  listed_instances listed_vcns listed_boot_volumes listed_block_volumes
                  eq_refl Ni Nv Nb Nk eq_refl eq_refl eq_refl)).
Defined.

(** After the ARM instance has been renamed to [db|primary], its address
    [10.0.0.3] is read as its OCPUs. *)
Lemma bar_in_name_stops_planning_witness :
  is_ok (_inventory_all_resources listed_instances_renamed listed_vcns
           listed_boot_volumes listed_block_volumes empty_resources) = true
  /\ _available_resources (workflow (inventoried listed_instances_renamed))
     = Raise ValueError
  /\ _plan_from_existing (workflow (inventoried listed_instances_renamed))
       (inventoried listed_instances_renamed)
     = Raise ValueError.
Proof.
  split; [reflexivity | ].
  assert (Ni : NoDup (map inst_id listed_instances_renamed)) by distinct.
  assert (Nv : NoDup (map vcn_id listed_vcns)) by distinct.
  assert (Nb : NoDup (map vol_id listed_boot_volumes)) by distinct.
  assert (Nk : NoDup (map vol_id listed_block_volumes)) by distinct.
  destruct (bar_in_name_stops_planning (workflow (inventoried listed_instances_renamed))
              listed_instances_renamed listed_vcns listed_boot_volumes
              listed_block_volumes
              (instance "ocid1.instance.oc1..db" "db|primary" "RUNNING"
                 FREE_TIER_ARM_SHAPE "10.0.0.3" 2 12)
              "db" "primary" eq_refl Ni Nv Nb Nk (or_intror (or_introl eq_refl))
              eq_refl eq_refl eq_refl eq_refl eq_refl eq_refl eq_refl eq_refl)
    as (A & E & _).
  now split.
Defined.

End InventoryExamples.
